(** * blockchain_ledger: the ledger / reconciliation subsystem

    A shallow embedding of the Go packages [blockchain], [models], [storage],
    [manager], [supabase] and [sync], and the properties of the hash chain, the
    two ledgers, the ledger managers, the sync engine and the webhook ingest.

    Conventions of the embedding.
    - Go strings are byte strings: [string].  Go [int] is a 64-bit signed
      integer: a [Z] with the wrap-around of [+] written out ([int_add]).
    - [map[string]interface{}] is an association list of JSON values with the
      operations of a Go map ([Json.get], [Json.set]); [json.Marshal] sorts the
      keys, so the order of the association list is never observed by a hash.
    - [time.Now()] and [uuid.New()] are readings of the environment.  The pure
      packages take the reading as an argument; the stateful packages draw it
      from the oracles carried by the world ([Now], [NewUUID]).
    - A function that returns [error] is a computation in the monad [M]; the
      error is the message built by [fmt.Errorf].  [log.Printf] is dropped.
    - The files under [blockchain_data/] and [data_records/] are fields of the
      world; reading and writing a local file does not fail, so the branches
      of the source that report a failed [os.ReadFile], [os.WriteFile] or
      [json.Marshal] are not reachable in the embedding.  The external store
      is reached through [Execute], of which nothing is assumed: every request
      may fail or answer anything. *)

From Stdlib Require Import ZArith String Ascii List Lia Bool.
From stdpp Require Import base option list strings gmap pretty.

#[global] Set Warnings "-register-all".

Local Open Scope string_scope.
Local Open Scope list_scope.

(** ** Go's [int] *)


(** Two's-complement wrap-around of a 64-bit signed integer. *)
Definition int_wrap (x : Z) : Z := ((x + 2 ^ 63) mod 2 ^ 64 - 2 ^ 63)%Z.

Definition int_add (a b : Z) : Z := int_wrap (a + b).

(** ** Results of fallible calls *)

(** The outcome of a call: a value, an [error] (its message), or a run-time
    panic, which no [err != nil] test intercepts. *)
Inductive Res (A : Type) : Type :=
| Ok (a : A)
| Err (msg : string)
| Panic (msg : string).
Arguments Ok {A} a.
Arguments Err {A} msg.
Arguments Panic {A} msg.


(** ** crypto/sha256 and encoding/hex *)

Module Sha256.
Local Open Scope Z_scope.

Definition mask32 : Z := 0xFFFFFFFF.

Definition add32 (x y : Z) : Z := Z.land (x + y) mask32.

(** [bits.RotateLeft32 x (-n)] *)
Definition rotr (x n : Z) : Z :=
  Z.lor (Z.shiftr x n) (Z.land (Z.shiftl x (32 - n)) mask32).

Definition not32 (x : Z) : Z := Z.lxor x mask32.

Definition _K : list Z :=
  [ 0x428A2F98; 0x71374491; 0xB5C0FBCF; 0xE9B5DBA5;
    0x3956C25B; 0x59F111F1; 0x923F82A4; 0xAB1C5ED5;
    0xD807AA98; 0x12835B01; 0x243185BE; 0x550C7DC3;
    0x72BE5D74; 0x80DEB1FE; 0x9BDC06A7; 0xC19BF174;
    0xE49B69C1; 0xEFBE4786; 0x0FC19DC6; 0x240CA1CC;
    0x2DE92C6F; 0x4A7484AA; 0x5CB0A9DC; 0x76F988DA;
    0x983E5152; 0xA831C66D; 0xB00327C8; 0xBF597FC7;
    0xC6E00BF3; 0xD5A79147; 0x06CA6351; 0x14292967;
    0x27B70A85; 0x2E1B2138; 0x4D2C6DFC; 0x53380D13;
    0x650A7354; 0x766A0ABB; 0x81C2C92E; 0x92722C85;
    0xA2BFE8A1; 0xA81A664B; 0xC24B8B70; 0xC76C51A3;
    0xD192E819; 0xD6990624; 0xF40E3585; 0x106AA070;
    0x19A4C116; 0x1E376C08; 0x2748774C; 0x34B0BCB5;
    0x391C0CB3; 0x4ED8AA4A; 0x5B9CCA4F; 0x682E6FF3;
    0x748F82EE; 0x78A5636F; 0x84C87814; 0x8CC70208;
    0x90BEFFFA; 0xA4506CEB; 0xBEF9A3F7; 0xC67178F2 ].

(** The eight chaining words [dig.h]. *)
Record digest : Type := Digest {
  h0 : Z; h1 : Z; h2 : Z; h3 : Z; h4 : Z; h5 : Z; h6 : Z; h7 : Z
}.

Definition init : digest :=
  Digest 0x6A09E667 0xBB67AE85 0x3C6EF372 0xA54FF53A
         0x510E527F 0x9B05688C 0x1F83D9AB 0x5BE0CD19.

(** [w[i] = p[j]<<24 | p[j+1]<<16 | p[j+2]<<8 | p[j+3]], for the sixteen
    words of a 64-byte chunk. *)
Fixpoint load_words (n : nat) (p : list Z) : list Z :=
  match n with
  | O => []
  | S n' =>
      match p with
      | b0 :: b1 :: b2 :: b3 :: p' =>
          Z.lor (Z.lor (Z.shiftl b0 24) (Z.shiftl b1 16))
                (Z.lor (Z.shiftl b2 8) b3) :: load_words n' p'
      | _ => []
      end
  end.

(** The message schedule, newest word first: [rw] holds
    [w[i-1]; w[i-2]; ...; w[0]] and is extended by [w[i]]. *)
Definition schedule_step (rw : list Z) : list Z :=
  let v1 := nth 1 rw 0 in
  let t1 := Z.lxor (Z.lxor (rotr v1 17) (rotr v1 19)) (Z.shiftr v1 10) in
  let v2 := nth 14 rw 0 in
  let t2 := Z.lxor (Z.lxor (rotr v2 7) (rotr v2 18)) (Z.shiftr v2 3) in
  add32 (add32 (add32 t1 (nth 6 rw 0)) t2) (nth 15 rw 0) :: rw.

Definition schedule (chunk : list Z) : list Z :=
  rev (Nat.iter 48 schedule_step (rev (load_words 16 chunk))).

(** One of the 64 rounds on the working variables [a..h]. *)
Definition round (s : digest) (kw : Z * Z) : digest :=
  let '(Digest a b c d e f g h) := s in
  let t1 :=
    add32 (add32 (add32 (add32 h
      (Z.lxor (Z.lxor (rotr e 6) (rotr e 11)) (rotr e 25)))
      (Z.lxor (Z.land e f) (Z.land (not32 e) g)))
      (fst kw)) (snd kw) in
  let t2 :=
    add32 (Z.lxor (Z.lxor (rotr a 2) (rotr a 13)) (rotr a 22))
          (Z.lxor (Z.lxor (Z.land a b) (Z.land a c)) (Z.land b c)) in
  Digest (add32 t1 t2) a b c (add32 d t1) e f g.

(** [blockGeneric] on one 64-byte chunk. *)
Definition block (dig : digest) (chunk : list Z) : digest :=
  let s := fold_left round (combine _K (schedule chunk)) dig in
  Digest (add32 (h0 dig) (h0 s)) (add32 (h1 dig) (h1 s))
         (add32 (h2 dig) (h2 s)) (add32 (h3 dig) (h3 s))
         (add32 (h4 dig) (h4 s)) (add32 (h5 dig) (h5 s))
         (add32 (h6 dig) (h6 s)) (add32 (h7 dig) (h7 s)).

Fixpoint blocks (n : nat) (dig : digest) (p : list Z) : digest :=
  match n with
  | O => dig
  | S n' => blocks n' (block dig (firstn 64 p)) (skipn 64 p)
  end.

(** Big-endian bytes of a [w]-byte unsigned number. *)
Fixpoint be_bytes (w : nat) (x : Z) : list Z :=
  match w with
  | O => []
  | S w' => Z.land (Z.shiftr x (8 * Z.of_nat w')) 0xFF :: be_bytes w' x
  end.

(** [checkSum]: a 0x80 byte, zero bytes up to 56 mod 64, the bit length. *)
Definition pad (msg : list Z) : list Z :=
  let len := Z.of_nat (length msg) in
  msg ++ 0x80 :: repeat 0 (Z.to_nat ((55 - len) mod 64)) ++ be_bytes 8 (8 * len).

Definition sum256 (msg : list Z) : list Z :=
  let p := pad msg in
  let d := blocks (Nat.div (length p) 64) init p in
  concat (map (be_bytes 4) [h0 d; h1 d; h2 d; h3 d; h4 d; h5 d; h6 d; h7 d]).

Definition bytes_of_string (s : string) : list Z :=
  map (fun c => Z.of_N (N_of_ascii c)) (list_ascii_of_string s).

Definition hexdigit (x : Z) : ascii :=
  if x <? 10 then ascii_of_N (Z.to_N (48 + x)) else ascii_of_N (Z.to_N (87 + x)).

(** [hex.EncodeToString] *)
Fixpoint EncodeToString (bs : list Z) : string :=
  match bs with
  | [] => EmptyString
  | b :: bs' =>
      String (hexdigit (Z.shiftr b 4))
        (String (hexdigit (Z.land b 0xF)) (EncodeToString bs'))
  end.

(** [h := sha256.New(); h.Write([]byte(s)); hex.EncodeToString(h.Sum(nil))] *)
Definition hex_sum (s : string) : string :=
  EncodeToString (sum256 (bytes_of_string s)).

End Sha256.

(** ** encoding/json on [interface{}] values *)

Module Json.

(** The dynamic values that reach the program: what [json.Unmarshal] puts in
    an [interface{}] and what the program stores itself.  Numbers are kept for
    their integral values only. *)
Inductive JVal : Type :=
| JNull
| JBool (b : bool)
| JNum (n : Z)
| JStr (s : string)
| JArr (l : list JVal)
| JObj (m : list (string * JVal)).

(** [map[string]interface{}] *)
Definition Data : Type := list (string * JVal).

(** [v, ok := m[k]] *)
Fixpoint get (k : string) (m : Data) : option JVal :=
  match m with
  | [] => None
  | (k', v) :: m' => if String.eqb k k' then Some v else get k m'
  end.

(** [m[k] = v] *)
Fixpoint set (k : string) (v : JVal) (m : Data) : Data :=
  match m with
  | [] => [(k, v)]
  | (k', v') :: m' =>
      if String.eqb k k' then (k, v) :: m' else (k', v') :: set k v m'
  end.

(** [s, ok := m[k].(string)] *)
Definition get_string (k : string) (m : Data) : option string :=
  match get k m with
  | Some (JStr s) => Some s
  | _ => None
  end.

(** [for k, v := range src { dst[k] = v }] into a fresh map. *)
Definition copy (src : Data) : Data :=
  fold_left (fun dst kv => set (fst kv) (snd kv) dst) src [].

Definition hex4 (n : Z) : string :=
  String (Sha256.hexdigit (Z.shiftr n 12))
    (String (Sha256.hexdigit (Z.land (Z.shiftr n 8) 0xF))
      (String (Sha256.hexdigit (Z.land (Z.shiftr n 4) 0xF))
        (String (Sha256.hexdigit (Z.land n 0xF)) EmptyString))).

(** The encoder's escaping of one byte of a string, with [escapeHTML] on. *)
Definition escape_byte (c : ascii) : string :=
  let n := Z.of_N (N_of_ascii c) in
  if (n =? 34)%Z then "\" +:+ String c EmptyString
  else if (n =? 92)%Z then "\\"
  else if (n =? 8)%Z then "\b"
  else if (n =? 12)%Z then "\f"
  else if (n =? 10)%Z then "\n"
  else if (n =? 13)%Z then "\r"
  else if (n =? 9)%Z then "\t"
  else if ((n <? 32) || (n =? 60) || (n =? 62) || (n =? 38))%Z
       then "\u" +:+ hex4 n
  else String c EmptyString.

Fixpoint escape (s : string) : string :=
  match s with
  | EmptyString => EmptyString
  | String c s' => escape_byte c +:+ escape s'
  end.

Definition quote (s : string) : string :=
  String (ascii_of_N 34) (escape s) +:+ String (ascii_of_N 34) EmptyString.

(** Insertion of a field by key order: the encoder writes the keys of a map
    sorted. *)
Fixpoint insert_sorted (kv : string * string) (l : list (string * string))
  : list (string * string) :=
  match l with
  | [] => [kv]
  | kv' :: l' =>
      if String.leb (fst kv) (fst kv') then kv :: l
      else kv' :: insert_sorted kv l'
  end.

Definition sort_fields (l : list (string * string)) : list (string * string) :=
  fold_right insert_sorted [] l.

Definition join (sep : string) (l : list string) : string := String.concat sep l.

(** [json.Marshal] *)
Fixpoint Marshal (v : JVal) : string :=
  match v with
  | JNull => "null"
  | JBool true => "true"
  | JBool false => "false"
  | JNum n => pretty n
  | JStr s => quote s
  | JArr l => "[" +:+ join "," (map Marshal l) +:+ "]"
  | JObj m =>
      let fix fields (m : list (string * JVal)) : list (string * string) :=
        match m with
        | [] => []
        | (k, x) :: m' => (k, Marshal x) :: fields m'
        end in
      "{" +:+ join "," (map (fun kv => quote (fst kv) +:+ ":" +:+ snd kv)
                           (sort_fields (fields m))) +:+ "}"
  end.

(** [fmt.Sprintf("%v", v)] on the values used as filters. *)
Definition fmt_v (v : JVal) : string :=
  match v with
  | JStr s => s
  | JNum n => pretty n
  | JBool true => "true"
  | JBool false => "false"
  | JNull => "<nil>"
  | _ => Marshal v
  end.

End Json.

Export Json(JVal(..), Data).

(** ** Readings of the clock *)

(** A reading of [time.Now()], carried as the three renderings the program
    takes of it: [Format(time.RFC3339)], [Format(time.RFC3339Nano)] (also the
    JSON encoding of a [time.Time]) and [Format("20060102-150405")]. *)
Record Time : Type := mkTime {
  rfc3339 : string;
  rfc3339nano : string;
  stamp : string
}.

(** ** Loops over a slice of records *)

(** [for i := range l { if p l[i] { l[i] = f l[i]; break } }] *)
Fixpoint update_first {A} (p : A → bool) (f : A → A) (l : list A) : list A :=
  match l with
  | [] => []
  | x :: l' => if p x then f x :: l' else x :: update_first p f l'
  end.

(** [for _, x := range l { if p x { return x } }] *)
Fixpoint find_first {A} (p : A → bool) (l : list A) : option A :=
  match l with
  | [] => None
  | x :: l' => if p x then Some x else find_first p l'
  end.

(** ** package blockchain: blockchain.go *)

Module Blockchain.

Record Transaction : Type := mkTransaction {
  Timestamp : string;
  TxData : Data;
  PreviousHash : string;
  Hash : string
}.

(** [tx.CalculateHash()] *)
Definition CalculateHash (tx : Transaction) : Transaction :=
  let dataJSON := Json.Marshal (JObj (TxData tx)) in
  let data := Timestamp tx +:+ dataJSON +:+ PreviousHash tx in
  mkTransaction (Timestamp tx) (TxData tx) (PreviousHash tx) (Sha256.hex_sum data).

(** [NewTransaction(data)], at the clock reading [now]. *)
Definition NewTransaction (now : Time) (data : Data) : Transaction :=
  CalculateHash (mkTransaction (rfc3339 now) data "" "").

(** [tx.SetPreviousHash(previousHash)] *)
Definition SetPreviousHash (previousHash : string) (tx : Transaction) : Transaction :=
  CalculateHash (mkTransaction (Timestamp tx) (TxData tx) previousHash (Hash tx)).

Record DrugTransaction : Type := mkDrugTransaction {
  dt_Transaction : Transaction;
  dt_DrugID : string
}.

Record ShipmentTransaction : Type := mkShipmentTransaction {
  st_Transaction : Transaction;
  st_ShipmentID : string
}.

Definition requiredFields : list string :=
  ["drug_id"; "manufacturer"; "name"; "batch_number"; "manufacture_date"; "expiry_date"].

(** The value of [m[k]] for a key that may be absent: [nil]. *)
Definition index (k : string) (m : Data) : JVal :=
  match Json.get k m with Some v => v | None => JNull end.

(** [NewDrugTransaction(drugData)]; [now1] is the reading for [created_at],
    [now2] the one taken by [NewTransaction].  The unchecked assertion
    [drugData["drug_id"].(string)] panics on a value that is not a string. *)
Definition NewDrugTransaction (now1 now2 : Time) (drugData : Data)
  : Res DrugTransaction :=
  match find_first (fun field => negb (bool_decide (is_Some (Json.get field drugData))))
                   requiredFields with
  | Some field => Err ("missing required field: " +:+ field)
  | None =>
      let txData : Data :=
        [ ("drug_id", index "drug_id" drugData);
          ("manufacturer_id", index "manufacturer" drugData);
          ("name", index "name" drugData);
          ("batch_number", index "batch_number" drugData);
          ("manufacture_date", index "manufacture_date" drugData);
          ("expiry_date", index "expiry_date" drugData);
          ("status", JStr "created");
          ("created_at", JStr (rfc3339 now1)) ] in
      match Json.get_string "drug_id" drugData with
      | Some id => Ok (mkDrugTransaction (NewTransaction now2 txData) id)
      | None => Panic "interface conversion: interface {} is not string"
      end
  end.

(** [NewShipmentTransaction(shipmentData)] *)
Definition NewShipmentTransaction (now : Time) (shipmentData : Data)
  : Res ShipmentTransaction :=
  match Json.get "shipment_id" shipmentData with
  | None => Err "missing required field: shipment_id"
  | Some _ =>
      match Json.get_string "shipment_id" shipmentData with
      | Some id => Ok (mkShipmentTransaction (NewTransaction now shipmentData) id)
      | None => Panic "interface conversion: interface {} is not string"
      end
  end.

(** [GenerateTransactionHash(data)], with the value drawn by [uuid.New()] and
    the clock reading. *)
Definition GenerateTransactionHash (uuid : string) (now : Time) (data : Data) : string :=
  Sha256.hex_sum (uuid +:+ rfc3339nano now +:+ Json.Marshal (JObj data)).

(** [ValidateTransaction(txHash, txData)], run at the clock reading [now]. *)
Definition ValidateTransaction (now : Time) (txHash : string) (txData : Data) : bool :=
  let tx := NewTransaction now txData in
  let tx := match Json.get_string "previous_hash" txData with
            | Some prevHash => SetPreviousHash prevHash tx
            | None => tx
            end in
  String.eqb (Hash tx) txHash.

End Blockchain.

(** ** package models: the ledger records

    The structs of [models] and the ones that package [blockchain] declares for
    itself (manufacturer_ledger.go, common_ledger.go) have the same fields and
    JSON tags; one Rocq record stands for both. *)

Module Models.

Record Status : Type := mkStatus {
  s_Status : string;
  s_Timestamp : string;
  s_Details : string
}.

Record DrugRecord : Type := mkDrugRecord {
  d_DrugID : string;
  d_Status : string;
  d_CreatedAt : string;
  d_RevertedAt : string;
  d_CurrentStatus : string;
  d_History : list Status
}.

Record ShipmentRecord : Type := mkShipmentRecord {
  sh_ShipmentID : string;
  sh_DrugID : string;
  sh_Status : string;
  sh_CreatedAt : string;
  sh_CurrentStatus : string;
  sh_History : list Status
}.

Record ManufacturerLedger : Type := mkManufacturerLedger {
  ml_ManufacturerID : string;
  ml_Drugs : list DrugRecord;
  ml_Shipments : list ShipmentRecord;
  ml_LastUpdated : string
}.

Record CommonDrugRecord : Type := mkCommonDrugRecord {
  cd_DrugID : string;
  cd_ManufacturerID : string;
  cd_Status : string;
  cd_CreatedAt : string;
  cd_CurrentStatus : string;
  cd_History : list Status;
  cd_VerificationHash : string
}.

Record CommonShipmentRecord : Type := mkCommonShipmentRecord {
  cs_ShipmentID : string;
  cs_DrugID : string;
  cs_ManufacturerID : string;
  cs_DistributorID : string;
  cs_Status : string;
  cs_CreatedAt : string;
  cs_CurrentStatus : string;
  cs_History : list Status
}.

Record CommonLedger : Type := mkCommonLedger {
  cl_Drugs : list CommonDrugRecord;
  cl_Shipments : list CommonShipmentRecord;
  cl_LastUpdated : string
}.

(** [NewManufacturerLedger(manufacturerID)] *)
Definition NewManufacturerLedger (now : Time) (manufacturerID : string) : ManufacturerLedger :=
  mkManufacturerLedger manufacturerID [] [] (rfc3339 now).

(** [NewCommonLedger()] *)
Definition NewCommonLedger (now : Time) : CommonLedger :=
  mkCommonLedger [] [] (rfc3339 now).

(** Assignments to the fields of a record held in a slice. *)
Definition d_set_status (status current : string) (d : DrugRecord) : DrugRecord :=
  mkDrugRecord (d_DrugID d) status (d_CreatedAt d) (d_RevertedAt d) current (d_History d).
Definition d_set_current (current : string) (d : DrugRecord) : DrugRecord :=
  mkDrugRecord (d_DrugID d) (d_Status d) (d_CreatedAt d) (d_RevertedAt d) current (d_History d).
Definition d_set_reverted_at (t : string) (d : DrugRecord) : DrugRecord :=
  mkDrugRecord (d_DrugID d) (d_Status d) (d_CreatedAt d) t (d_CurrentStatus d) (d_History d).
Definition d_append (s : Status) (d : DrugRecord) : DrugRecord :=
  mkDrugRecord (d_DrugID d) (d_Status d) (d_CreatedAt d) (d_RevertedAt d)
               (d_CurrentStatus d) (d_History d ++ [s]).

Definition sh_set_status (status current : string) (r : ShipmentRecord) : ShipmentRecord :=
  mkShipmentRecord (sh_ShipmentID r) (sh_DrugID r) status (sh_CreatedAt r) current (sh_History r).
Definition sh_set_current (current : string) (r : ShipmentRecord) : ShipmentRecord :=
  mkShipmentRecord (sh_ShipmentID r) (sh_DrugID r) (sh_Status r) (sh_CreatedAt r) current
                   (sh_History r).
Definition sh_append (s : Status) (r : ShipmentRecord) : ShipmentRecord :=
  mkShipmentRecord (sh_ShipmentID r) (sh_DrugID r) (sh_Status r) (sh_CreatedAt r)
                   (sh_CurrentStatus r) (sh_History r ++ [s]).

Definition cd_set_status (status current : string) (d : CommonDrugRecord) : CommonDrugRecord :=
  mkCommonDrugRecord (cd_DrugID d) (cd_ManufacturerID d) status (cd_CreatedAt d) current
                     (cd_History d) (cd_VerificationHash d).
Definition cd_set_current (current : string) (d : CommonDrugRecord) : CommonDrugRecord :=
  mkCommonDrugRecord (cd_DrugID d) (cd_ManufacturerID d) (cd_Status d) (cd_CreatedAt d) current
                     (cd_History d) (cd_VerificationHash d).
Definition cd_append (s : Status) (d : CommonDrugRecord) : CommonDrugRecord :=
  mkCommonDrugRecord (cd_DrugID d) (cd_ManufacturerID d) (cd_Status d) (cd_CreatedAt d)
                     (cd_CurrentStatus d) (cd_History d ++ [s]) (cd_VerificationHash d).

Definition cs_set_status (status current : string) (r : CommonShipmentRecord)
  : CommonShipmentRecord :=
  mkCommonShipmentRecord (cs_ShipmentID r) (cs_DrugID r) (cs_ManufacturerID r)
                         (cs_DistributorID r) status (cs_CreatedAt r) current (cs_History r).
Definition cs_set_current (current : string) (r : CommonShipmentRecord)
  : CommonShipmentRecord :=
  mkCommonShipmentRecord (cs_ShipmentID r) (cs_DrugID r) (cs_ManufacturerID r)
                         (cs_DistributorID r) (cs_Status r) (cs_CreatedAt r) current
                         (cs_History r).
Definition cs_append (s : Status) (r : CommonShipmentRecord) : CommonShipmentRecord :=
  mkCommonShipmentRecord (cs_ShipmentID r) (cs_DrugID r) (cs_ManufacturerID r)
                         (cs_DistributorID r) (cs_Status r) (cs_CreatedAt r)
                         (cs_CurrentStatus r) (cs_History r ++ [s]).

Definition ml_set_drugs (l : list DrugRecord) (ml : ManufacturerLedger) : ManufacturerLedger :=
  mkManufacturerLedger (ml_ManufacturerID ml) l (ml_Shipments ml) (ml_LastUpdated ml).
Definition ml_set_shipments (l : list ShipmentRecord) (ml : ManufacturerLedger)
  : ManufacturerLedger :=
  mkManufacturerLedger (ml_ManufacturerID ml) (ml_Drugs ml) l (ml_LastUpdated ml).
Definition ml_set_last_updated (t : string) (ml : ManufacturerLedger) : ManufacturerLedger :=
  mkManufacturerLedger (ml_ManufacturerID ml) (ml_Drugs ml) (ml_Shipments ml) t.

Definition cl_set_drugs (l : list CommonDrugRecord) (cl : CommonLedger) : CommonLedger :=
  mkCommonLedger l (cl_Shipments cl) (cl_LastUpdated cl).
Definition cl_set_shipments (l : list CommonShipmentRecord) (cl : CommonLedger) : CommonLedger :=
  mkCommonLedger (cl_Drugs cl) l (cl_LastUpdated cl).
Definition cl_set_last_updated (t : string) (cl : CommonLedger) : CommonLedger :=
  mkCommonLedger (cl_Drugs cl) (cl_Shipments cl) t.

End Models.

Export Models.

(** ** package blockchain: manufacturer_ledger.go

    A method with a pointer receiver returns the receiver after the call and
    the [error] ([None] for [nil]).  The [now] arguments are the readings of
    the successive [time.Now()] calls of the method. *)

Module ManufacturerLedger.

Definition AddDrugRecord (now1 now2 now3 : Time) (drugID status : string)
    (ml : Models.ManufacturerLedger) : Models.ManufacturerLedger * option string :=
  if existsb (fun drug => String.eqb (d_DrugID drug) drugID) (ml_Drugs ml)
  then (ml, Some ("drug " +:+ drugID +:+ " already exists in ledger"))
  else
    let drugRecord :=
      mkDrugRecord drugID status (rfc3339 now1) "" status
                   [mkStatus status (rfc3339 now2) ""] in
    (ml_set_last_updated (rfc3339 now3)
       (ml_set_drugs (ml_Drugs ml ++ [drugRecord]) ml), None).

Definition UpdateDrugStatus (now1 now2 : Time) (drugID newStatus details : string)
    (ml : Models.ManufacturerLedger) : Models.ManufacturerLedger * option string :=
  if existsb (fun drug => String.eqb (d_DrugID drug) drugID) (ml_Drugs ml)
  then
    (ml_set_last_updated (rfc3339 now2)
       (ml_set_drugs
          (update_first (fun drug => String.eqb (d_DrugID drug) drugID)
             (fun drug => d_append (mkStatus newStatus (rfc3339 now1) details)
                            (d_set_current newStatus drug))
             (ml_Drugs ml)) ml), None)
  else (ml, Some ("drug " +:+ drugID +:+ " not found in ledger")).

Definition AddShipmentRecord (now1 now2 now3 : Time) (shipmentID drugID status : string)
    (ml : Models.ManufacturerLedger) : Models.ManufacturerLedger * option string :=
  if existsb (fun shipment => String.eqb (sh_ShipmentID shipment) shipmentID) (ml_Shipments ml)
  then (ml, Some ("shipment " +:+ shipmentID +:+ " already exists in ledger"))
  else
    let shipmentRecord :=
      mkShipmentRecord shipmentID drugID status (rfc3339 now1) status
                       [mkStatus status (rfc3339 now2) ""] in
    (ml_set_last_updated (rfc3339 now3)
       (ml_set_shipments (ml_Shipments ml ++ [shipmentRecord]) ml), None).

Definition UpdateShipmentStatus (now1 now2 : Time) (shipmentID newStatus details : string)
    (ml : Models.ManufacturerLedger) : Models.ManufacturerLedger * option string :=
  if existsb (fun shipment => String.eqb (sh_ShipmentID shipment) shipmentID) (ml_Shipments ml)
  then
    (ml_set_last_updated (rfc3339 now2)
       (ml_set_shipments
          (update_first (fun shipment => String.eqb (sh_ShipmentID shipment) shipmentID)
             (fun shipment => sh_append (mkStatus newStatus (rfc3339 now1) details)
                                (sh_set_current newStatus shipment))
             (ml_Shipments ml)) ml), None)
  else (ml, Some ("shipment " +:+ shipmentID +:+ " not found in ledger")).

Definition GetDrugHistory (drugID : string) (ml : Models.ManufacturerLedger)
  : Res (list Status) :=
  match find_first (fun drug => String.eqb (d_DrugID drug) drugID) (ml_Drugs ml) with
  | Some drug => Ok (d_History drug)
  | None => Err ("drug " +:+ drugID +:+ " not found in ledger")
  end.

Definition GetShipmentHistory (shipmentID : string) (ml : Models.ManufacturerLedger)
  : Res (list Status) :=
  match find_first (fun shipment => String.eqb (sh_ShipmentID shipment) shipmentID)
                   (ml_Shipments ml) with
  | Some shipment => Ok (sh_History shipment)
  | None => Err ("shipment " +:+ shipmentID +:+ " not found in ledger")
  end.

End ManufacturerLedger.

(** ** package blockchain: common_ledger.go *)

Module CommonLedger.

Definition AddDrugRecord (now1 now2 now3 : Time)
    (drugID manufacturerID status verificationHash : string)
    (cl : Models.CommonLedger) : Models.CommonLedger * option string :=
  if existsb (fun drug => String.eqb (cd_DrugID drug) drugID) (cl_Drugs cl)
  then (cl, Some ("drug " +:+ drugID +:+ " already exists in common ledger"))
  else
    let drugRecord :=
      mkCommonDrugRecord drugID manufacturerID status (rfc3339 now1) status
                         [mkStatus status (rfc3339 now2) ""] verificationHash in
    (cl_set_last_updated (rfc3339 now3)
       (cl_set_drugs (cl_Drugs cl ++ [drugRecord]) cl), None).

Definition UpdateDrugStatus (now1 now2 : Time) (drugID newStatus details : string)
    (cl : Models.CommonLedger) : Models.CommonLedger * option string :=
  if existsb (fun drug => String.eqb (cd_DrugID drug) drugID) (cl_Drugs cl)
  then
    (cl_set_last_updated (rfc3339 now2)
       (cl_set_drugs
          (update_first (fun drug => String.eqb (cd_DrugID drug) drugID)
             (fun drug => cd_append (mkStatus newStatus (rfc3339 now1) details)
                            (cd_set_current newStatus drug))
             (cl_Drugs cl)) cl), None)
  else (cl, Some ("drug " +:+ drugID +:+ " not found in common ledger")).

Definition AddShipmentRecord (now1 now2 now3 : Time)
    (shipmentID drugID manufacturerID distributorID status : string)
    (cl : Models.CommonLedger) : Models.CommonLedger * option string :=
  if existsb (fun shipment => String.eqb (cs_ShipmentID shipment) shipmentID) (cl_Shipments cl)
  then (cl, Some ("shipment " +:+ shipmentID +:+ " already exists in common ledger"))
  else
    let shipmentRecord :=
      mkCommonShipmentRecord shipmentID drugID manufacturerID distributorID status
                             (rfc3339 now1) status [mkStatus status (rfc3339 now2) ""] in
    (cl_set_last_updated (rfc3339 now3)
       (cl_set_shipments (cl_Shipments cl ++ [shipmentRecord]) cl), None).

Definition UpdateShipmentStatus (now1 now2 : Time) (shipmentID newStatus details : string)
    (cl : Models.CommonLedger) : Models.CommonLedger * option string :=
  if existsb (fun shipment => String.eqb (cs_ShipmentID shipment) shipmentID) (cl_Shipments cl)
  then
    (cl_set_last_updated (rfc3339 now2)
       (cl_set_shipments
          (update_first (fun shipment => String.eqb (cs_ShipmentID shipment) shipmentID)
             (fun shipment => cs_append (mkStatus newStatus (rfc3339 now1) details)
                                (cs_set_current newStatus shipment))
             (cl_Shipments cl)) cl), None)
  else (cl, Some ("shipment " +:+ shipmentID +:+ " not found in common ledger")).

Definition VerifyDrug (drugID verificationHash : string) (cl : Models.CommonLedger)
  : Res bool :=
  match find_first (fun drug => String.eqb (cd_DrugID drug) drugID) (cl_Drugs cl) with
  | Some drug => Ok (String.eqb (cd_VerificationHash drug) verificationHash)
  | None => Err ("drug " +:+ drugID +:+ " not found in common ledger")
  end.

Definition GetDrugHistory (drugID : string) (cl : Models.CommonLedger) : Res (list Status) :=
  match find_first (fun drug => String.eqb (cd_DrugID drug) drugID) (cl_Drugs cl) with
  | Some drug => Ok (cd_History drug)
  | None => Err ("drug " +:+ drugID +:+ " not found in common ledger")
  end.

Definition GetShipmentHistory (shipmentID : string) (cl : Models.CommonLedger)
  : Res (list Status) :=
  match find_first (fun shipment => String.eqb (cs_ShipmentID shipment) shipmentID)
                   (cl_Shipments cl) with
  | Some shipment => Ok (cs_History shipment)
  | None => Err ("shipment " +:+ shipmentID +:+ " not found in common ledger")
  end.

Definition GetDistributorShipments (distributorID : string) (cl : Models.CommonLedger)
  : list CommonShipmentRecord :=
  filter (fun shipment => cs_DistributorID shipment = distributorID) (cl_Shipments cl).

End CommonLedger.

(** ** package models: database rows and operation parameters

    A [time.Time] field is carried as its JSON text. *)

Module Db.

Record Drug : Type := mkDrug {
  dg_ID : string;
  dg_ManufacturerID : string;
  dg_Name : string;
  dg_Description : string;
  dg_Status : string;
  dg_VerificationHash : string;
  dg_BlockchainTxID : string;
  dg_CreatedAt : string;
  dg_UpdatedAt : string
}.

Record DrugStatusUpdate : Type := mkDrugStatusUpdate {
  du_ID : string;
  du_DrugID : string;
  du_Status : string;
  du_Location : string;
  du_UpdatedBy : string;
  du_BlockchainTxID : string;
  du_Timestamp : string
}.

Record Shipment : Type := mkShipment {
  sp_ID : string;
  sp_DrugID : string;
  sp_ManufacturerID : string;
  sp_DistributorID : string;
  sp_Status : string;
  sp_BlockchainTxID : string;
  sp_CreatedAt : string;
  sp_UpdatedAt : string
}.

Record ShipmentStatusUpdate : Type := mkShipmentStatusUpdate {
  su_ID : string;
  su_ShipmentID : string;
  su_Status : string;
  su_Location : string;
  su_UpdatedBy : string;
  su_BlockchainTxID : string;
  su_Timestamp : string
}.

Record BlockchainTransaction : Type := mkBlockchainTransaction {
  bt_TransactionID : string;
  bt_Type : string;
  bt_Data : Data;
  bt_Timestamp : string
}.

Record CreateDrugParams : Type := mkCreateDrugParams {
  cdp_DrugID : string;
  cdp_ManufacturerID : string;
  cdp_Name : string;
  cdp_Description : string;
  cdp_UserID : string;
  cdp_Location : string
}.

Record CreateShipmentParams : Type := mkCreateShipmentParams {
  csp_ShipmentID : string;
  csp_DrugID : string;
  csp_ManufacturerID : string;
  csp_DistributorID : string;
  csp_UserID : string;
  csp_Location : string
}.

Record UpdateShipmentStatusParams : Type := mkUpdateShipmentStatusParams {
  usp_ShipmentID : string;
  usp_Status : string;
  usp_UserID : string;
  usp_Location : string
}.

Record RevertDrugParams : Type := mkRevertDrugParams {
  rdp_DrugID : string;
  rdp_ManufacturerID : string;
  rdp_Reason : string;
  rdp_UserID : string;
  rdp_Location : string
}.

(** The JSON text of the zero [time.Time]. *)
Definition zero_time : string := "0001-01-01T00:00:00Z".

(** [json.Marshal] of the row structs, by their tags. *)
Definition drug_row (d : Drug) : Data :=
  [ ("id", JStr (dg_ID d)); ("manufacturer_id", JStr (dg_ManufacturerID d));
    ("name", JStr (dg_Name d)); ("description", JStr (dg_Description d));
    ("status", JStr (dg_Status d)); ("verification_hash", JStr (dg_VerificationHash d));
    ("blockchain_tx_id", JStr (dg_BlockchainTxID d));
    ("created_at", JStr (dg_CreatedAt d)); ("updated_at", JStr (dg_UpdatedAt d)) ].

Definition drug_status_update_row (u : DrugStatusUpdate) : Data :=
  [ ("id", JStr (du_ID u)); ("drug_id", JStr (du_DrugID u)); ("status", JStr (du_Status u));
    ("location", JStr (du_Location u)); ("updated_by", JStr (du_UpdatedBy u));
    ("blockchain_tx_id", JStr (du_BlockchainTxID u)); ("timestamp", JStr (du_Timestamp u)) ].

Definition shipment_row (s : Shipment) : Data :=
  [ ("id", JStr (sp_ID s)); ("drug_id", JStr (sp_DrugID s));
    ("manufacturer_id", JStr (sp_ManufacturerID s));
    ("distributor_id", JStr (sp_DistributorID s)); ("status", JStr (sp_Status s));
    ("blockchain_tx_id", JStr (sp_BlockchainTxID s));
    ("created_at", JStr (sp_CreatedAt s)); ("updated_at", JStr (sp_UpdatedAt s)) ].

Definition shipment_status_update_row (u : ShipmentStatusUpdate) : Data :=
  [ ("id", JStr (su_ID u)); ("shipment_id", JStr (su_ShipmentID u));
    ("status", JStr (su_Status u)); ("location", JStr (su_Location u));
    ("updated_by", JStr (su_UpdatedBy u));
    ("blockchain_tx_id", JStr (su_BlockchainTxID u)); ("timestamp", JStr (su_Timestamp u)) ].

(** [json.Unmarshal] of one string field of a row: an absent or [null] field
    leaves the zero value [dflt], a value of another type is an error. *)
Definition field (k dflt : string) (row : Data) : Res string :=
  match Json.get k row with
  | None | Some JNull => Ok dflt
  | Some (JStr s) => Ok s
  | Some _ => Err ("json: cannot unmarshal value into Go struct field " +:+ k)
  end.

Definition res_bind {A B} (r : Res A) (k : A → Res B) : Res B :=
  match r with
  | Ok a => k a
  | Err e => Err e
  | Panic e => Panic e
  end.

Definition decode_drug (row : Data) : Res Drug :=
  res_bind (field "id" "" row) (fun id =>
  res_bind (field "manufacturer_id" "" row) (fun manufacturer =>
  res_bind (field "name" "" row) (fun name =>
  res_bind (field "description" "" row) (fun description =>
  res_bind (field "status" "" row) (fun status =>
  res_bind (field "verification_hash" "" row) (fun verification =>
  res_bind (field "blockchain_tx_id" "" row) (fun tx =>
  res_bind (field "created_at" zero_time row) (fun created =>
  res_bind (field "updated_at" zero_time row) (fun updated =>
  Ok (mkDrug id manufacturer name description status verification tx created updated)))))))))).

Definition decode_drug_status_update (row : Data) : Res DrugStatusUpdate :=
  res_bind (field "id" "" row) (fun id =>
  res_bind (field "drug_id" "" row) (fun drug =>
  res_bind (field "status" "" row) (fun status =>
  res_bind (field "location" "" row) (fun location =>
  res_bind (field "updated_by" "" row) (fun by_ =>
  res_bind (field "blockchain_tx_id" "" row) (fun tx =>
  res_bind (field "timestamp" zero_time row) (fun ts =>
  Ok (mkDrugStatusUpdate id drug status location by_ tx ts)))))))).

Definition decode_shipment (row : Data) : Res Shipment :=
  res_bind (field "id" "" row) (fun id =>
  res_bind (field "drug_id" "" row) (fun drug =>
  res_bind (field "manufacturer_id" "" row) (fun manufacturer =>
  res_bind (field "distributor_id" "" row) (fun distributor =>
  res_bind (field "status" "" row) (fun status =>
  res_bind (field "blockchain_tx_id" "" row) (fun tx =>
  res_bind (field "created_at" zero_time row) (fun created =>
  res_bind (field "updated_at" zero_time row) (fun updated =>
  Ok (mkShipment id drug manufacturer distributor status tx created updated))))))))).

Definition decode_shipment_status_update (row : Data) : Res ShipmentStatusUpdate :=
  res_bind (field "id" "" row) (fun id =>
  res_bind (field "shipment_id" "" row) (fun shipment =>
  res_bind (field "status" "" row) (fun status =>
  res_bind (field "location" "" row) (fun location =>
  res_bind (field "updated_by" "" row) (fun by_ =>
  res_bind (field "blockchain_tx_id" "" row) (fun tx =>
  res_bind (field "timestamp" zero_time row) (fun ts =>
  Ok (mkShipmentStatusUpdate id shipment status location by_ tx ts)))))))).

(** [make([]T, len(result))] filled by decoding each row; the first row that
    does not decode is the error. *)
Fixpoint decode_all {A} (dec : Data → Res A) (rows : list Data) : Res (list A) :=
  match rows with
  | [] => Ok []
  | row :: rows' =>
      res_bind (dec row) (fun a => res_bind (decode_all dec rows') (fun l => Ok (a :: l)))
  end.

End Db.

Export Db.

(** ** The external store: requests of the PostgREST client *)

Module Supabase.

Inductive Verb : Type :=
| VSelect (query : string)
| VInsert (data : JVal)
| VUpdate (data : Data)
| VDelete.

(** [c.Client.DB.From(table).<verb>] with the filters added by [req.Filter]. *)
Record Request : Type := mkRequest {
  rq_table : string;
  rq_verb : Verb;
  rq_filters : list (string * string * string)
}.

(** What [req.Execute(&result)] yields: the rows decoded into [result], or an
    [error]. *)
Inductive Answer : Type :=
| Rows (rows : list Data)
| Failure (msg : string).

Definition answered (a : Answer) : bool :=
  match a with Rows _ => true | Failure _ => false end.

(** [req.Execute(&result)]: the answer of the store to a request, and the
    store after it.  The collaborator is opaque: an implementation of this
    interface may fail or answer any rows. *)
Class Backend (Store : Type) : Type :=
  Execute : Request → Store → Answer * Store.

End Supabase.

Export Supabase.

(** ** package storage: the chain ledger file *)

Record Block : Type := mkBlock {
  b_BlockHeight : Z;
  b_TxHash : string;
  b_TxData : JVal;
  b_Timestamp : string;
  b_PreviousBlockHash : string
}.

Record BlockchainLedger : Type := mkBlockchainLedger {
  bl_Blocks : list Block;
  bl_LastUpdated : string;
  bl_BlockHeight : Z
}.

Record ConsistencyCheckResult : Type := mkConsistencyCheckResult {
  cc_Status : string;
  cc_Error : string;
  cc_Timestamp : string;
  cc_Recommendation : string
}.

(** ** The world a call runs in *)

Section World.
Context {Store : Type}.

Record World : Type := mkWorld {
  (** the clock: the readings still to come, and how many were taken *)
  clock : nat → Time;
  ticks : nat;
  (** [uuid.New().String()]: the values still to come, and how many were drawn *)
  uuids : nat → string;
  drawn : nat;
  (** blockchain_data/blockchain_ledger.json, when it exists *)
  BlockchainFile : option BlockchainLedger;
  (** blockchain_data/manufacturer_ledgers/<id>.json, by manufacturer id *)
  ManufacturerLedgerFiles : gmap string ManufacturerLedger;
  (** blockchain_data/common_ledger.json, when it exists *)
  CommonLedgerFile : option CommonLedger;
  (** the JSON documents under data_records/ and sync_logs/, by path *)
  Files : gmap string JVal;
  (** data_records/processed_transactions.json *)
  TxHashFile : gset string;
  (** [TransactionTracker.ProcessedTxs] *)
  ProcessedTxs : gset string;
  (** [SyncService.SyncStatusMap] and [SyncService.LastSyncTime] *)
  SyncStatusMap : gmap string Time;
  LastSyncTime : option Time;
  (** the external store, and the requests executed so far with their
      answers, most recent first (a history variable) *)
  store : Store;
  trace : list (Request * Answer)
}.

Definition set_ticks (n : nat) (w : World) : World :=
  mkWorld (clock w) n (uuids w) (drawn w) (BlockchainFile w) (ManufacturerLedgerFiles w)
          (CommonLedgerFile w) (Files w) (TxHashFile w) (ProcessedTxs w) (SyncStatusMap w)
          (LastSyncTime w) (store w) (trace w).
Definition set_drawn (n : nat) (w : World) : World :=
  mkWorld (clock w) (ticks w) (uuids w) n (BlockchainFile w) (ManufacturerLedgerFiles w)
          (CommonLedgerFile w) (Files w) (TxHashFile w) (ProcessedTxs w) (SyncStatusMap w)
          (LastSyncTime w) (store w) (trace w).
Definition set_BlockchainFile (f : option BlockchainLedger) (w : World) : World :=
  mkWorld (clock w) (ticks w) (uuids w) (drawn w) f (ManufacturerLedgerFiles w)
          (CommonLedgerFile w) (Files w) (TxHashFile w) (ProcessedTxs w) (SyncStatusMap w)
          (LastSyncTime w) (store w) (trace w).
Definition set_ManufacturerLedgerFiles (f : gmap string ManufacturerLedger) (w : World) : World :=
  mkWorld (clock w) (ticks w) (uuids w) (drawn w) (BlockchainFile w) f
          (CommonLedgerFile w) (Files w) (TxHashFile w) (ProcessedTxs w) (SyncStatusMap w)
          (LastSyncTime w) (store w) (trace w).
Definition set_CommonLedgerFile (f : option CommonLedger) (w : World) : World :=
  mkWorld (clock w) (ticks w) (uuids w) (drawn w) (BlockchainFile w) (ManufacturerLedgerFiles w)
          f (Files w) (TxHashFile w) (ProcessedTxs w) (SyncStatusMap w)
          (LastSyncTime w) (store w) (trace w).
Definition set_Files (f : gmap string JVal) (w : World) : World :=
  mkWorld (clock w) (ticks w) (uuids w) (drawn w) (BlockchainFile w) (ManufacturerLedgerFiles w)
          (CommonLedgerFile w) f (TxHashFile w) (ProcessedTxs w) (SyncStatusMap w)
          (LastSyncTime w) (store w) (trace w).
Definition set_TxHashFile (f : gset string) (w : World) : World :=
  mkWorld (clock w) (ticks w) (uuids w) (drawn w) (BlockchainFile w) (ManufacturerLedgerFiles w)
          (CommonLedgerFile w) (Files w) f (ProcessedTxs w) (SyncStatusMap w)
          (LastSyncTime w) (store w) (trace w).
Definition set_ProcessedTxs (f : gset string) (w : World) : World :=
  mkWorld (clock w) (ticks w) (uuids w) (drawn w) (BlockchainFile w) (ManufacturerLedgerFiles w)
          (CommonLedgerFile w) (Files w) (TxHashFile w) f (SyncStatusMap w)
          (LastSyncTime w) (store w) (trace w).
Definition set_SyncStatusMap (f : gmap string Time) (w : World) : World :=
  mkWorld (clock w) (ticks w) (uuids w) (drawn w) (BlockchainFile w) (ManufacturerLedgerFiles w)
          (CommonLedgerFile w) (Files w) (TxHashFile w) (ProcessedTxs w) f
          (LastSyncTime w) (store w) (trace w).
Definition set_LastSyncTime (f : option Time) (w : World) : World :=
  mkWorld (clock w) (ticks w) (uuids w) (drawn w) (BlockchainFile w) (ManufacturerLedgerFiles w)
          (CommonLedgerFile w) (Files w) (TxHashFile w) (ProcessedTxs w) (SyncStatusMap w)
          f (store w) (trace w).
Definition set_store (s : Store) (t : list (Request * Answer)) (w : World) : World :=
  mkWorld (clock w) (ticks w) (uuids w) (drawn w) (BlockchainFile w) (ManufacturerLedgerFiles w)
          (CommonLedgerFile w) (Files w) (TxHashFile w) (ProcessedTxs w) (SyncStatusMap w)
          (LastSyncTime w) s t.

(** *** The monad of calls: a state, and a value, an error or a panic *)

Definition M (A : Type) : Type := World → Res A * World.

#[export] Instance M_ret : MRet M := λ A a w, (Ok a, w).

#[export] Instance M_bind : MBind M := λ A B k m w,
  match m w with
  | (Ok a, w') => k a w'
  | (Err e, w') => (Err e, w')
  | (Panic e, w') => (Panic e, w')
  end.

(** [return fmt.Errorf(...)] *)
Definition fail {A} (msg : string) : M A := λ w, (Err msg, w).

(** a run-time panic *)
Definition panic {A} (msg : string) : M A := λ w, (Panic msg, w).

(** [x, err := f()]: the error becomes a value the caller tests. *)
Definition attempt {A} (m : M A) : M (Res A) := λ w,
  match m w with
  | (Panic e, w') => (Panic e, w')
  | (r, w') => (Ok r, w')
  end.

(** [if err != nil { return fmt.Errorf(prefix + "%v", err) }] *)
Definition wrap {A} (prefix : string) (m : M A) : M A := λ w,
  match m w with
  | (Err e, w') => (Err (prefix +:+ e), w')
  | rw => rw
  end.

(** The result of a pure fallible call. *)
Definition lift {A} (r : Res A) : M A := λ w, (r, w).

Definition modify (f : World → World) : M unit := λ w, (Ok tt, f w).

Definition gets {A} (f : World → A) : M A := λ w, (Ok (f w), w).

(** [time.Now()] *)
Definition Now : M Time := λ w, (Ok (clock w (ticks w)), set_ticks (S (ticks w)) w).

(** [uuid.New().String()] *)
Definition NewUUID : M string := λ w, (Ok (uuids w (drawn w)), set_drawn (S (drawn w)) w).

End World.

Arguments World Store : clear implicits.
Arguments M Store A : clear implicits.

(** ** package supabase: the client *)

Module Client.
Section Client.
Context {Store : Type} `{!Backend Store}.

(** [req.Execute(&data)], recorded in the trace. *)
Definition execute (rq : Request) : M Store (list Data) := λ w,
  let '(a, s) := Execute rq (store w) in
  (match a with Rows rows => Ok rows | Failure err => Err err end,
   set_store s ((rq, a) :: trace w) w).

(** [req.Filter(key, "eq", fmt.Sprintf("%v", value))] for each entry of [where]. *)
Definition where_filters (where_ : Data) : list (string * string * string) :=
  map (fun kv => (fst kv, "eq", Json.fmt_v (snd kv))) where_.

Definition Select (table query : string) (where_ : Data) : M Store (list Data) :=
  wrap ("supabase select error on " +:+ table +:+ ": ")
       (execute (mkRequest table (VSelect query) (where_filters where_))).

Definition Insert (table : string) (data : JVal) : M Store (option Data) :=
  result ← wrap ("supabase insert error on " +:+ table +:+ ": ")
                (execute (mkRequest table (VInsert data) []));
  mret (head result).

Definition idColumn (table : string) : string :=
  if String.eqb table "drugs" then "drug_id"
  else if String.eqb table "shipments" then "shipment_id"
  else "id".

Definition Update (table id : string) (data : Data) : M Store (option Data) :=
  result ← wrap ("supabase update error on " +:+ table +:+ ": ")
                (execute (mkRequest table (VUpdate data) [(idColumn table, "eq", id)]));
  mret (head result).

Definition Delete (table : string) (match_ : Data) : M Store (option Data) :=
  result ← wrap ("supabase delete error on " +:+ table +:+ ": ")
                (execute (mkRequest table VDelete (where_filters match_)));
  mret (head result).

End Client.
End Client.

(** ** package storage: ledger_storage.go *)

Module LedgerStorage.
Section LedgerStorage.
Context {Store : Type} `{!Backend Store}.

Definition SaveManufacturerLedger (ledger : ManufacturerLedger) : M Store unit :=
  modify (λ w, set_ManufacturerLedgerFiles
                 (<[ml_ManufacturerID ledger := ledger]> (ManufacturerLedgerFiles w)) w).

(** A ledger that has no file yet is created and saved. *)
Definition GetManufacturerLedger (manufacturerID : string) : M Store ManufacturerLedger :=
  file ← gets (λ w, ManufacturerLedgerFiles w !! manufacturerID);
  match file with
  | None =>
      now ← Now;
      let newLedger := NewManufacturerLedger now manufacturerID in
      wrap "failed to create new manufacturer ledger: " (SaveManufacturerLedger newLedger);;
      mret newLedger
  | Some ledger => mret ledger
  end.

Definition GetCommonLedger : M Store CommonLedger :=
  file ← gets CommonLedgerFile;
  match file with
  | None => fail ("failed to read common ledger: " +:+
                  "open blockchain_data/common_ledger.json: no such file or directory")
  | Some ledger => mret ledger
  end.

Definition SaveCommonLedger (ledger : CommonLedger) : M Store unit :=
  modify (set_CommonLedgerFile (Some ledger)).

(** [NewLedgerStorage()]: the common ledger file is created when absent.  The
    environment variables read by [supabase.NewClient] are those the running
    service was started with. *)
Definition NewLedgerStorage : M Store unit :=
  file ← gets CommonLedgerFile;
  match file with
  | None => now ← Now; modify (set_CommonLedgerFile (Some (NewCommonLedger now)))
  | Some _ => mret tt
  end.

Definition ListManufacturerLedgers : M Store (list string) :=
  gets (λ w, map fst (map_to_list (ManufacturerLedgerFiles w))).

Definition DeleteManufacturerLedger (manufacturerID : string) : M Store unit :=
  file ← gets (λ w, ManufacturerLedgerFiles w !! manufacturerID);
  match file with
  | None => fail "failed to delete manufacturer ledger: no such file or directory"
  | Some _ =>
      modify (λ w, set_ManufacturerLedgerFiles
                     (delete manufacturerID (ManufacturerLedgerFiles w)) w)
  end.

Definition InsertDrug (drug : Drug) : M Store unit :=
  Client.Insert "drugs" (JObj (drug_row drug));; mret tt.

Definition UpdateDrug (drug : Drug) : M Store unit :=
  Client.Update "drugs" (dg_ID drug) (drug_row drug);; mret tt.

Definition GetDrug (drugID : string) : M Store Drug :=
  result ← Client.Select "drugs" "*" [("id", JStr drugID)];
  match result with
  | [] => fail ("drug not found: " +:+ drugID)
  | row :: _ => lift (decode_drug row)
  end.

Definition InsertDrugStatusUpdate (update : DrugStatusUpdate) : M Store unit :=
  Client.Insert "drug_status_updates" (JObj (drug_status_update_row update));; mret tt.

Definition GetDrugStatusUpdates (drugID : string) : M Store (list DrugStatusUpdate) :=
  result ← Client.Select "drug_status_updates" "*" [("drug_id", JStr drugID)];
  lift (decode_all decode_drug_status_update result).

Definition InsertShipment (shipment : Shipment) : M Store unit :=
  Client.Insert "shipments" (JObj (shipment_row shipment));; mret tt.

Definition UpdateShipment (shipment : Shipment) : M Store unit :=
  Client.Update "shipments" (sp_ID shipment) (shipment_row shipment);; mret tt.

Definition GetShipment (shipmentID : string) : M Store Shipment :=
  result ← Client.Select "shipments" "*" [("id", JStr shipmentID)];
  match result with
  | [] => fail ("shipment not found: " +:+ shipmentID)
  | row :: _ => lift (decode_shipment row)
  end.

Definition InsertShipmentStatusUpdate (update : ShipmentStatusUpdate) : M Store unit :=
  Client.Insert "shipment_status_updates" (JObj (shipment_status_update_row update));; mret tt.

Definition GetShipmentStatusUpdates (shipmentID : string)
  : M Store (list ShipmentStatusUpdate) :=
  result ← Client.Select "shipment_status_updates" "*" [("shipment_id", JStr shipmentID)];
  lift (decode_all decode_shipment_status_update result).

End LedgerStorage.
End LedgerStorage.

(** ** package storage: data_storage.go *)

Module DataStorage.
Section DataStorage.
Context {Store : Type} `{!Backend Store}.

Definition DataDir : string := "data_records".

(** [s.WriteFile(filePath, data)] and [os.WriteFile] of a JSON document. *)
Definition WriteFile (filePath : string) (data : JVal) : M Store unit :=
  modify (λ w, set_Files (<[filePath := data]> (Files w)) w).

Definition EnsureBlockchainLedgerExists : M Store unit :=
  file ← gets BlockchainFile;
  match file with
  | None =>
      now ← Now;
      modify (set_BlockchainFile (Some (mkBlockchainLedger [] (rfc3339 now) 0)))
  | Some _ => mret tt
  end.

Definition GetBlockchainLedger : M Store BlockchainLedger :=
  EnsureBlockchainLedgerExists;;
  file ← gets BlockchainFile;
  match file with
  | None => fail "failed to read blockchain ledger: no such file or directory"
  | Some ledger => mret ledger
  end.

(** The cascade of [AddTransactionToBlockchain] on a transaction that carries
    a [manufacturer]: a drug record is appended to the manufacturer ledger and
    to the common ledger. *)
Definition add_drug_to_ledgers (drugID manufacturerID txHash : string) : M Store unit :=
  LedgerStorage.NewLedgerStorage;;
  got ← attempt (LedgerStorage.GetManufacturerLedger manufacturerID);
  match got with
  | Ok manufacturerLedger =>
      now ← Now;
      let timestamp := rfc3339 now in
      let drugRecord :=
        mkDrugRecord drugID "created" timestamp "" "created"
                     [mkStatus "created" timestamp "Drug created"] in
      let manufacturerLedger :=
        ml_set_last_updated timestamp
          (ml_set_drugs (ml_Drugs manufacturerLedger ++ [drugRecord]) manufacturerLedger) in
      attempt (LedgerStorage.SaveManufacturerLedger manufacturerLedger);;
      got ← attempt LedgerStorage.GetCommonLedger;
      match got with
      | Ok commonLedger =>
          let commonDrugRecord :=
            mkCommonDrugRecord drugID manufacturerID "created" timestamp "created"
                               [mkStatus "created" timestamp "Drug created"] txHash in
          let commonLedger :=
            cl_set_last_updated timestamp
              (cl_set_drugs (cl_Drugs commonLedger ++ [commonDrugRecord]) commonLedger) in
          attempt (LedgerStorage.SaveCommonLedger commonLedger);; mret tt
      | _ => mret tt
      end
  | _ => mret tt
  end.

(** [s.AddTransactionToBlockchain(txData, txHash)].  The assignment
    [txData["blockchain_tx_id"] = txHash] happens after the block was written;
    no caller reads that key of its map afterwards. *)
Definition AddTransactionToBlockchain (txData : Data) (txHash : string) : M Store unit :=
  wrap "could not ensure blockchain ledger exists: " EnsureBlockchainLedgerExists;;
  ledger ← wrap "could not read blockchain ledger: " GetBlockchainLedger;
  let currentHeight := bl_BlockHeight ledger in
  let newHeight := int_add currentHeight 1 in
  let previousBlockHash :=
    match last (bl_Blocks ledger) with
    | Some b => b_TxHash b
    | None => ""
    end in
  now ← Now;
  let newBlock := mkBlock newHeight txHash (JObj txData) (rfc3339 now) previousBlockHash in
  now' ← Now;
  let ledger := mkBlockchainLedger (bl_Blocks ledger ++ [newBlock]) (rfc3339 now') newHeight in
  modify (set_BlockchainFile (Some ledger));;
  attempt (Client.Select "blockchain_ledger" "count" [("limit", JNum 1)]);;
  now'' ← Now;
  attempt (Client.Insert "blockchain_ledger"
             (JObj [ ("tx_hash", JStr txHash); ("tx_data", JObj txData);
                     ("block_height", JNum newHeight);
                     ("timestamp", JStr (rfc3339 now'')) ]));;
  match Json.get_string "drug_id" txData with
  | Some drugID =>
      updated ← attempt (Client.Update "drugs" drugID [("blockchain_tx_id", JStr txHash)]);
      match updated with
      | Ok _ =>
          let recordFile := DataDir +:+ "/drug_" +:+ drugID +:+ ".json" in
          let txData := Json.set "blockchain_tx_id" (JStr txHash) txData in
          WriteFile recordFile (JObj txData);;
          match Json.get_string "manufacturer" txData with
          | Some manufacturerID => add_drug_to_ledgers drugID manufacturerID txHash
          | None => mret tt
          end
      | _ => mret tt
      end
  | None =>
      match Json.get_string "shipment_id" txData with
      | Some shipmentID =>
          updated ← attempt (Client.Update "shipments" shipmentID
                               [("blockchain_tx_id", JStr txHash)]);
          match updated with
          | Ok _ =>
              let recordFile := DataDir +:+ "/shipment_" +:+ shipmentID +:+ ".json" in
              let txData := Json.set "blockchain_tx_id" (JStr txHash) txData in
              WriteFile recordFile (JObj txData)
          | _ => mret tt
          end
      | None => mret tt
      end
  end.

(** The loop of [checkConsistency]: [i] is the index of [rest]'s head and
    [previousBlock] is [ledger.Blocks[i-1]]. *)
Fixpoint check_sequence (i : nat) (previousBlock : Block) (rest : list Block) : Res bool :=
  match rest with
  | [] => Ok true
  | currentBlock :: rest' =>
      if negb (b_BlockHeight currentBlock =? int_add (b_BlockHeight previousBlock) 1)%Z
      then Err ("block height sequence broken at block " +:+ pretty i)
      else if negb (String.eqb (b_PreviousBlockHash currentBlock) (b_TxHash previousBlock))
      then Err ("previous block hash mismatch at block " +:+ pretty i)
      else check_sequence (S i) currentBlock rest'
  end.

(** [s.checkConsistency()]; on an error the boolean of the source is [false]. *)
Definition checkConsistency : M Store bool :=
  ledger ← wrap "failed to get blockchain ledger: " GetBlockchainLedger;
  match bl_Blocks ledger with
  | [] => mret true
  | first :: rest => lift (check_sequence 1 first rest)
  end.

(** [s.RunConsistencyCheck()] *)
Definition RunConsistencyCheck : M Store ConsistencyCheckResult :=
  connected ← attempt (Client.Select "drugs" "count" [("limit", JNum 1)]);
  match connected with
  | Ok _ =>
      checked ← attempt checkConsistency;
      match checked with
      | Ok isConsistent =>
          now ← Now;
          if isConsistent : bool
          then mret (mkConsistencyCheckResult "consistent" "" (rfc3339 now) "")
          else mret (mkConsistencyCheckResult "inconsistent" "" (rfc3339 now)
                       "Run manual verification and repair process")
      | Err err =>
          now ← Now; mret (mkConsistencyCheckResult "error" err (rfc3339 now) "")
      | Panic p => panic p
      end
  | _ =>
      now ← Now;
      mret (mkConsistencyCheckResult "failed" "Database connection failed" (rfc3339 now) "")
  end.

End DataStorage.
End DataStorage.

(** ** package blockchain: service.go *)

Module BlockchainService.
Section BlockchainService.
Context {Store : Type} `{!Backend Store}.

(** [bs.CreateTransaction(txType, data)].  The three assignments to [data]
    are visible to the caller through its map; no caller reads them. *)
Definition CreateTransaction (txType : string) (data : Data) : M Store string :=
  let data := Json.set "tx_type" (JStr txType) data in
  now ← Now;
  let data := Json.set "timestamp" (JStr (rfc3339 now)) data in
  uuid ← NewUUID;
  now' ← Now;
  let txHash := Blockchain.GenerateTransactionHash uuid now' data in
  let data := Json.set "tx_hash" (JStr txHash) data in
  wrap "failed to add transaction to blockchain: "
       (DataStorage.AddTransactionToBlockchain data txHash);;
  mret txHash.

Definition GetTransaction (txID : string) : M Store BlockchainTransaction :=
  ledger ← wrap "failed to get blockchain ledger: " DataStorage.GetBlockchainLedger;
  match find_first (fun block => String.eqb (b_TxHash block) txID) (bl_Blocks ledger) with
  | Some block =>
      match b_TxData block with
      | JObj txData =>
          let txType := default "" (Json.get_string "tx_type" txData) in
          mret (mkBlockchainTransaction (b_TxHash block) txType txData (b_Timestamp block))
      | _ => fail "invalid transaction data format"
      end
  | None => fail ("transaction not found: " +:+ txID)
  end.

Definition VerifyTransaction (txID : string) : M Store bool :=
  ledger ← wrap "failed to get blockchain ledger: " DataStorage.GetBlockchainLedger;
  match find_first (fun block => String.eqb (b_TxHash block) txID) (bl_Blocks ledger) with
  | Some block =>
      match b_TxData block with
      | JObj txData =>
          now ← Now;
          mret (Blockchain.ValidateTransaction now txID txData)
      | _ => fail "invalid transaction data format"
      end
  | None => fail ("transaction not found: " +:+ txID)
  end.

Definition RecordDrugCreation (drugID manufacturerID : string) (timestamp : Time)
  : M Store string :=
  CreateTransaction "drug_create"
    [ ("drug_id", JStr drugID); ("manufacturer_id", JStr manufacturerID);
      ("status", JStr "created"); ("created_at", JStr (rfc3339 timestamp)) ].

Definition RecordDrugStatusUpdate (drugID status updatedBy : string) (timestamp : Time)
  : M Store string :=
  CreateTransaction "drug_update"
    [ ("drug_id", JStr drugID); ("status", JStr status);
      ("updated_by", JStr updatedBy); ("updated_at", JStr (rfc3339 timestamp)) ].

Definition RecordShipmentCreation (shipmentID drugID manufacturerID distributorID : string)
    (timestamp : Time) : M Store string :=
  CreateTransaction "shipment_create"
    [ ("shipment_id", JStr shipmentID); ("drug_id", JStr drugID);
      ("manufacturer_id", JStr manufacturerID); ("distributor_id", JStr distributorID);
      ("status", JStr "created"); ("created_at", JStr (rfc3339 timestamp)) ].

Definition RecordShipmentStatusUpdate (shipmentID status updatedBy : string)
    (timestamp : Time) : M Store string :=
  CreateTransaction "shipment_update"
    [ ("shipment_id", JStr shipmentID); ("status", JStr status);
      ("updated_by", JStr updatedBy); ("updated_at", JStr (rfc3339 timestamp)) ].

End BlockchainService.
End BlockchainService.

(** [for _, x := range l { if err := f(x); err != nil { return err } }] *)
Fixpoint for_each {Store A} (f : A → M Store unit) (l : list A) : M Store unit :=
  match l with
  | [] => mret tt
  | x :: l' => f x;; for_each f l'
  end.

(** ** package manager: ledger_manager.go *)

Module LedgerManager.
Section LedgerManager.
Context {Store : Type} `{!Backend Store}.

Definition generateVerificationHash (drugID manufacturerID timestamp : string) : string :=
  Sha256.hex_sum (drugID +:+ ":" +:+ manufacturerID +:+ ":" +:+ timestamp).

Definition is_drug (id : string) (d : DrugRecord) : bool := String.eqb (d_DrugID d) id.
Definition is_common_drug (id : string) (d : CommonDrugRecord) : bool :=
  String.eqb (cd_DrugID d) id.
Definition is_shipment (id : string) (s : ShipmentRecord) : bool :=
  String.eqb (sh_ShipmentID s) id.
Definition is_common_shipment (id : string) (s : CommonShipmentRecord) : bool :=
  String.eqb (cs_ShipmentID s) id.

Definition CreateDrug (params : CreateDrugParams) : M Store string :=
  now ← Now;
  let timestamp := rfc3339 now in
  let verificationHash :=
    generateVerificationHash (cdp_DrugID params) (cdp_ManufacturerID params) timestamp in
  let txData : Data :=
    [ ("drug_id", JStr (cdp_DrugID params));
      ("manufacturer_id", JStr (cdp_ManufacturerID params));
      ("name", JStr (cdp_Name params));
      ("description", JStr (cdp_Description params));
      ("verification_hash", JStr verificationHash);
      ("created_at", JStr timestamp) ] in
  txHash ← wrap "failed to create blockchain transaction: "
                (BlockchainService.CreateTransaction "drug_create" txData);
  manufacturerLedger ← wrap "failed to get manufacturer ledger: "
    (LedgerStorage.GetManufacturerLedger (cdp_ManufacturerID params));
  let drugRecord :=
    mkDrugRecord (cdp_DrugID params) "created" timestamp "" "created"
                 [mkStatus "created" timestamp "Drug created"] in
  let manufacturerLedger :=
    ml_set_last_updated timestamp
      (ml_set_drugs (ml_Drugs manufacturerLedger ++ [drugRecord]) manufacturerLedger) in
  wrap "failed to save manufacturer ledger: "
       (LedgerStorage.SaveManufacturerLedger manufacturerLedger);;
  commonLedger ← wrap "failed to get common ledger: " LedgerStorage.GetCommonLedger;
  let commonDrugRecord :=
    mkCommonDrugRecord (cdp_DrugID params) (cdp_ManufacturerID params) "created" timestamp
                       "created" [mkStatus "created" timestamp "Drug created"]
                       verificationHash in
  let commonLedger :=
    cl_set_last_updated timestamp
      (cl_set_drugs (cl_Drugs commonLedger ++ [commonDrugRecord]) commonLedger) in
  wrap "failed to save common ledger: " (LedgerStorage.SaveCommonLedger commonLedger);;
  let drug :=
    mkDrug (cdp_DrugID params) (cdp_ManufacturerID params) (cdp_Name params)
           (cdp_Description params) "created" verificationHash txHash
           (rfc3339nano now) (rfc3339nano now) in
  wrap "failed to insert drug into database: " (LedgerStorage.InsertDrug drug);;
  let drugStatusUpdate :=
    mkDrugStatusUpdate "" (cdp_DrugID params) "created" (cdp_Location params)
                       (cdp_UserID params) txHash (rfc3339nano now) in
  wrap "failed to insert drug status update into database: "
       (LedgerStorage.InsertDrugStatusUpdate drugStatusUpdate);;
  mret verificationHash.

Definition CreateShipment (params : CreateShipmentParams) : M Store string :=
  now ← Now;
  let timestamp := rfc3339 now in
  let txData : Data :=
    [ ("shipment_id", JStr (csp_ShipmentID params));
      ("drug_id", JStr (csp_DrugID params));
      ("manufacturer_id", JStr (csp_ManufacturerID params));
      ("distributor_id", JStr (csp_DistributorID params));
      ("created_at", JStr timestamp) ] in
  txHash ← wrap "failed to create blockchain transaction: "
                (BlockchainService.CreateTransaction "shipment_create" txData);
  manufacturerLedger ← wrap "failed to get manufacturer ledger: "
    (LedgerStorage.GetManufacturerLedger (csp_ManufacturerID params));
  let shipmentRecord :=
    mkShipmentRecord (csp_ShipmentID params) (csp_DrugID params) "created" timestamp
                     "created" [mkStatus "created" timestamp "Shipment created"] in
  let manufacturerLedger :=
    ml_set_last_updated timestamp
      (ml_set_shipments (ml_Shipments manufacturerLedger ++ [shipmentRecord])
                        manufacturerLedger) in
  let in_transit :=
    mkStatus "in_transit" timestamp
             ("Drug added to shipment " +:+ csp_ShipmentID params) in
  let manufacturerLedger :=
    ml_set_drugs
      (update_first (is_drug (csp_DrugID params))
         (fun d => d_append in_transit (d_set_status "in_transit" "in_transit" d))
         (ml_Drugs manufacturerLedger)) manufacturerLedger in
  wrap "failed to save manufacturer ledger: "
       (LedgerStorage.SaveManufacturerLedger manufacturerLedger);;
  commonLedger ← wrap "failed to get common ledger: " LedgerStorage.GetCommonLedger;
  let commonShipmentRecord :=
    mkCommonShipmentRecord (csp_ShipmentID params) (csp_DrugID params)
                           (csp_ManufacturerID params) (csp_DistributorID params)
                           "created" timestamp "created"
                           [mkStatus "created" timestamp "Shipment created"] in
  let commonLedger :=
    cl_set_last_updated timestamp
      (cl_set_shipments (cl_Shipments commonLedger ++ [commonShipmentRecord]) commonLedger) in
  let commonLedger :=
    cl_set_drugs
      (update_first (is_common_drug (csp_DrugID params))
         (fun d => cd_append in_transit (cd_set_status "in_transit" "in_transit" d))
         (cl_Drugs commonLedger)) commonLedger in
  wrap "failed to save common ledger: " (LedgerStorage.SaveCommonLedger commonLedger);;
  let shipment :=
    mkShipment (csp_ShipmentID params) (csp_DrugID params) (csp_ManufacturerID params)
               (csp_DistributorID params) "created" txHash
               (rfc3339nano now) (rfc3339nano now) in
  wrap "failed to insert shipment into database: " (LedgerStorage.InsertShipment shipment);;
  let shipmentStatusUpdate :=
    mkShipmentStatusUpdate "" (csp_ShipmentID params) "created" (csp_Location params)
                           (csp_UserID params) txHash (rfc3339nano now) in
  wrap "failed to insert shipment status update into database: "
       (LedgerStorage.InsertShipmentStatusUpdate shipmentStatusUpdate);;
  drugStatusTxHash ← wrap "failed to record drug status update in blockchain: "
    (BlockchainService.RecordDrugStatusUpdate (csp_DrugID params) "in_transit"
                                              (csp_UserID params) now);
  drug ← wrap "failed to get drug from database: "
              (LedgerStorage.GetDrug (csp_DrugID params));
  let drug :=
    mkDrug (dg_ID drug) (dg_ManufacturerID drug) (dg_Name drug) (dg_Description drug)
           "in_transit" (dg_VerificationHash drug) drugStatusTxHash (dg_CreatedAt drug)
           (rfc3339nano now) in
  wrap "failed to update drug in database: " (LedgerStorage.UpdateDrug drug);;
  let drugInTransitUpdate :=
    mkDrugStatusUpdate "" (csp_DrugID params) "in_transit" (csp_Location params)
                       (csp_UserID params) drugStatusTxHash (rfc3339nano now) in
  wrap "failed to insert drug status update into database: "
       (LedgerStorage.InsertDrugStatusUpdate drugInTransitUpdate);;
  mret txHash.

(** The cascade of [UpdateShipmentStatus] to the external store, run when the
    requested status is "delivered". *)
Definition deliver_drug_in_store (params : UpdateShipmentStatusParams)
    (shipment : Shipment) (now : Time) : M Store unit :=
  drugStatusTxHash ← wrap "failed to record drug status update in blockchain: "
    (BlockchainService.RecordDrugStatusUpdate (sp_DrugID shipment) "delivered"
                                              (usp_UserID params) now);
  drug ← wrap "failed to get drug from database: "
              (LedgerStorage.GetDrug (sp_DrugID shipment));
  let drug :=
    mkDrug (dg_ID drug) (dg_ManufacturerID drug) (dg_Name drug) (dg_Description drug)
           "delivered" (dg_VerificationHash drug) drugStatusTxHash (dg_CreatedAt drug)
           (rfc3339nano now) in
  wrap "failed to update drug in database: " (LedgerStorage.UpdateDrug drug);;
  let drugStatusUpdate :=
    mkDrugStatusUpdate "" (sp_DrugID shipment) "delivered" (usp_Location params)
                       (usp_UserID params) drugStatusTxHash (rfc3339nano now) in
  wrap "failed to insert drug status update into database: "
       (LedgerStorage.InsertDrugStatusUpdate drugStatusUpdate).

Definition UpdateShipmentStatus (params : UpdateShipmentStatusParams) : M Store unit :=
  now ← Now;
  let timestamp := rfc3339 now in
  let txData : Data :=
    [ ("shipment_id", JStr (usp_ShipmentID params));
      ("status", JStr (usp_Status params));
      ("updated_by", JStr (usp_UserID params));
      ("updated_at", JStr timestamp) ] in
  txHash ← wrap "failed to create blockchain transaction: "
                (BlockchainService.CreateTransaction "shipment_update" txData);
  shipment ← wrap "failed to get shipment from database: "
                  (LedgerStorage.GetShipment (usp_ShipmentID params));
  manufacturerLedger ← wrap "failed to get manufacturer ledger: "
    (LedgerStorage.GetManufacturerLedger (sp_ManufacturerID shipment));
  let updated :=
    mkStatus (usp_Status params) timestamp
             ("Shipment status updated to " +:+ usp_Status params) in
  let delivered :=
    mkStatus "delivered" timestamp
             ("Drug delivered via shipment " +:+ usp_ShipmentID params) in
  let manufacturerLedger :=
    ml_set_shipments
      (update_first (is_shipment (usp_ShipmentID params))
         (fun s => sh_append updated
                     (sh_set_status (usp_Status params) (usp_Status params) s))
         (ml_Shipments manufacturerLedger)) manufacturerLedger in
  let manufacturerLedger :=
    if String.eqb (usp_Status params) "delivered"
    then ml_set_drugs
           (update_first (is_drug (sp_DrugID shipment))
              (fun d => d_append delivered (d_set_status "delivered" "delivered" d))
              (ml_Drugs manufacturerLedger)) manufacturerLedger
    else manufacturerLedger in
  let manufacturerLedger := ml_set_last_updated timestamp manufacturerLedger in
  wrap "failed to save manufacturer ledger: "
       (LedgerStorage.SaveManufacturerLedger manufacturerLedger);;
  commonLedger ← wrap "failed to get common ledger: " LedgerStorage.GetCommonLedger;
  let commonLedger :=
    cl_set_shipments
      (update_first (is_common_shipment (usp_ShipmentID params))
         (fun s => cs_append updated
                     (cs_set_status (usp_Status params) (usp_Status params) s))
         (cl_Shipments commonLedger)) commonLedger in
  let commonLedger :=
    if String.eqb (usp_Status params) "delivered"
    then cl_set_drugs
           (update_first (is_common_drug (sp_DrugID shipment))
              (fun d => cd_append delivered (cd_set_status "delivered" "delivered" d))
              (cl_Drugs commonLedger)) commonLedger
    else commonLedger in
  let commonLedger := cl_set_last_updated timestamp commonLedger in
  wrap "failed to save common ledger: " (LedgerStorage.SaveCommonLedger commonLedger);;
  let shipment' :=
    mkShipment (sp_ID shipment) (sp_DrugID shipment) (sp_ManufacturerID shipment)
               (sp_DistributorID shipment) (usp_Status params) txHash
               (sp_CreatedAt shipment) (rfc3339nano now) in
  wrap "failed to update shipment in database: " (LedgerStorage.UpdateShipment shipment');;
  let shipmentStatusUpdate :=
    mkShipmentStatusUpdate "" (usp_ShipmentID params) (usp_Status params)
                           (usp_Location params) (usp_UserID params) txHash
                           (rfc3339nano now) in
  wrap "failed to insert shipment status update into database: "
       (LedgerStorage.InsertShipmentStatusUpdate shipmentStatusUpdate);;
  if String.eqb (usp_Status params) "delivered"
  then deliver_drug_in_store params shipment' now
  else mret tt.

Definition RevertDrug (params : RevertDrugParams) : M Store unit :=
  now ← Now;
  let timestamp := rfc3339 now in
  let txData : Data :=
    [ ("drug_id", JStr (rdp_DrugID params));
      ("reason", JStr (rdp_Reason params));
      ("updated_by", JStr (rdp_UserID params));
      ("updated_at", JStr timestamp) ] in
  txHash ← wrap "failed to create blockchain transaction: "
                (BlockchainService.CreateTransaction "drug_revert" txData);
  drug ← wrap "failed to get drug from database: "
              (LedgerStorage.GetDrug (rdp_DrugID params));
  manufacturerLedger ← wrap "failed to get manufacturer ledger: "
    (LedgerStorage.GetManufacturerLedger (dg_ManufacturerID drug));
  let reverted :=
    mkStatus "reverted" timestamp ("Drug reverted: " +:+ rdp_Reason params) in
  let manufacturerLedger :=
    ml_set_drugs
      (update_first (is_drug (rdp_DrugID params))
         (fun d => d_append reverted
                     (d_set_reverted_at timestamp (d_set_status "reverted" "reverted" d)))
         (ml_Drugs manufacturerLedger)) manufacturerLedger in
  let manufacturerLedger := ml_set_last_updated timestamp manufacturerLedger in
  wrap "failed to save manufacturer ledger: "
       (LedgerStorage.SaveManufacturerLedger manufacturerLedger);;
  commonLedger ← wrap "failed to get common ledger: " LedgerStorage.GetCommonLedger;
  let commonLedger :=
    cl_set_drugs
      (update_first (is_common_drug (rdp_DrugID params))
         (fun d => cd_append reverted (cd_set_status "reverted" "reverted" d))
         (cl_Drugs commonLedger)) commonLedger in
  let commonLedger := cl_set_last_updated timestamp commonLedger in
  wrap "failed to save common ledger: " (LedgerStorage.SaveCommonLedger commonLedger);;
  let drug :=
    mkDrug (dg_ID drug) (dg_ManufacturerID drug) (dg_Name drug) (dg_Description drug)
           "reverted" (dg_VerificationHash drug) txHash (dg_CreatedAt drug)
           (rfc3339nano now) in
  wrap "failed to update drug in database: " (LedgerStorage.UpdateDrug drug);;
  let drugStatusUpdate :=
    mkDrugStatusUpdate "" (rdp_DrugID params) "reverted" (rdp_Location params)
                       (rdp_UserID params) txHash (rfc3339nano now) in
  wrap "failed to insert drug status update into database: "
       (LedgerStorage.InsertDrugStatusUpdate drugStatusUpdate).

Definition VerifyDrug (drugID : string) : M Store bool :=
  drug ← wrap "failed to get drug from database: " (LedgerStorage.GetDrug drugID);
  commonLedger ← wrap "failed to get common ledger: " LedgerStorage.GetCommonLedger;
  match find_first (is_common_drug drugID) (cl_Drugs commonLedger) with
  | None => fail ("drug not found in common ledger: " +:+ drugID)
  | Some commonDrug =>
      if negb (String.eqb (dg_VerificationHash drug) (cd_VerificationHash commonDrug))
      then mret false
      else BlockchainService.VerifyTransaction (dg_BlockchainTxID drug)
  end.

Definition GetDrugHistory (drugID : string) : M Store (list DrugStatusUpdate) :=
  LedgerStorage.GetDrugStatusUpdates drugID.

Definition GetShipmentHistory (shipmentID : string) : M Store (list ShipmentStatusUpdate) :=
  LedgerStorage.GetShipmentStatusUpdates shipmentID.

End LedgerManager.
End LedgerManager.

(** ** package blockchain: ledger_manager.go

    The ledger manager of package [blockchain], which works on the two ledger
    files only. *)

Module BlockchainLedgerManager.
Section BlockchainLedgerManager.
Context {Store : Type} `{!Backend Store}.

Import LedgerManager.

(** The body of the loop over [manufacturerLedger.Drugs]: the common record
    of the same id is replaced, or a record is appended. *)
Definition sync_drug (manufacturerID : string) (drugs : list CommonDrugRecord)
    (drug : DrugRecord) : list CommonDrugRecord :=
  let record :=
    mkCommonDrugRecord (d_DrugID drug) manufacturerID (d_Status drug) (d_CreatedAt drug)
                       (d_CurrentStatus drug) (d_History drug) "" in
  if existsb (is_common_drug (d_DrugID drug)) drugs
  then update_first (is_common_drug (d_DrugID drug)) (fun _ => record) drugs
  else drugs ++ [record].

Definition sync_shipment (manufacturerID : string) (shipments : list CommonShipmentRecord)
    (shipment : ShipmentRecord) : list CommonShipmentRecord :=
  let record :=
    mkCommonShipmentRecord (sh_ShipmentID shipment) (sh_DrugID shipment) manufacturerID ""
                           (sh_Status shipment) (sh_CreatedAt shipment)
                           (sh_CurrentStatus shipment) (sh_History shipment) in
  if existsb (is_common_shipment (sh_ShipmentID shipment)) shipments
  then update_first (is_common_shipment (sh_ShipmentID shipment)) (fun _ => record) shipments
  else shipments ++ [record].

Definition SyncManufacturerLedger (manufacturerID : string) : M Store unit :=
  manufacturerLedger ← wrap "failed to get manufacturer ledger: "
    (LedgerStorage.GetManufacturerLedger manufacturerID);
  commonLedger ← wrap "failed to get common ledger: " LedgerStorage.GetCommonLedger;
  let commonLedger :=
    cl_set_drugs (fold_left (sync_drug manufacturerID) (ml_Drugs manufacturerLedger)
                            (cl_Drugs commonLedger)) commonLedger in
  let commonLedger :=
    cl_set_shipments (fold_left (sync_shipment manufacturerID)
                                (ml_Shipments manufacturerLedger)
                                (cl_Shipments commonLedger)) commonLedger in
  wrap "failed to save common ledger: " (LedgerStorage.SaveCommonLedger commonLedger).

Definition SyncAllLedgers : M Store unit :=
  manufacturerIDs ← wrap "failed to list manufacturer ledgers: "
                         LedgerStorage.ListManufacturerLedgers;
  for_each (fun manufacturerID =>
              wrap ("failed to sync manufacturer ledger " +:+ manufacturerID +:+ ": ")
                   (SyncManufacturerLedger manufacturerID))
           manufacturerIDs.

Definition UpdateDrugStatus (manufacturerID drugID status details : string) : M Store unit :=
  manufacturerLedger ← wrap "failed to get manufacturer ledger: "
    (LedgerStorage.GetManufacturerLedger manufacturerID);
  now ← match find_first (is_drug drugID) (ml_Drugs manufacturerLedger) with
        | Some _ => Now
        | None => mret (mkTime "" "" "")
        end;
  let manufacturerLedger :=
    ml_set_drugs
      (update_first (is_drug drugID)
         (fun d => d_append (mkStatus status (rfc3339 now) details)
                     (d_set_status status status d))
         (ml_Drugs manufacturerLedger)) manufacturerLedger in
  wrap "failed to save manufacturer ledger: "
       (LedgerStorage.SaveManufacturerLedger manufacturerLedger);;
  commonLedger ← wrap "failed to get common ledger: " LedgerStorage.GetCommonLedger;
  now' ← match find_first (is_common_drug drugID) (cl_Drugs commonLedger) with
         | Some _ => Now
         | None => mret (mkTime "" "" "")
         end;
  let commonLedger :=
    cl_set_drugs
      (update_first (is_common_drug drugID)
         (fun d => cd_append (mkStatus status (rfc3339 now') details)
                     (cd_set_status status status d))
         (cl_Drugs commonLedger)) commonLedger in
  wrap "failed to save common ledger: " (LedgerStorage.SaveCommonLedger commonLedger).

Definition UpdateShipmentStatus (manufacturerID shipmentID status details : string)
  : M Store unit :=
  manufacturerLedger ← wrap "failed to get manufacturer ledger: "
    (LedgerStorage.GetManufacturerLedger manufacturerID);
  now ← match find_first (is_shipment shipmentID) (ml_Shipments manufacturerLedger) with
        | Some _ => Now
        | None => mret (mkTime "" "" "")
        end;
  let manufacturerLedger :=
    ml_set_shipments
      (update_first (is_shipment shipmentID)
         (fun s => sh_append (mkStatus status (rfc3339 now) details)
                     (sh_set_status status status s))
         (ml_Shipments manufacturerLedger)) manufacturerLedger in
  wrap "failed to save manufacturer ledger: "
       (LedgerStorage.SaveManufacturerLedger manufacturerLedger);;
  commonLedger ← wrap "failed to get common ledger: " LedgerStorage.GetCommonLedger;
  now' ← match find_first (is_common_shipment shipmentID) (cl_Shipments commonLedger) with
         | Some _ => Now
         | None => mret (mkTime "" "" "")
         end;
  let commonLedger :=
    cl_set_shipments
      (update_first (is_common_shipment shipmentID)
         (fun s => cs_append (mkStatus status (rfc3339 now') details)
                     (cs_set_status status status s))
         (cl_Shipments commonLedger)) commonLedger in
  wrap "failed to save common ledger: " (LedgerStorage.SaveCommonLedger commonLedger).

Definition CreateDrug (params : CreateDrugParams) : M Store string :=
  manufacturerLedger ← wrap "failed to get manufacturer ledger: "
    (LedgerStorage.GetManufacturerLedger (cdp_ManufacturerID params));
  now1 ← Now;
  now2 ← Now;
  let drugRecord :=
    mkDrugRecord (cdp_DrugID params) "created" (rfc3339 now1) "" "created"
                 [mkStatus "created" (rfc3339 now2) "Drug created"] in
  now3 ← Now;
  let manufacturerLedger :=
    ml_set_last_updated (rfc3339 now3)
      (ml_set_drugs (ml_Drugs manufacturerLedger ++ [drugRecord]) manufacturerLedger) in
  wrap "failed to save manufacturer ledger: "
       (LedgerStorage.SaveManufacturerLedger manufacturerLedger);;
  commonLedger ← wrap "failed to get common ledger: " LedgerStorage.GetCommonLedger;
  now4 ← Now;
  now5 ← Now;
  let commonDrugRecord :=
    mkCommonDrugRecord (cdp_DrugID params) (cdp_ManufacturerID params) "created"
                       (rfc3339 now4) "created"
                       [mkStatus "created" (rfc3339 now5) "Drug created"] "" in
  now6 ← Now;
  let commonLedger :=
    cl_set_last_updated (rfc3339 now6)
      (cl_set_drugs (cl_Drugs commonLedger ++ [commonDrugRecord]) commonLedger) in
  wrap "failed to save common ledger: " (LedgerStorage.SaveCommonLedger commonLedger);;
  mret (cdp_DrugID params).

Definition CreateShipment (params : CreateShipmentParams) : M Store string :=
  manufacturerLedger ← wrap "failed to get manufacturer ledger: "
    (LedgerStorage.GetManufacturerLedger (csp_ManufacturerID params));
  now1 ← Now;
  now2 ← Now;
  let shipmentRecord :=
    mkShipmentRecord (csp_ShipmentID params) (csp_DrugID params) "created" (rfc3339 now1)
                     "created" [mkStatus "created" (rfc3339 now2) "Shipment created"] in
  now3 ← Now;
  let manufacturerLedger :=
    ml_set_last_updated (rfc3339 now3)
      (ml_set_shipments (ml_Shipments manufacturerLedger ++ [shipmentRecord])
                        manufacturerLedger) in
  wrap "failed to save manufacturer ledger: "
       (LedgerStorage.SaveManufacturerLedger manufacturerLedger);;
  commonLedger ← wrap "failed to get common ledger: " LedgerStorage.GetCommonLedger;
  now4 ← Now;
  now5 ← Now;
  let commonShipmentRecord :=
    mkCommonShipmentRecord (csp_ShipmentID params) (csp_DrugID params)
                           (csp_ManufacturerID params) (csp_DistributorID params)
                           "created" (rfc3339 now4) "created"
                           [mkStatus "created" (rfc3339 now5) "Shipment created"] in
  now6 ← Now;
  let commonLedger :=
    cl_set_last_updated (rfc3339 now6)
      (cl_set_shipments (cl_Shipments commonLedger ++ [commonShipmentRecord]) commonLedger) in
  wrap "failed to save common ledger: " (LedgerStorage.SaveCommonLedger commonLedger);;
  mret (csp_ShipmentID params).

Definition RevertDrug (params : RevertDrugParams) : M Store unit :=
  manufacturerLedger ← wrap "failed to get manufacturer ledger: "
    (LedgerStorage.GetManufacturerLedger (rdp_ManufacturerID params));
  times ← match find_first (is_drug (rdp_DrugID params)) (ml_Drugs manufacturerLedger) with
          | Some _ => now1 ← Now; now2 ← Now; mret (now1, now2)
          | None => mret (mkTime "" "" "", mkTime "" "" "")
          end;
  let manufacturerLedger :=
    ml_set_drugs
      (update_first (is_drug (rdp_DrugID params))
         (fun d => d_append (mkStatus "reverted" (rfc3339 (snd times)) (rdp_Reason params))
                     (d_set_reverted_at (rfc3339 (fst times))
                        (d_set_status "reverted" "reverted" d)))
         (ml_Drugs manufacturerLedger)) manufacturerLedger in
  wrap "failed to save manufacturer ledger: "
       (LedgerStorage.SaveManufacturerLedger manufacturerLedger);;
  commonLedger ← wrap "failed to get common ledger: " LedgerStorage.GetCommonLedger;
  now' ← match find_first (is_common_drug (rdp_DrugID params)) (cl_Drugs commonLedger) with
         | Some _ => Now
         | None => mret (mkTime "" "" "")
         end;
  let commonLedger :=
    cl_set_drugs
      (update_first (is_common_drug (rdp_DrugID params))
         (fun d => cd_append (mkStatus "reverted" (rfc3339 now') (rdp_Reason params))
                     (cd_set_status "reverted" "reverted" d))
         (cl_Drugs commonLedger)) commonLedger in
  wrap "failed to save common ledger: " (LedgerStorage.SaveCommonLedger commonLedger).

Definition VerifyDrug (drugID : string) : M Store bool :=
  commonLedger ← wrap "failed to get common ledger: " LedgerStorage.GetCommonLedger;
  mret (existsb (is_common_drug drugID) (cl_Drugs commonLedger)).

End BlockchainLedgerManager.
End BlockchainLedgerManager.

(** ** package sync: transaction_tracker.go *)

Module TransactionTracker.
Section TransactionTracker.
Context {Store : Type} `{!Backend Store}.

(** [t.loadProcessedTxs()]: the hashes of the file are added to the map. *)
Definition loadProcessedTxs : M Store unit :=
  modify (λ w, set_ProcessedTxs (ProcessedTxs w ∪ TxHashFile w) w).

(** [NewTransactionTracker(dataDir)]: a fresh map, filled from the file. *)
Definition NewTransactionTracker : M Store unit :=
  modify (set_ProcessedTxs ∅);;
  wrap "failed to load processed transactions: " loadProcessedTxs.

(** [t.saveProcessedTxs()]: the keys of the map replace the file. *)
Definition saveProcessedTxs : M Store unit :=
  modify (λ w, set_TxHashFile (ProcessedTxs w) w).

Definition IsTransactionProcessed (txHash : string) : M Store bool :=
  gets (λ w, bool_decide (txHash ∈ ProcessedTxs w)).

Definition MarkTransactionProcessed (txHash : string) : M Store unit :=
  modify (λ w, set_ProcessedTxs ({[txHash]} ∪ ProcessedTxs w) w);;
  saveProcessedTxs.

End TransactionTracker.
End TransactionTracker.

(** ** package sync: sync_service.go

    The ticker goroutine of [Start], [Stop] and [ForceSync] are not part of
    the embedding; a cycle is a call of [performSync]. *)

Module SyncService.
Section SyncService.
Context {Store : Type} `{!Backend Store}.

Record SyncStatus : Type := mkSyncStatus {
  ss_Table : string;
  ss_LastSync : Time;
  ss_RecordsSent : Z;
  ss_RecordsReceived : Z;
  ss_Status : string;
  ss_Error : string
}.

Definition SyncLogDir : string := "sync_logs".

(** [finalized txID]: the test [txID != "" && txID != "pending"]. *)
Definition finalized (txID : string) : bool :=
  negb (String.eqb txID "") && negb (String.eqb txID "pending").

(** The test of [pullChangesFromSupabase] for a row to be skipped:
    [txID, ok := record["blockchain_tx_id"].(string); ok && txID != "pending"]. *)
Definition skipped (record : Data) : bool :=
  match Json.get_string "blockchain_tx_id" record with
  | Some txID => negb (String.eqb txID "pending")
  | None => false
  end.

(** The body of the loop of [pullChangesFromSupabase] for a row that is not
    skipped.  [drugData["drug_id"].(string)] is an unchecked assertion. *)
Definition pull_record (table : string) (record : Data) : M Store unit :=
  if String.eqb table "drugs"
  then
    let drugData := Json.copy record in
    created ← attempt (BlockchainService.CreateTransaction "drug" drugData);
    match created with
    | Ok txHash =>
        let updateData : Data := [("blockchain_tx_id", JStr txHash)] in
        match Json.get_string "drug_id" drugData with
        | Some drugID => attempt (Client.Update "drugs" drugID updateData);; mret tt
        | None => panic "interface conversion: interface {} is not string"
        end
    | _ => mret tt
    end
  else mret tt.

Fixpoint pull_records (table : string) (records : list Data) (processedCount : Z)
  : M Store Z :=
  match records with
  | [] => mret processedCount
  | record :: records' =>
      if skipped record
      then pull_records table records' processedCount
      else
        let processedCount := int_add processedCount 1 in
        pull_record table record;;
        pull_records table records' processedCount
  end.

Definition pullChangesFromSupabase (table : string) : M Store Z :=
  records ← wrap "failed to fetch records from Supabase: " (Client.Select table "*" []);
  pull_records table records 0.

(** [txID, exists := data["blockchain_tx_id"].(string);
     exists && txID != "" && txID != "pending"] *)
Definition existing_tx (data : Data) : option string :=
  match Json.get_string "blockchain_tx_id" data with
  | Some txID => if finalized txID then Some txID else None
  | None => None
  end.

(** [s.createShipmentTransaction(shipmentData)]: the hash, or the empty string
    on a failure, and the caller's map after the call.  The clock reading
    that [NewTransaction] takes is drawn before the call. *)
Definition createShipmentTransaction (shipmentData : Data) : M Store (string * Data) :=
  match existing_tx shipmentData with
  | Some txID => mret (txID, shipmentData)
  | None =>
      let txData := Json.copy shipmentData in
      now ← Now;
      match Blockchain.NewShipmentTransaction now txData with
      | Ok _ =>
          uuid ← NewUUID;
          now' ← Now;
          let txHash := Blockchain.GenerateTransactionHash uuid now' txData in
          added ← attempt (DataStorage.AddTransactionToBlockchain txData txHash);
          match added with
          | Ok _ => mret (txHash, Json.set "blockchain_tx_id" (JStr txHash) shipmentData)
          | _ => mret ("", shipmentData)
          end
      | Err _ => mret ("", shipmentData)
      | Panic p => panic p
      end
  end.

(** [s.createDrugTransaction(drugData)]; the two clock readings that
    [NewDrugTransaction] takes are drawn before the call. *)
Definition createDrugTransaction (drugData : Data) : M Store (string * Data) :=
  match existing_tx drugData with
  | Some txID => mret (txID, drugData)
  | None =>
      let txData := Json.copy drugData in
      now1 ← Now;
      now2 ← Now;
      match Blockchain.NewDrugTransaction now1 now2 txData with
      | Ok _ =>
          uuid ← NewUUID;
          now' ← Now;
          let txHash := Blockchain.GenerateTransactionHash uuid now' txData in
          added ← attempt (DataStorage.AddTransactionToBlockchain txData txHash);
          match added with
          | Ok _ => mret (txHash, Json.set "blockchain_tx_id" (JStr txHash) drugData)
          | _ => mret ("", drugData)
          end
      | Err _ => mret ("", drugData)
      | Panic p => panic p
      end
  end.

Definition pushChangesToSupabase (tableName : string) (lastSyncTime : option Time)
  : M Store Z :=
  mret 0%Z.

Definition syncTable (tableName : string) : M Store SyncStatus :=
  now ← Now;
  lastSyncTime ← gets (λ w, SyncStatusMap w !! tableName);
  pulled ← attempt (pullChangesFromSupabase tableName);
  match pulled with
  | Ok recordsReceived =>
      pushed ← attempt (pushChangesToSupabase tableName lastSyncTime);
      match pushed with
      | Ok recordsSent =>
          mret (mkSyncStatus tableName now recordsSent recordsReceived "success" "")
      | Err err =>
          mret (mkSyncStatus tableName now 0 recordsReceived "error"
                  ("Failed to push changes to Supabase: " +:+ err))
      | Panic p => panic p
      end
  | Err err =>
      mret (mkSyncStatus tableName now 0 0 "error"
              ("Failed to pull changes from Supabase: " +:+ err))
  | Panic p => panic p
  end.

Definition status_json (status : SyncStatus) : JVal :=
  JObj ([ ("table", JStr (ss_Table status));
          ("last_sync", JStr (rfc3339nano (ss_LastSync status)));
          ("records_sent", JNum (ss_RecordsSent status));
          ("records_received", JNum (ss_RecordsReceived status));
          ("status", JStr (ss_Status status)) ]
        ++ (if String.eqb (ss_Error status) "" then []
            else [("error", JStr (ss_Error status))])).

Definition logSyncStatus (status : SyncStatus) : M Store unit :=
  now ← Now;
  let logFileName := ss_Table status +:+ "-sync-" +:+ stamp now +:+ ".json" in
  let logFilePath := SyncLogDir +:+ "/" +:+ logFileName in
  DataStorage.WriteFile logFilePath (status_json status).

Definition tables : list string := ["drugs"; "shipments"].

Definition performSync : M Store unit :=
  for_each (fun table =>
              status ← syncTable table;
              logSyncStatus status;;
              if String.eqb (ss_Status status) "success"
              then now ← Now;
                   modify (λ w, set_SyncStatusMap (<[table := now]> (SyncStatusMap w)) w)
              else mret tt)
           tables;;
  now ← Now;
  modify (set_LastSyncTime (Some now)).

End SyncService.
End SyncService.

(** ** package sync: webhook_handler.go *)

Module WebhookHandler.
Section WebhookHandler.
Context {Store : Type} `{!Backend Store}.

Record WebhookPayload : Type := mkWebhookPayload {
  wp_Type : string;
  wp_Table : string;
  wp_Record : Data;
  wp_OldRecord : Data;
  wp_Schema : string;
  wp_Timestamp : string
}.

Record WebhookHandler : Type := mkWebhookHandler {
  Secret : string;
  MaxRetries : Z
}.

(** What the handler reads of the request: [c.Get("X-Webhook-Signature")],
    which is the empty string when the header is absent, and [c.Body()]. *)
Record Ctx : Type := mkCtx {
  Signature : string;
  Body : string
}.

(** [c.Status(code).JSON(body)] *)
Record Response : Type := mkResponse {
  StatusCode : Z;
  Reply : Data
}.

(** A goroutine started by the handler. *)
Inductive Task : Type :=
| ProcessRecordWithRetry (table : string) (record : Data)
| ProcessDeleteWithRetry (table : string) (record : Data).

(** [c.BodyParser(&payload)] of the web framework. *)
Context (BodyParser : string → Res WebhookPayload).

Definition StatusOK : Z := 200.
Definition StatusBadRequest : Z := 400.
Definition StatusUnauthorized : Z := 401.

Definition verifySignature (wh : WebhookHandler) (signature payload : string) : bool :=
  if String.eqb signature "" then false
  else String.eqb signature (Secret wh).

(** The handler after the signature check: the payload is parsed and its
    processing started. *)
Definition dispatch (c : Ctx) : Response * list Task :=
  match BodyParser (Body c) with
  | Ok payload =>
      let started :=
        if String.eqb (wp_Type payload) "INSERT" || String.eqb (wp_Type payload) "UPDATE"
        then [ProcessRecordWithRetry (wp_Table payload) (wp_Record payload)]
        else if String.eqb (wp_Type payload) "DELETE"
        then [ProcessDeleteWithRetry (wp_Table payload) (wp_OldRecord payload)]
        else [] in
      (mkResponse StatusOK
         [ ("status", JStr "success");
           ("message", JStr "Webhook received and processing started") ], started)
  | _ => (mkResponse StatusBadRequest [("error", JStr "Invalid payload")], [])
  end.

(** [wh.HandleWebhook(c)]: the response and the goroutines started. *)
Definition HandleWebhook (wh : WebhookHandler) (c : Ctx) : Response * list Task :=
  if negb (String.eqb (Secret wh) "") && negb (verifySignature wh (Signature c) (Body c))
  then (mkResponse StatusUnauthorized [("error", JStr "Invalid signature")], [])
  else dispatch c.

(** The [switch tableName] of [processRecord]: the record id, the transaction
    hash and the caller's map after it; [None] for a table that is not
    handled. *)
Definition resolve (tableName : string) (record : Data)
  : M Store (option (string * string * Data)) :=
  if String.eqb tableName "drugs" then
    match Json.get_string "drug_id" record with
    | Some id =>
        match SyncService.existing_tx record with
        | Some txID => mret (Some (id, txID, record))
        | None =>
            '(txHash, record) ← SyncService.createDrugTransaction record;
            mret (Some (id, txHash, record))
        end
    | None => mret (Some ("", "", record))
    end
  else if String.eqb tableName "shipments" then
    match Json.get_string "shipment_id" record with
    | Some id =>
        match SyncService.existing_tx record with
        | Some txID => mret (Some (id, txID, record))
        | None =>
            '(txHash, record) ← SyncService.createShipmentTransaction record;
            mret (Some (id, txHash, record))
        end
    | None => mret (Some ("", "", record))
    end
  else mret None.

(** [wh.processRecord(tableName, record)]: the caller's map after the call and
    the [error]. *)
Definition processRecord (tableName : string) (record : Data)
  : M Store (Data * option string) :=
  resolved ← resolve tableName record;
  match resolved with
  | None => mret (record, Some ("unhandled table in webhook: " +:+ tableName))
  | Some (recordID, txHash, record) =>
      if String.eqb recordID ""
      then mret (record, Some ("no valid record ID found for table " +:+ tableName))
      else
        processed ← (if String.eqb txHash "" then mret false
                     else TransactionTracker.IsTransactionProcessed txHash);
        if processed : bool then mret (record, None)
        else
          now ← Now;
          let filename := tableName +:+ "_" +:+ recordID +:+ "_" +:+ stamp now +:+ ".json" in
          let filePath := DataStorage.DataDir +:+ "/" +:+ filename in
          let record :=
            if String.eqb txHash "" then record
            else Json.set "blockchain_tx_id" (JStr txHash) record in
          DataStorage.WriteFile filePath (JObj record);;
          (if String.eqb txHash "" then mret (Ok tt)
           else attempt (TransactionTracker.MarkTransactionProcessed txHash));;
          now' ← Now;
          modify (λ w, set_SyncStatusMap (<[tableName := now']> (SyncStatusMap w)) w);;
          mret (record, None)
  end.

(** [wh.processDelete(tableName, record)] *)
Definition processDelete (tableName : string) (record : Data) : M Store (option string) :=
  if negb (String.eqb tableName "drugs" || String.eqb tableName "shipments")
  then mret (Some ("unhandled table in delete webhook: " +:+ tableName))
  else
    let recordID :=
      default "" (Json.get_string
                    (if String.eqb tableName "drugs" then "drug_id" else "shipment_id")
                    record) in
    if String.eqb recordID ""
    then mret (Some ("no valid record ID found for table " +:+ tableName))
    else
      now ← Now;
      let deletionRecord : Data :=
        [ ("deleted_at", JStr (rfc3339 now)); ("original_record", JObj record) ] in
      now' ← Now;
      let filename :=
        tableName +:+ "_" +:+ recordID +:+ "_" +:+ stamp now' +:+ "_deleted.json" in
      let filePath := DataStorage.DataDir +:+ "/" +:+ filename in
      DataStorage.WriteFile filePath (JObj deletionRecord);;
      now'' ← Now;
      modify (λ w, set_SyncStatusMap (<[tableName := now'']> (SyncStatusMap w)) w);;
      mret None.

(** [for i := 0; i < wh.MaxRetries; i++]: [n] iterations are left.  The
    [time.Sleep] between two attempts has no effect on the world. *)
Fixpoint record_attempts (n : nat) (tableName : string) (record : Data) : M Store unit :=
  match n with
  | O => mret tt
  | S n' =>
      '(record, err) ← processRecord tableName record;
      match err with
      | None => mret tt
      | Some _ => record_attempts n' tableName record
      end
  end.

Definition processRecordWithRetry (wh : WebhookHandler) (tableName : string) (record : Data)
  : M Store unit :=
  record_attempts (Z.to_nat (MaxRetries wh)) tableName record.

Fixpoint delete_attempts (n : nat) (tableName : string) (record : Data) : M Store unit :=
  match n with
  | O => mret tt
  | S n' =>
      err ← processDelete tableName record;
      match err with
      | None => mret tt
      | Some _ => delete_attempts n' tableName record
      end
  end.

Definition processDeleteWithRetry (wh : WebhookHandler) (tableName : string) (record : Data)
  : M Store unit :=
  delete_attempts (Z.to_nat (MaxRetries wh)) tableName record.

Definition run_task (wh : WebhookHandler) (t : Task) : M Store unit :=
  match t with
  | ProcessRecordWithRetry table record => processRecordWithRetry wh table record
  | ProcessDeleteWithRetry table record => processDeleteWithRetry wh table record
  end.

(** One webhook request, with the goroutines it starts run to their end
    before the next request is taken. *)
Definition submit (wh : WebhookHandler) (c : Ctx) : M Store Response :=
  let '(response, started) := HandleWebhook wh c in
  for_each (run_task wh) started;;
  mret response.

End WebhookHandler.
End WebhookHandler.

(** ** Two reference implementations of the external store

    The properties below hold for every implementation of [Backend].  Their
    instances at concrete inputs are run on [MemStore], tables of rows held in
    memory that answer as PostgREST does on an untyped table, and on
    [Unreachable], a store that fails every request. *)

Module MemStore.

Definition Tables : Type := gmap string (list Data).

(** A row passes a filter [(column, "eq", value)] when its column renders to
    the value. *)
Definition passes (filters : list (string * string * string)) (row : Data) : bool :=
  forallb (fun f =>
             match Json.get (fst (fst f)) row with
             | Some v => String.eqb (Json.fmt_v v) (snd f)
             | None => false
             end) filters.

(** The columns of [patch] are assigned in the row. *)
Definition patched (patch row : Data) : Data :=
  fold_left (fun r kv => Json.set (fst kv) (snd kv) r) patch row.

Definition execute (rq : Request) (t : Tables) : Answer * Tables :=
  let rows := default [] (t !! rq_table rq) in
  match rq_verb rq with
  | VSelect _ => (Rows (List.filter (passes (rq_filters rq)) rows), t)
  | VInsert (JObj row) => (Rows [row], <[rq_table rq := rows ++ [row]]> t)
  | VInsert _ => (Failure "invalid body", t)
  | VUpdate patch =>
      let rows' :=
        map (fun row => if passes (rq_filters rq) row then patched patch row else row) rows in
      (Rows (List.filter (passes (rq_filters rq)) rows'), <[rq_table rq := rows']> t)
  | VDelete =>
      (Rows (List.filter (passes (rq_filters rq)) rows),
       <[rq_table rq := List.filter (fun row => negb (passes (rq_filters rq) row)) rows]> t)
  end.

#[global] Instance backend : Backend Tables := execute.

End MemStore.

Module Unreachable.

Inductive Down : Type := down.

#[global] Instance backend : Backend Down :=
  λ _ s, (Failure "connection refused", s).

End Unreachable.

(** ** Concrete inputs *)

Module Example.

(** Clock readings one second apart, starting at 2024-01-01T00:00:00Z, and
    distinct UUIDs; the renderings keep the digits of the counter. *)
Definition digits2 (n : nat) : string :=
  (if Nat.ltb n 10 then "0" else "") +:+ pretty n.

Definition reading (n : nat) : Time :=
  mkTime ("2024-01-01T00:00:" +:+ digits2 n +:+ "Z")
         ("2024-01-01T00:00:" +:+ digits2 n +:+ ".000000001Z")
         ("20240101-0000" +:+ digits2 n).

Definition uuid (n : nat) : string :=
  "00000000-0000-4000-8000-0000000000" +:+ digits2 n.

(** A freshly started service: no file yet but the common ledger that
    [NewLedgerStorage] creates, an empty tracker, and the given store. *)
Definition fresh {Store} (s : Store) : World Store :=
  mkWorld reading 0 uuid 0 None ∅
          (Some (mkCommonLedger [] [] "2023-12-31T23:59:59Z")) ∅ ∅ ∅ ∅ None s [].

Definition t0 : Time := reading 0.
Definition t1 : Time := reading 1.

Definition drug : Data := [("drug_id", JStr "D1")].

Definition world0 : World MemStore.Tables := fresh ∅.


(** A manufacturer ledger and a common ledger holding drug D1 and shipment S1. *)
Definition ml1 : ManufacturerLedger :=
  mkManufacturerLedger "M1"
    [mkDrugRecord "D1" "created" "2023-12-31T10:00:00Z" "" "created"
                  [mkStatus "created" "2023-12-31T10:00:00Z" "Drug created"]]
    [mkShipmentRecord "S1" "D1" "created" "2023-12-31T11:00:00Z" "created"
                      [mkStatus "created" "2023-12-31T11:00:00Z" "Shipment created"]]
    "2023-12-31T11:00:00Z".

Definition cl1 : CommonLedger :=
  mkCommonLedger
    [mkCommonDrugRecord "D1" "M1" "created" "2023-12-31T10:00:00Z" "created"
                        [mkStatus "created" "2023-12-31T10:00:00Z" "Drug created"] "cafe"]
    [mkCommonShipmentRecord "S1" "D1" "M1" "Z1" "created" "2023-12-31T11:00:00Z" "created"
                            [mkStatus "created" "2023-12-31T11:00:00Z" "Shipment created"]]
    "2023-12-31T11:00:00Z".



(** The two ledgers next to an empty store. *)
Definition stale_world : World MemStore.Tables :=
  mkWorld reading 0 uuid 0 None {["M1" := ml1]} (Some cl1) ∅ ∅ ∅ ∅ None ∅ [].



Definition delivered : UpdateShipmentStatusParams :=
  mkUpdateShipmentStatusParams "S1" "delivered" "U1" "Lyon".


(** A handler with a secret, one without, and a parser that yields an INSERT
    of a drug row for every body. *)
Definition guarded : WebhookHandler.WebhookHandler := WebhookHandler.mkWebhookHandler "s3cret" 3.
Definition open : WebhookHandler.WebhookHandler := WebhookHandler.mkWebhookHandler "" 3.

Definition insert_parser (body : string) : Res WebhookHandler.WebhookPayload :=
  Ok (WebhookHandler.mkWebhookPayload "INSERT" "drugs" drug [] "public" "2024-01-01T00:00:00Z").

(** A drug as an external writer inserts it, without a chain-transaction id
    and with one, and the webhook payloads that announce it. *)
Definition new_drug : Data :=
  [ ("drug_id", JStr "D1"); ("manufacturer", JStr "M1"); ("name", JStr "Aspirin");
    ("batch_number", JStr "B1"); ("manufacture_date", JStr "2023-12-01");
    ("expiry_date", JStr "2025-12-01") ].

Definition recorded_drug : Data := new_drug ++ [("blockchain_tx_id", JStr "ab12")].

Definition insert_of (record : Data) (body : string) : Res WebhookHandler.WebhookPayload :=
  Ok (WebhookHandler.mkWebhookPayload "INSERT" "drugs" record [] "public"
                                      "2024-01-01T00:00:00Z").

Definition request : WebhookHandler.Ctx := WebhookHandler.mkCtx "" "{}".

(** A store in which drug D1 waits for its transaction, drug D2 has one, and
    shipment S1 waits for its transaction. *)
Definition waiting_drug : Data :=
  [ ("drug_id", JStr "D1"); ("name", JStr "Aspirin"); ("blockchain_tx_id", JStr "pending") ].

Definition settled_drug : Data :=
  [ ("drug_id", JStr "D2"); ("name", JStr "Ibuprofen"); ("blockchain_tx_id", JStr "ab12") ].

Definition waiting_shipment : Data :=
  [ ("shipment_id", JStr "S1"); ("blockchain_tx_id", JStr "pending") ].

Definition sync_world : World MemStore.Tables :=
  fresh {[ "drugs" := [waiting_drug; settled_drug]; "shipments" := [waiting_shipment] ]}.

End Example.

(** ** The statements of the specification, in its words *)

Module Spec.

Section Keyed.
(** A ledger [L] holding a sequence of records [R] with an id and a history. *)
Context {L R F : Type}.
Context (records : L → list R) (key : R → string) (history : R → list Status).
Context (last_updated : L → string) (rest : L → F).

(** "addDrug / addShipment fail with a Conflict error if the ID already
    exists"; otherwise the record is added with exactly one [Status] entry and
    [last_updated] is refreshed. *)
Definition add_ok (id status : string) (entered refreshed : Time) (conflict : string)
    (l : L) (out : L * option string) : Prop :=
  (id ∈ map key (records l) → out = (l, Some conflict)) ∧
  (id ∉ map key (records l) →
     out.2 = None ∧
     last_updated out.1 = rfc3339 refreshed ∧
     rest out.1 = rest l ∧
     ∃ r, records out.1 = records l ++ [r] ∧ key r = id ∧
          history r = [mkStatus status (rfc3339 entered) ""]).

(** "updateDrugStatus / updateShipmentStatus fail with a NotFound-style error
    if the target ID is absent"; otherwise exactly one [Status] entry is
    appended to the history of the target, the first record of that id, and
    [last_updated] is refreshed. *)
Definition update_ok (id newStatus details : string) (entered refreshed : Time)
    (notfound : string) (l : L) (out : L * option string) : Prop :=
  (id ∉ map key (records l) → out = (l, Some notfound)) ∧
  (id ∈ map key (records l) →
     out.2 = None ∧
     last_updated out.1 = rfc3339 refreshed ∧
     rest out.1 = rest l ∧
     ∃ i r r',
       records l !! i = Some r ∧ key r = id ∧
       (∀ j r0, j < i → records l !! j = Some r0 → key r0 ≠ id) ∧
       records out.1 = <[i := r']> (records l) ∧ key r' = id ∧
       history r' = history r ++ [mkStatus newStatus (rfc3339 entered) details]).

End Keyed.

End Spec.

(** ** The hash chain as it is on disk *)

Definition chain {Store} (w : World Store) : list Block :=
  match BlockchainFile w with
  | Some ledger => bl_Blocks ledger
  | None => []
  end.

Definition chain_height {Store} (w : World Store) : Z :=
  match BlockchainFile w with
  | Some ledger => bl_BlockHeight ledger
  | None => 0
  end.


(** The request by which [RunConsistencyCheck] probes the database:
    [Select("drugs", "count", map[string]interface{}{"limit": 1})]. *)
Definition probe : Request :=
  mkRequest "drugs" (VSelect "count") (Client.where_filters [("limit", JNum 1)]).

(** ** Histories that only grow *)

(** Record [i] of [l] is still record [i] of [l'], under the same id, and its
    history then begins with the history it had: no entry was removed or
    changed, entries were at most appended. *)
Definition history_extends {R} (key : R → string) (history : R → list Status)
    (l l' : list R) : Prop :=
  ∀ i r, l !! i = Some r →
    ∃ r', l' !! i = Some r' ∧ key r' = key r ∧ history r `prefix_of` history r'.

Definition ml_extends (ml ml' : ManufacturerLedger) : Prop :=
  history_extends d_DrugID d_History (ml_Drugs ml) (ml_Drugs ml') ∧
  history_extends sh_ShipmentID sh_History (ml_Shipments ml) (ml_Shipments ml').

Definition cl_extends (cl cl' : CommonLedger) : Prop :=
  history_extends cd_DrugID cd_History (cl_Drugs cl) (cl_Drugs cl') ∧
  history_extends cs_ShipmentID cs_History (cl_Shipments cl) (cl_Shipments cl').

(** Each manufacturer ledger file holds the ledger of the manufacturer it is
    named after, as [SaveManufacturerLedger] writes them. *)
Definition named {Store} (w : World Store) : Prop :=
  ∀ m ml, ManufacturerLedgerFiles w !! m = Some ml → ml_ManufacturerID ml = m.

(** Every ledger file of [w] is still there in [w'], with histories that
    extend the ones it had. *)
Definition manufacturers_grow {Store} (w w' : World Store) : Prop :=
  ∀ m ml, ManufacturerLedgerFiles w !! m = Some ml →
    ∃ ml', ManufacturerLedgerFiles w' !! m = Some ml' ∧ ml_extends ml ml'.

Definition common_grows {Store} (w w' : World Store) : Prop :=
  ∀ cl, CommonLedgerFile w = Some cl →
    ∃ cl', CommonLedgerFile w' = Some cl' ∧ cl_extends cl cl'.

Definition ledgers_grow {Store} (w w' : World Store) : Prop :=
  manufacturers_grow w w' ∧ common_grows w w'.

(** A computation under which the histories of both kinds of ledger only
    grow, whatever it returns; one that leaves the ledger files alone; and
    one under which the histories of the manufacturer ledgers only grow. *)
Definition grows {Store A} (c : M Store A) : Prop :=
  ∀ w, named w → named (c w).2 ∧ ledgers_grow w (c w).2.

Definition quiet {Store A} (c : M Store A) : Prop :=
  ∀ w, ManufacturerLedgerFiles (c w).2 = ManufacturerLedgerFiles w ∧
       CommonLedgerFile (c w).2 = CommonLedgerFile w.

Definition grows_manufacturers {Store A} (c : M Store A) : Prop :=
  ∀ w, named w → named (c w).2 ∧ manufacturers_grow w (c w).2.

(** The same for the rest of a call that has read the ledger [ml] of
    manufacturer [m], or the common ledger [cl], and has not written it
    yet. *)
Definition grows_from_manufacturer {Store A} (m : string) (ml : ManufacturerLedger)
    (c : M Store A) : Prop :=
  ∀ w, named w → ManufacturerLedgerFiles w !! m = Some ml →
    named (c w).2 ∧ ledgers_grow w (c w).2.

Definition grows_from_common {Store A} (cl : CommonLedger) (c : M Store A) : Prop :=
  ∀ w, named w → CommonLedgerFile w = Some cl →
    named (c w).2 ∧ ledgers_grow w (c w).2.

(** ** The operations of the ledger and reconciliation subsystem

    The calls of the two ledger managers, an append to the chain, the
    consistency check, a cycle of the sync service and a webhook request. *)
Inductive Op : Type :=
| ManagerCreateDrug (params : CreateDrugParams)
| ManagerCreateShipment (params : CreateShipmentParams)
| ManagerUpdateShipmentStatus (params : UpdateShipmentStatusParams)
| ManagerRevertDrug (params : RevertDrugParams)
| ManagerVerifyDrug (drugID : string)
| LedgerCreateDrug (params : CreateDrugParams)
| LedgerCreateShipment (params : CreateShipmentParams)
| LedgerUpdateDrugStatus (manufacturerID drugID status details : string)
| LedgerUpdateShipmentStatus (manufacturerID shipmentID status details : string)
| LedgerRevertDrug (params : RevertDrugParams)
| LedgerVerifyDrug (drugID : string)
| LedgerSync (manufacturerID : string)
| LedgerSyncAll
| Append (txData : Data) (txHash : string)
| ConsistencyCheck
| SyncCycle
| Webhook (wh : WebhookHandler.WebhookHandler) (c : WebhookHandler.Ctx).

(** The operations that copy the manufacturer ledgers over the common
    ledger. *)
Definition reconciles (op : Op) : bool :=
  match op with
  | LedgerSync _ | LedgerSyncAll => true
  | _ => false
  end.

Definition after {Store A} (c : M Store A) (w : World Store) : World Store := (c w).2.

Definition run_op {Store} `{!Backend Store} (BodyParser : string → Res WebhookHandler.WebhookPayload)
    (op : Op) : World Store → World Store :=
  match op with
  | ManagerCreateDrug params => after (LedgerManager.CreateDrug params)
  | ManagerCreateShipment params => after (LedgerManager.CreateShipment params)
  | ManagerUpdateShipmentStatus params => after (LedgerManager.UpdateShipmentStatus params)
  | ManagerRevertDrug params => after (LedgerManager.RevertDrug params)
  | ManagerVerifyDrug drugID => after (LedgerManager.VerifyDrug drugID)
  | LedgerCreateDrug params => after (BlockchainLedgerManager.CreateDrug params)
  | LedgerCreateShipment params => after (BlockchainLedgerManager.CreateShipment params)
  | LedgerUpdateDrugStatus m d s details =>
      after (BlockchainLedgerManager.UpdateDrugStatus m d s details)
  | LedgerUpdateShipmentStatus m s st details =>
      after (BlockchainLedgerManager.UpdateShipmentStatus m s st details)
  | LedgerRevertDrug params => after (BlockchainLedgerManager.RevertDrug params)
  | LedgerVerifyDrug drugID => after (BlockchainLedgerManager.VerifyDrug drugID)
  | LedgerSync m => after (BlockchainLedgerManager.SyncManufacturerLedger m)
  | LedgerSyncAll => after BlockchainLedgerManager.SyncAllLedgers
  | Append txData txHash => after (DataStorage.AddTransactionToBlockchain txData txHash)
  | ConsistencyCheck => after DataStorage.RunConsistencyCheck
  | SyncCycle => after SyncService.performSync
  | Webhook wh c => after (WebhookHandler.submit BodyParser wh c)
  end.

Definition run_ops {Store} `{!Backend Store}
    (BodyParser : string → Res WebhookHandler.WebhookPayload)
    (ops : list Op) (w : World Store) : World Store :=
  fold_left (λ w op, run_op BodyParser op w) ops w.

(** [ledger.Blocks[len(ledger.Blocks)-1].TxHash], or the empty string. *)
Definition last_hash (blocks : list Block) : string :=
  match last blocks with
  | Some b => b_TxHash b
  | None => ""
  end.

(** The requests that [AddTransactionToBlockchain] sends for a transaction:
    on the table [blockchain_ledger], and the write-back of the hash to the
    row of the drug, or else of the shipment, that the data names. *)
Definition write_back (txData : Data) (txHash : string) (rq : Request) : Prop :=
  rq_table rq = "blockchain_ledger" ∨
  (∃ drugID, Json.get_string "drug_id" txData = Some drugID ∧
     rq = mkRequest "drugs" (VUpdate [("blockchain_tx_id", JStr txHash)])
                    [("drug_id", "eq", drugID)]) ∨
  (∃ shipmentID, Json.get_string "drug_id" txData = None ∧
     Json.get_string "shipment_id" txData = Some shipmentID ∧
     rq = mkRequest "shipments" (VUpdate [("blockchain_tx_id", JStr txHash)])
                    [("shipment_id", "eq", shipmentID)]).

(** What a call [AddTransactionToBlockchain txData txHash] does to the world,
    whatever the store answers. *)
Record added {Store} (txData : Data) (txHash : string)
    (w : World Store) (r : Res unit) (w' : World Store) : Prop := mkAdded {
  added_result : r = Ok tt;
  added_clock : clock w' = clock w;
  added_ticks : (ticks w ≤ ticks w')%nat;
  added_uuids : uuids w' = uuids w;
  added_drawn : drawn w' = drawn w;
  added_chain : ∃ ts ts',
    BlockchainFile w' =
      Some (mkBlockchainLedger
              (chain w ++ [mkBlock (int_add (chain_height w) 1) txHash (JObj txData) ts
                                   (last_hash (chain w))])
              ts' (int_add (chain_height w) 1));
  added_ledgers :
    Json.get_string "drug_id" txData = None ∨ Json.get_string "manufacturer" txData = None →
    ManufacturerLedgerFiles w' = ManufacturerLedgerFiles w ∧
    CommonLedgerFile w' = CommonLedgerFile w;
  added_grow : named w → named w' ∧ ledgers_grow w w';
  added_tracker : TxHashFile w' = TxHashFile w ∧ ProcessedTxs w' = ProcessedTxs w;
  added_sync : SyncStatusMap w' = SyncStatusMap w ∧ LastSyncTime w' = LastSyncTime w;
  added_trace : ∃ new, trace w' = new ++ trace w ∧
                       Forall (λ e, write_back txData txHash e.1) new
}.


(** The requests sent, and their answers, between the world [w] and the
    later world [w'], most recent first. *)
Definition requests_since {Store} (w w' : World Store) : list (Request * Answer) :=
  take (length (trace w') - length (trace w)) (trace w').

(** ** Requests of the ledger manager *)



(** The block of the chain that carries a transaction hash. *)
Definition on_chain {Store} (txID : string) (w : World Store) : option Block :=
  find_first (fun block => String.eqb (b_TxHash block) txID) (chain w).

(** ** The ledger manager, in the words of the specification *)










(** The records of a manufacturer ledger file, none when there is no file. *)
Definition drugs_of {Store} (m : string) (w : World Store) : list DrugRecord :=
  from_option ml_Drugs [] (ManufacturerLedgerFiles w !! m).

Definition shipments_of {Store} (m : string) (w : World Store) : list ShipmentRecord :=
  from_option ml_Shipments [] (ManufacturerLedgerFiles w !! m).

(** The [tx_type] that [CreateTransaction] wrote in the data of a block. *)
Definition tx_type (b : Block) : string :=
  match b_TxData b with
  | JObj data => default "" (Json.get_string "tx_type" data)
  | _ => ""
  end.

Definition tx_field (k : string) (b : Block) : option string :=
  match b_TxData b with
  | JObj data => Json.get_string k data
  | _ => None
  end.






(** ** A cycle of the sync service, in the words of the specification *)

(** "whose recorded chain-transaction id is empty or the sentinel pending";
    a row without the column, or with a value that is not a string, has no
    recorded id. *)
Definition unrecorded (record : Data) : bool :=
  match Json.get_string "blockchain_tx_id" record with
  | None => true
  | Some txID => String.eqb txID "" || String.eqb txID "pending"
  end.

(** A row as the store returns it: a JSON object, so no key twice. *)
Definition is_row (record : Data) : Prop := NoDup (map fst record).

(** The request for the rows of a table. *)
Definition select_all (table : string) : Request := mkRequest table (VSelect "*") [].

(** The request that writes the hash of a transaction back to the row of a
    drug. *)
Definition hash_written (drugID txHash : string) (e : Request * Answer) : Prop :=
  e.1 = mkRequest "drugs" (VUpdate [("blockchain_tx_id", JStr txHash)])
                  [("drug_id", "eq", drugID)].

(** "create a chain transaction for it and write the resulting hash back to
    the store": the block [b] carries the columns of the row [record], marked
    as a transaction of type [drug], and a request among [new] writes the hash
    of [b] to the row of the drug. *)
Definition pulled (new : list (Request * Answer)) (record : Data) (b : Block) : Prop :=
  ∃ ts drugID,
    b_TxData b =
      JObj (Json.set "tx_hash" (JStr (b_TxHash b))
              (Json.set "timestamp" (JStr ts)
                 (Json.set "tx_type" (JStr "drug") (Json.copy record)))) ∧
    Json.get_string "drug_id" record = Some drugID ∧
    Exists (hash_written drugID (b_TxHash b)) new.

(** The requests of a cycle: for the rows of a table, on the table of the
    chain, or the write-back of a hash to a row that had no recorded id. *)
Definition cycle_request (pending : list Data) (e : Request * Answer) : Prop :=
  (∃ table, e.1 = select_all table) ∨
  rq_table e.1 = "blockchain_ledger" ∨
  ∃ record drugID txHash,
    record ∈ pending ∧ Json.get_string "drug_id" record = Some drugID ∧
    hash_written drugID txHash e.

(** ** Webhook requests, in the words of the specification *)

(** The column that holds "the record's primary key per table". *)
Definition webhook_key (table : string) : option string :=
  if String.eqb table "drugs" then Some "drug_id"
  else if String.eqb table "shipments" then Some "shipment_id"
  else None.

(** The handler lets the request through: it has no secret, or the header
    carries it. *)
Definition accepted (wh : WebhookHandler.WebhookHandler) (c : WebhookHandler.Ctx) : Prop :=
  WebhookHandler.Secret wh = "" ∨
  (WebhookHandler.Signature c ≠ "" ∧ WebhookHandler.Signature c = WebhookHandler.Secret wh).

(** The file that [processRecord] writes for a record, at the clock reading
    [now]. *)
Definition snapshot_path (table recordID : string) (now : Time) : string :=
  DataStorage.DataDir +:+ "/" +:+ (table +:+ "_" +:+ recordID +:+ "_" +:+ stamp now +:+ ".json").
(** ** Further properties: definitions *)

(** Every block of a chain but the first is one higher than its predecessor
    and refers to its hash: what [checkConsistency] tests. *)
Definition linked (blocks : list Block) : Prop :=
  ∀ i p b, blocks !! i = Some p → blocks !! S i = Some b →
    b_BlockHeight b = int_add (b_BlockHeight p) 1 ∧ b_PreviousBlockHash b = b_TxHash p.

(** [_, ok := drugData[field]; ok] *)
Definition present (drugData : Data) (field : string) : Prop :=
  is_Some (Json.get field drugData).

(** ** The reconciliation of the package-blockchain ledger manager *)

(** The records that [SyncManufacturerLedger] writes to the common ledger for
    a drug and a shipment of the manufacturer: the composite literals of the
    source, which name no verification hash and no distributor. *)
Definition reconciled_drug (manufacturerID : string) (drug : DrugRecord) : CommonDrugRecord :=
  mkCommonDrugRecord (d_DrugID drug) manufacturerID (d_Status drug) (d_CreatedAt drug)
                     (d_CurrentStatus drug) (d_History drug) "".

Definition reconciled_shipment (manufacturerID : string) (shipment : ShipmentRecord)
  : CommonShipmentRecord :=
  mkCommonShipmentRecord (sh_ShipmentID shipment) (sh_DrugID shipment) manufacturerID ""
                         (sh_Status shipment) (sh_CreatedAt shipment)
                         (sh_CurrentStatus shipment) (sh_History shipment).

(** The last record of an id in a sequence of records. *)
Definition last_of {A} (key : A → string) (id : string) (l : list A) : option A :=
  find_first (λ x, String.eqb (key x) id) (rev l).

(** ** Records that reach the webhook handler *)

(** The id under which the handler files a record: the string in the key
    column of its table. *)
Definition record_id (table : string) (record : Data) : option string :=
  match webhook_key table with
  | Some key => Json.get_string key record
  | None => None
  end.

(** The file that [processDelete] writes for a record, at the clock reading
    [now]. *)
Definition deletion_path (table recordID : string) (now : Time) : string :=
  DataStorage.DataDir +:+ "/"
    +:+ (table +:+ "_" +:+ recordID +:+ "_" +:+ stamp now +:+ "_deleted.json").

(** ** The record files of the chain *)

(** The file that [AddTransactionToBlockchain] writes for the drug or the
    shipment of a transaction. *)
Definition record_file (kind id : string) : string :=
  DataStorage.DataDir +:+ "/" +:+ (kind +:+ "_" +:+ id +:+ ".json").

(** The request that writes the hash of a transaction back to a row. *)
Definition hash_update (table column id txHash : string) : Request :=
  mkRequest table (VUpdate [("blockchain_tx_id", JStr txHash)]) [(column, "eq", id)].

(** ** The logs of the sync service *)

(** The file that [logSyncStatus] writes for a table, at the clock reading
    [now]. *)
Definition sync_log_path (table : string) (now : Time) : string :=
  SyncService.SyncLogDir +:+ "/" +:+ (table +:+ "-sync-" +:+ stamp now +:+ ".json").

(** ** A new shipment, in the words of the ledger manager *)

(** The first record of the drug takes the status "in_transit" and one
    history entry that names the shipment. *)
Definition drug_in_transit (shipmentID drugID ts : string)
    (l : list DrugRecord) : list DrugRecord :=
  update_first (LedgerManager.is_drug drugID)
    (λ d, d_append (mkStatus "in_transit" ts ("Drug added to shipment " +:+ shipmentID))
            (d_set_status "in_transit" "in_transit" d)) l.

Definition common_drug_in_transit (shipmentID drugID ts : string)
    (l : list CommonDrugRecord) : list CommonDrugRecord :=
  update_first (LedgerManager.is_common_drug drugID)
    (λ d, cd_append (mkStatus "in_transit" ts ("Drug added to shipment " +:+ shipmentID))
            (cd_set_status "in_transit" "in_transit" d)) l.

(** The request that inserts the row of a shipment, answered by the store. *)
Definition shipment_inserted (sh : Shipment) (e : Request * Answer) : Prop :=
  e.1 = mkRequest "shipments" (VInsert (JObj (shipment_row sh))) [] ∧ answered e.2 = true.

(** * Properties *)

#[global] Arguments Sha256.hex_sum : simpl never.
#[global] Arguments Json.Marshal : simpl never.
#[global] Arguments Blockchain.GenerateTransactionHash : simpl never.
#[global] Arguments Blockchain.CalculateHash : simpl never.

(** ** Loops over records *)

Section Loops.
Context {A : Type} (p : A → bool) (f : A → A).

Lemma update_first_length l : length (update_first p f l) = length l.
Proof. induction l as [|x l IH]; simpl; [done|]. destruct (p x); simpl; congruence. Qed.


(** The loop changes the first record that passes the test, by [f], and no
    other. *)
Lemma update_first_present l :
  existsb p l = true →
  ∃ i x, l !! i = Some x ∧ p x = true ∧
         (∀ j y, j < i → l !! j = Some y → p y = false) ∧
         update_first p f l = <[i := f x]> l.
Proof.
  induction l as [|x l IH]; simpl; [done|].
  destruct (p x) eqn:Hp; simpl.
  - intros _. exists 0, x. split_and!; [done|done| |done]. intros j y Hj. lia.
  - intros H. destruct (IH H) as (i & y & Hi & Hy & Hfirst & Heq).
    exists (S i), y. split_and!; [done|done| |by rewrite Heq].
    intros [|j] z Hj Hz; simpl in Hz; [congruence|]. apply (Hfirst j); [lia|done].
Qed.

Lemma update_first_lookup l i x :
  l !! i = Some x → ∃ y, update_first p f l !! i = Some y ∧ (y = x ∨ y = f x).
Proof.
  revert i. induction l as [|z l IH]; intros [|i] H; simplify_eq/=.
  - destruct (p x); simpl; eauto.
  - destruct (p z); simpl; eauto.
Qed.

Lemma find_first_existsb l : is_Some (find_first p l) ↔ existsb p l = true.
Proof.
  induction l as [|x l IH]; simpl.
  - split; [by intros [? ?]|done].
  - destruct (p x); simpl; [split; eauto|done].
Qed.

Lemma find_first_Some l x : find_first p l = Some x → x ∈ l ∧ p x = true.
Proof.
  induction l as [|z l IH]; simpl; [done|].
  destruct (p z) eqn:Hp.
  - intros [= ->]. split; [left|done].
  - intros H. destruct (IH H). split; [by right|done].
Qed.

End Loops.

Lemma existsb_key {A} (key : A → string) (id : string) (l : list A) :
  existsb (fun x => String.eqb (key x) id) l = true ↔ id ∈ map key l.
Proof.
  induction l as [|x l IH]; simpl.
  - split; [done|]. intros H. by apply elem_of_nil in H.
  - rewrite orb_true_iff, IH, elem_of_cons, String.eqb_eq.
    split; (intros [H|H]; [left|right]); congruence.
Qed.

Lemma existsb_key_false {A} (key : A → string) (id : string) (l : list A) :
  existsb (fun x => String.eqb (key x) id) l = false ↔ id ∉ map key l.
Proof. rewrite <- existsb_key. destruct (existsb _ l); naive_solver. Qed.

(** ** The hash of a transaction *)

(** What [ValidateTransaction] compares the hash with: the digest of the clock
    reading of the validation, the encoded data, and the [previous_hash] found
    in the data. *)
Lemma ValidateTransaction_spec now txHash txData :
  Blockchain.ValidateTransaction now txHash txData = true ↔
  txHash = Sha256.hex_sum (rfc3339 now +:+ Json.Marshal (JObj txData) +:+
                           default "" (Json.get_string "previous_hash" txData)).
Proof.
  unfold Blockchain.ValidateTransaction.
  destruct (Json.get_string "previous_hash" txData) as [prev|];
    rewrite String.eqb_eq; unfold Blockchain.SetPreviousHash, Blockchain.NewTransaction,
      Blockchain.CalculateHash; simpl; split; congruence.
Qed.

(** C2, at the failing input: the transaction created from [{"drug_id":"D1"}]
    at 2024-01-01T00:00:00Z has for hash the SHA-256 of its creation
    timestamp, its encoded data and its (empty) previous hash; validating that
    hash against the same data succeeds within the second of the creation and
    fails one second later, and it fails at any time once the transaction was
    re-linked to a previous hash that the data does not carry. *)
Theorem C2_validation_depends_on_its_own_clock :
  let tx := Blockchain.NewTransaction Example.t0 Example.drug in
  let tx' := Blockchain.SetPreviousHash "00ff" tx in
  Blockchain.Timestamp tx = rfc3339 Example.t0 ∧
  Blockchain.PreviousHash tx = "" ∧
  Blockchain.Hash tx =
    Sha256.hex_sum (Blockchain.Timestamp tx +:+ Json.Marshal (JObj Example.drug) +:+
                    Blockchain.PreviousHash tx) ∧
  Blockchain.ValidateTransaction Example.t0 (Blockchain.Hash tx) Example.drug = true ∧
  Blockchain.ValidateTransaction Example.t1 (Blockchain.Hash tx) Example.drug = false ∧
  Blockchain.Hash tx' =
    Sha256.hex_sum (Blockchain.Timestamp tx' +:+ Json.Marshal (JObj Example.drug) +:+
                    Blockchain.PreviousHash tx') ∧
  Blockchain.ValidateTransaction Example.t0 (Blockchain.Hash tx') Example.drug = false.
Proof. vm_compute. by repeat split. Qed.

(** ** The methods of the two ledger types *)

Section LedgerMethods.

Lemma appended_history {R} (history : R → list Status) (r r' : R) (s : Status) :
  history r' = history r ++ [s] → length (history r') = S (length (history r)).
Proof. intros ->. rewrite length_app. simpl. lia. Qed.

(** Shared steps: an add either finds the id or appends one record; an
    update either misses the id or rewrites the first record of that id. *)
Ltac add_case :=
  unfold Spec.add_ok; split; intros Hid;
  [ apply existsb_key in Hid; rewrite Hid; reflexivity
  | apply existsb_key_false in Hid; rewrite Hid; simpl;
    split_and!; [reflexivity|reflexivity|reflexivity|];
    eexists; split_and!; reflexivity ].

Ltac first_match Hid :=
  match goal with
  | |- context [update_first ?p ?f ?l] =>
      let i := fresh "i" in
      let x := fresh "x" in
      let Hi := fresh "Hi" in
      let Hx := fresh "Hx" in
      let Hfirst := fresh "Hfirst" in
      destruct (update_first_present p f l Hid) as (i & x & Hi & Hx & Hfirst & ->);
      apply String.eqb_eq in Hx;
      eexists i, x, _; split_and!; [exact Hi|exact Hx| |reflexivity|exact Hx|reflexivity];
      let j := fresh "j" in
      let y := fresh "y" in
      let Hj := fresh "Hj" in
      let Hy := fresh "Hy" in
      let Hk := fresh "Hk" in
      intros j y Hj Hy Hk; specialize (Hfirst j y Hj Hy); simpl in Hfirst;
      apply String.eqb_neq in Hfirst; exact (Hfirst Hk)
  end.

Ltac update_case :=
  unfold Spec.update_ok; split; intros Hid;
  [ apply existsb_key_false in Hid; rewrite Hid; reflexivity
  | apply existsb_key in Hid; rewrite Hid; simpl;
    split_and!; [reflexivity|reflexivity|reflexivity|]; first_match Hid ].

Lemma ManufacturerLedger_AddDrugRecord_ok now1 now2 now3 id status ml :
  Spec.add_ok ml_Drugs d_DrugID d_History ml_LastUpdated
    (λ l, (ml_ManufacturerID l, ml_Shipments l)) id status now2 now3
    ("drug " +:+ id +:+ " already exists in ledger") ml
    (ManufacturerLedger.AddDrugRecord now1 now2 now3 id status ml).
Proof. unfold ManufacturerLedger.AddDrugRecord. add_case. Qed.

Lemma ManufacturerLedger_AddShipmentRecord_ok now1 now2 now3 id drugID status ml :
  Spec.add_ok ml_Shipments sh_ShipmentID sh_History ml_LastUpdated
    (λ l, (ml_ManufacturerID l, ml_Drugs l)) id status now2 now3
    ("shipment " +:+ id +:+ " already exists in ledger") ml
    (ManufacturerLedger.AddShipmentRecord now1 now2 now3 id drugID status ml).
Proof. unfold ManufacturerLedger.AddShipmentRecord. add_case. Qed.

Lemma CommonLedger_AddDrugRecord_ok now1 now2 now3 id manufacturerID status hash cl :
  Spec.add_ok cl_Drugs cd_DrugID cd_History cl_LastUpdated cl_Shipments
    id status now2 now3
    ("drug " +:+ id +:+ " already exists in common ledger") cl
    (CommonLedger.AddDrugRecord now1 now2 now3 id manufacturerID status hash cl).
Proof. unfold CommonLedger.AddDrugRecord. add_case. Qed.

Lemma CommonLedger_AddShipmentRecord_ok now1 now2 now3 id drugID manufacturerID
    distributorID status cl :
  Spec.add_ok cl_Shipments cs_ShipmentID cs_History cl_LastUpdated cl_Drugs
    id status now2 now3
    ("shipment " +:+ id +:+ " already exists in common ledger") cl
    (CommonLedger.AddShipmentRecord now1 now2 now3 id drugID manufacturerID
       distributorID status cl).
Proof. unfold CommonLedger.AddShipmentRecord. add_case. Qed.

Lemma ManufacturerLedger_UpdateDrugStatus_ok now1 now2 id newStatus details ml :
  Spec.update_ok ml_Drugs d_DrugID d_History ml_LastUpdated
    (λ l, (ml_ManufacturerID l, ml_Shipments l)) id newStatus details now1 now2
    ("drug " +:+ id +:+ " not found in ledger") ml
    (ManufacturerLedger.UpdateDrugStatus now1 now2 id newStatus details ml).
Proof. unfold ManufacturerLedger.UpdateDrugStatus. update_case. Qed.

Lemma ManufacturerLedger_UpdateShipmentStatus_ok now1 now2 id newStatus details ml :
  Spec.update_ok ml_Shipments sh_ShipmentID sh_History ml_LastUpdated
    (λ l, (ml_ManufacturerID l, ml_Drugs l)) id newStatus details now1 now2
    ("shipment " +:+ id +:+ " not found in ledger") ml
    (ManufacturerLedger.UpdateShipmentStatus now1 now2 id newStatus details ml).
Proof. unfold ManufacturerLedger.UpdateShipmentStatus. update_case. Qed.

Lemma CommonLedger_UpdateDrugStatus_ok now1 now2 id newStatus details cl :
  Spec.update_ok cl_Drugs cd_DrugID cd_History cl_LastUpdated cl_Shipments
    id newStatus details now1 now2
    ("drug " +:+ id +:+ " not found in common ledger") cl
    (CommonLedger.UpdateDrugStatus now1 now2 id newStatus details cl).
Proof. unfold CommonLedger.UpdateDrugStatus. update_case. Qed.

Lemma CommonLedger_UpdateShipmentStatus_ok now1 now2 id newStatus details cl :
  Spec.update_ok cl_Shipments cs_ShipmentID cs_History cl_LastUpdated cl_Drugs
    id newStatus details now1 now2
    ("shipment " +:+ id +:+ " not found in common ledger") cl
    (CommonLedger.UpdateShipmentStatus now1 now2 id newStatus details cl).
Proof. unfold CommonLedger.UpdateShipmentStatus. update_case. Qed.

End LedgerMethods.

(** C7: on every manufacturer ledger [ml] and common ledger [cl], at any clock
    readings, [AddDrugRecord] and [AddShipmentRecord] return the "already
    exists" error and leave the ledger as it was when the id is present, and
    otherwise append one record whose history is exactly one [Status] entry;
    [UpdateDrugStatus] and [UpdateShipmentStatus] return the "not found" error
    and leave the ledger as it was when the id is absent, and otherwise append
    exactly one [Status] entry to the history of the first record of that id;
    every successful call sets [last_updated] to the reading of its last
    [time.Now()] and touches nothing else of the ledger. *)
Theorem C7_ledger_methods
    (ml : Models.ManufacturerLedger) (cl : Models.CommonLedger)
    (now1 now2 now3 : Time)
    (id drugID manufacturerID distributorID status details hash : string) :
  Spec.add_ok ml_Drugs d_DrugID d_History ml_LastUpdated
    (λ l, (ml_ManufacturerID l, ml_Shipments l)) id status now2 now3
    ("drug " +:+ id +:+ " already exists in ledger") ml
    (ManufacturerLedger.AddDrugRecord now1 now2 now3 id status ml) ∧
  Spec.add_ok ml_Shipments sh_ShipmentID sh_History ml_LastUpdated
    (λ l, (ml_ManufacturerID l, ml_Drugs l)) id status now2 now3
    ("shipment " +:+ id +:+ " already exists in ledger") ml
    (ManufacturerLedger.AddShipmentRecord now1 now2 now3 id drugID status ml) ∧
  Spec.update_ok ml_Drugs d_DrugID d_History ml_LastUpdated
    (λ l, (ml_ManufacturerID l, ml_Shipments l)) id status details now1 now2
    ("drug " +:+ id +:+ " not found in ledger") ml
    (ManufacturerLedger.UpdateDrugStatus now1 now2 id status details ml) ∧
  Spec.update_ok ml_Shipments sh_ShipmentID sh_History ml_LastUpdated
    (λ l, (ml_ManufacturerID l, ml_Drugs l)) id status details now1 now2
    ("shipment " +:+ id +:+ " not found in ledger") ml
    (ManufacturerLedger.UpdateShipmentStatus now1 now2 id status details ml) ∧
  Spec.add_ok cl_Drugs cd_DrugID cd_History cl_LastUpdated cl_Shipments
    id status now2 now3
    ("drug " +:+ id +:+ " already exists in common ledger") cl
    (CommonLedger.AddDrugRecord now1 now2 now3 id manufacturerID status hash cl) ∧
  Spec.add_ok cl_Shipments cs_ShipmentID cs_History cl_LastUpdated cl_Drugs
    id status now2 now3
    ("shipment " +:+ id +:+ " already exists in common ledger") cl
    (CommonLedger.AddShipmentRecord now1 now2 now3 id drugID manufacturerID
       distributorID status cl) ∧
  Spec.update_ok cl_Drugs cd_DrugID cd_History cl_LastUpdated cl_Shipments
    id status details now1 now2
    ("drug " +:+ id +:+ " not found in common ledger") cl
    (CommonLedger.UpdateDrugStatus now1 now2 id status details cl) ∧
  Spec.update_ok cl_Shipments cs_ShipmentID cs_History cl_LastUpdated cl_Drugs
    id status details now1 now2
    ("shipment " +:+ id +:+ " not found in common ledger") cl
    (CommonLedger.UpdateShipmentStatus now1 now2 id status details cl).
Proof.
  split_and!.
  - apply ManufacturerLedger_AddDrugRecord_ok.
  - apply ManufacturerLedger_AddShipmentRecord_ok.
  - apply ManufacturerLedger_UpdateDrugStatus_ok.
  - apply ManufacturerLedger_UpdateShipmentStatus_ok.
  - apply CommonLedger_AddDrugRecord_ok.
  - apply CommonLedger_AddShipmentRecord_ok.
  - apply CommonLedger_UpdateDrugStatus_ok.
  - apply CommonLedger_UpdateShipmentStatus_ok.
Qed.

(** ** The signature check of the webhook handler *)

Section Signature.
Import WebhookHandler.
Context (BodyParser : string → Res WebhookPayload).

Lemma dispatch_not_unauthorized c :
  StatusCode (dispatch BodyParser c).1 ≠ StatusUnauthorized.
Proof. unfold dispatch. destruct (BodyParser (Body c)); simpl; discriminate. Qed.

(** The handler, once the request is let through: the body alone decides. *)
Lemma dispatch_body c c' : Body c' = Body c → dispatch BodyParser c' = dispatch BodyParser c.
Proof. unfold dispatch. by intros ->. Qed.

Lemma HandleWebhook_no_secret wh c :
  Secret wh = "" → HandleWebhook BodyParser wh c = dispatch BodyParser c.
Proof. unfold HandleWebhook. by intros ->. Qed.

Lemma HandleWebhook_secret wh c :
  Secret wh ≠ "" →
  HandleWebhook BodyParser wh c =
    if decide (Signature c = Secret wh) then dispatch BodyParser c
    else (mkResponse StatusUnauthorized [("error", JStr "Invalid signature")], []).
Proof.
  intros Hs. unfold HandleWebhook, verifySignature.
  apply String.eqb_neq in Hs as Hs'. rewrite Hs'. simpl.
  case_decide as Heq.
  - rewrite Heq, Hs'. simpl. by rewrite String.eqb_refl.
  - destruct (String.eqb (Signature c) ""); [done|].
    apply String.eqb_neq in Heq. by rewrite Heq.
Qed.

(** C9: with the empty secret the header is never read: the request is never
    answered 401, two requests with the same body are answered alike whatever
    their headers, and a body that parses to an INSERT, UPDATE or DELETE
    payload is answered 200 with its processing started.  With a secret, the
    answer is 401 exactly when the header differs from the secret, an empty
    header is answered 401 with nothing started, and a request carrying the
    secret is handled as if there were no check. *)
Theorem C9_signature_check (wh : WebhookHandler) (c : Ctx) :
  (Secret wh = "" →
     StatusCode (HandleWebhook BodyParser wh c).1 ≠ StatusUnauthorized ∧
     (∀ c', Body c' = Body c →
            HandleWebhook BodyParser wh c' = HandleWebhook BodyParser wh c) ∧
     (∀ payload, BodyParser (Body c) = Ok payload →
        (wp_Type payload = "INSERT" ∨ wp_Type payload = "UPDATE" →
           StatusCode (HandleWebhook BodyParser wh c).1 = StatusOK ∧
           (HandleWebhook BodyParser wh c).2 =
             [ProcessRecordWithRetry (wp_Table payload) (wp_Record payload)]) ∧
        (wp_Type payload = "DELETE" →
           StatusCode (HandleWebhook BodyParser wh c).1 = StatusOK ∧
           (HandleWebhook BodyParser wh c).2 =
             [ProcessDeleteWithRetry (wp_Table payload) (wp_OldRecord payload)]))) ∧
  (Secret wh ≠ "" →
     (StatusCode (HandleWebhook BodyParser wh c).1 = StatusUnauthorized ↔
      Signature c ≠ Secret wh) ∧
     (Signature c = "" →
        HandleWebhook BodyParser wh c =
          (mkResponse StatusUnauthorized [("error", JStr "Invalid signature")], [])) ∧
     (Signature c = Secret wh →
        HandleWebhook BodyParser wh c = dispatch BodyParser c)).
Proof.
  split.
  - intros Hs. split_and!.
    + rewrite HandleWebhook_no_secret by done. apply dispatch_not_unauthorized.
    + intros c' Hb. rewrite !HandleWebhook_no_secret by done. by apply dispatch_body.
    + intros payload Hp. rewrite HandleWebhook_no_secret by done.
      unfold dispatch. rewrite Hp. split.
      * by intros [-> | ->].
      * by intros ->.
  - intros Hs. rewrite HandleWebhook_secret by done. split_and!.
    + case_decide as Heq; split; try done.
      intros H. by apply dispatch_not_unauthorized in H.
    + intros He. rewrite decide_False; [done|congruence].
    + intros He. by rewrite decide_True.
Qed.

End Signature.

(** ** Histories that only grow: the steps *)

Section Growth.
Context {R : Type} (key : R → string) (history : R → list Status).

Lemma history_extends_refl l : history_extends key history l l.
Proof. intros i r Hi. exists r. by split_and!. Qed.

Lemma history_extends_trans l1 l2 l3 :
  history_extends key history l1 l2 → history_extends key history l2 l3 →
  history_extends key history l1 l3.
Proof.
  intros H12 H23 i r Hi.
  destruct (H12 i r Hi) as (r2 & Hi2 & Hk2 & Hp2).
  destruct (H23 i r2 Hi2) as (r3 & Hi3 & Hk3 & Hp3).
  exists r3. split_and!; [done|congruence|by etrans].
Qed.

(** [append(l, r)] *)
Lemma history_extends_app l l' : history_extends key history l (l ++ l').
Proof.
  intros i r Hi. exists r. split_and!; [|done|done].
  by apply lookup_app_l_Some.
Qed.

(** The loop that rewrites the first matching record by a function that
    keeps the id and appends to the history. *)
Lemma history_extends_update_first p f l :
  (∀ r, key (f r) = key r ∧ history r `prefix_of` history (f r)) →
  history_extends key history l (update_first p f l).
Proof.
  intros Hf i r Hi.
  destruct (update_first_lookup p f l i r Hi) as (y & Hy & [-> | ->]).
  - exists r. by split_and!.
  - exists (f r). destruct (Hf r). by split_and!.
Qed.

End Growth.

Lemma ml_extends_refl ml : ml_extends ml ml.
Proof. split; apply history_extends_refl. Qed.

Lemma cl_extends_refl cl : cl_extends cl cl.
Proof. split; apply history_extends_refl. Qed.

Lemma ml_extends_trans ml1 ml2 ml3 : ml_extends ml1 ml2 → ml_extends ml2 ml3 → ml_extends ml1 ml3.
Proof. intros [? ?] [? ?]. split; by eapply history_extends_trans. Qed.

Lemma cl_extends_trans cl1 cl2 cl3 : cl_extends cl1 cl2 → cl_extends cl2 cl3 → cl_extends cl1 cl3.
Proof. intros [? ?] [? ?]. split; by eapply history_extends_trans. Qed.

(** The histories of an entry appended by the managers. *)
Lemma prefix_snoc {A} (l : list A) (x : A) : l `prefix_of` l ++ [x].
Proof. by exists [x]. Qed.

Section LedgersGrow.
Context {Store : Type}.
Implicit Types w : World Store.

#[global] Instance ledgers_grow_preorder : PreOrder (@ledgers_grow Store).
Proof.
  split.
  - intros w. split.
    + intros m ml Hm. exists ml. split; [done|apply ml_extends_refl].
    + intros cl Hc. exists cl. split; [done|apply cl_extends_refl].
  - intros w1 w2 w3 [Hm12 Hc12] [Hm23 Hc23]. split.
    + intros m ml Hm. destruct (Hm12 m ml Hm) as (ml2 & Hm2 & He2).
      destruct (Hm23 m ml2 Hm2) as (ml3 & Hm3 & He3).
      exists ml3. split; [done|by eapply ml_extends_trans].
    + intros cl Hc. destruct (Hc12 cl Hc) as (cl2 & Hc2 & He2).
      destruct (Hc23 cl2 Hc2) as (cl3 & Hc3 & He3).
      exists cl3. split; [done|by eapply cl_extends_trans].
Qed.

(** A step that leaves both kinds of ledger files alone. *)
Lemma ledgers_grow_same w w' :
  ManufacturerLedgerFiles w' = ManufacturerLedgerFiles w →
  CommonLedgerFile w' = CommonLedgerFile w →
  ledgers_grow w w'.
Proof.
  intros Hm Hc. unfold ledgers_grow, manufacturers_grow, common_grows.
  rewrite Hm, Hc. apply ledgers_grow_preorder.
Qed.

(** The two kinds of files, written one after the other. *)
Lemma ledgers_grow_files w w' :
  (∀ m ml, ManufacturerLedgerFiles w !! m = Some ml →
     ∃ ml', ManufacturerLedgerFiles w' !! m = Some ml' ∧ ml_extends ml ml') →
  (∀ cl, CommonLedgerFile w = Some cl →
     ∃ cl', CommonLedgerFile w' = Some cl' ∧ cl_extends cl cl') →
  ledgers_grow w w'.
Proof. by split. Qed.

(** [SaveManufacturerLedger] of a ledger that extends the one on file. *)
Lemma saved_manufacturer_extends (files : gmap string ManufacturerLedger) k ml' :
  (∀ ml, files !! k = Some ml → ml_extends ml ml') →
  ∀ m ml, files !! m = Some ml →
    ∃ ml0, <[k := ml']> files !! m = Some ml0 ∧ ml_extends ml ml0.
Proof.
  intros Hext m ml Hm. destruct (decide (k = m)) as [<- | Hne].
  - exists ml'. rewrite lookup_insert_eq. split; [done|by apply Hext].
  - exists ml. rewrite lookup_insert_ne by done. split; [done|apply ml_extends_refl].
Qed.

(** [SaveManufacturerLedger] keeps the files named after their ledgers. *)
Lemma named_insert w w' k ml :
  named w →
  ManufacturerLedgerFiles w' = <[k := ml]> (ManufacturerLedgerFiles w) →
  ml_ManufacturerID ml = k →
  named w'.
Proof.
  intros Hnamed Hfiles Hk m ml0. rewrite Hfiles.
  destruct (decide (k = m)) as [<- | Hne].
  - rewrite lookup_insert_eq. congruence.
  - rewrite lookup_insert_ne by done. apply Hnamed.
Qed.

Lemma named_same w w' :
  named w → ManufacturerLedgerFiles w' = ManufacturerLedgerFiles w → named w'.
Proof. intros Hnamed Hfiles m ml. rewrite Hfiles. apply Hnamed. Qed.

End LedgersGrow.

(** ** Running a call *)

#[global] Arguments BlockchainService.CreateTransaction : simpl never.
#[global] Arguments DataStorage.AddTransactionToBlockchain : simpl never.

Section Run.
Context {Store : Type} `{!Backend Store}.

Lemma run_bind {A B} (m : M Store A) (k : A → M Store B) (w : World Store) :
  (m ≫= k) w =
    match m w with
    | (Ok a, w') => k a w'
    | (Err e, w') => (Err e, w')
    | (Panic e, w') => (Panic e, w')
    end.
Proof. reflexivity. Qed.


End Run.

(** Unfolding of the monad, of the primitives and of the library calls that
    only pass a request on; the answers of the store are split by [answers]. *)
Ltac run_cbn := cbn -[Z.add Z.mul Z.of_nat int_add String.append pretty].

Ltac run :=
  run_cbn;
  repeat (progress
            unfold mbind, mret, M_bind, M_ret, fail, panic, attempt, wrap, lift, modify, gets,
              Now, NewUUID, Client.Select, Client.Insert, Client.Update, Client.Delete,
              Client.execute;
          run_cbn).

Ltac answer :=
  match goal with
  | |- context [Execute ?rq ?s] =>
      let rows := fresh "rows" in
      let e := fresh "e" in
      let s' := fresh "s" in
      destruct (Execute rq s) as [[rows|e] s'];
      run_cbn
  end.

Ltac answers := repeat answer.

(** ** Appending to the chain *)

Section Append.
Context {Store : Type} `{!Backend Store}.

Lemma last_hash_snoc (blocks : list Block) (b : Block) :
  last_hash (blocks ++ [b]) = b_TxHash b.
Proof. unfold last_hash. by rewrite last_snoc. Qed.

Lemma add_drug_to_ledgers_frame drugID manufacturerID txHash (w : World Store) :
  let w' := (DataStorage.add_drug_to_ledgers drugID manufacturerID txHash w).2 in
  (DataStorage.add_drug_to_ledgers drugID manufacturerID txHash w).1 = Ok tt ∧
  clock w' = clock w ∧ (ticks w ≤ ticks w')%nat ∧ uuids w' = uuids w ∧ drawn w' = drawn w ∧
  BlockchainFile w' = BlockchainFile w ∧ Files w' = Files w ∧
  TxHashFile w' = TxHashFile w ∧ ProcessedTxs w' = ProcessedTxs w ∧
  SyncStatusMap w' = SyncStatusMap w ∧ LastSyncTime w' = LastSyncTime w ∧
  store w' = store w ∧ trace w' = trace w ∧
  (named w → named w' ∧ ledgers_grow w w').
Proof.
  unfold DataStorage.add_drug_to_ledgers, LedgerStorage.NewLedgerStorage,
    LedgerStorage.GetManufacturerLedger, LedgerStorage.SaveManufacturerLedger,
    LedgerStorage.GetCommonLedger, LedgerStorage.SaveCommonLedger.
  destruct w as [clk tk uu dr bc mf cf fl th pt sm ls st tr].
  run. destruct cf; run; destruct (mf !! manufacturerID) eqn:Hm; run;
    (split_and!; try reflexivity; try lia).
  all: intros Hnamed; try (pose proof (Hnamed _ _ Hm) as Hkey; cbn in Hkey).
  all: split;
    [ eapply named_insert;
      [exact Hnamed|cbn; rewrite ?insert_insert_eq; reflexivity|cbn; congruence]
    | apply ledgers_grow_files; cbn ].
  all: try (rewrite ?insert_insert_eq; apply saved_manufacturer_extends;
            intros ml0 Hml0; try rewrite Hkey in Hml0; simplify_eq;
            try (split; cbn; [apply history_extends_app|apply history_extends_refl])).
  all: intros cl0 Hcl0; simplify_eq.
  all: eexists; split; [reflexivity|];
    split; cbn; [apply history_extends_app|apply history_extends_refl].
Qed.

Lemma get_set_ne k k' v (m : Data) : k ≠ k' → Json.get k (Json.set k' v m) = Json.get k m.
Proof.
  intros Hne. induction m as [|[k0 v0] m IH]; simpl.
  - apply String.eqb_neq in Hne. by rewrite Hne.
  - destruct (String.eqb k' k0) eqn:E'; simpl.
    + apply String.eqb_eq in E' as ->.
      apply String.eqb_neq in Hne. by rewrite Hne.
    + by rewrite IH.
Qed.

Lemma get_set_eq k v (m : Data) : Json.get k (Json.set k v m) = Some v.
Proof.
  induction m as [|[k0 v0] m IH]; simpl.
  - by rewrite String.eqb_refl.
  - destruct (String.eqb k k0) eqn:E; simpl; [by rewrite String.eqb_refl|].
    by rewrite E.
Qed.

Lemma get_string_set_ne k k' v (m : Data) :
  k ≠ k' → Json.get_string k (Json.set k' v m) = Json.get_string k m.
Proof. intros. unfold Json.get_string. by rewrite get_set_ne. Qed.

End Append.

#[global] Arguments DataStorage.add_drug_to_ledgers : simpl never.

Section Added.
Context {Store : Type} `{!Backend Store}.

(** The last step of an append, after the write-back to the row of the drug
    succeeded. *)
Lemma AddTransactionToBlockchain_added txData txHash (w : World Store) :
  added txData txHash w (DataStorage.AddTransactionToBlockchain txData txHash w).1
        (DataStorage.AddTransactionToBlockchain txData txHash w).2.
Proof.
  unfold DataStorage.AddTransactionToBlockchain, DataStorage.GetBlockchainLedger,
    DataStorage.EnsureBlockchainLedgerExists, DataStorage.WriteFile.
  destruct w as [clk tk uu dr bc mf cf fl th pt sm ls st tr].
  unfold chain, chain_height. cbn [BlockchainFile].
  assert (Hwb : ∀ rq, rq_table rq = "blockchain_ledger" → write_back txData txHash rq)
    by (intros; by left).
  destruct bc as [ledger|]; run; answers;
    destruct (Json.get_string "drug_id" txData) as [drugID|] eqn:Hdrug; run; answers;
    try (rewrite get_string_set_ne by discriminate;
         destruct (Json.get_string "manufacturer" txData) as [manufacturerID|] eqn:Hman;
         run);
    try (destruct (Json.get_string "shipment_id" txData) as [shipmentID|] eqn:Hship;
         run; answers);
    try match goal with
        | |- context [DataStorage.add_drug_to_ledgers ?d ?m ?h ?w] =>
            destruct (add_drug_to_ledgers_frame d m h w)
              as (Hr & ? & ? & ? & ? & ? & ? & ? & ? & ? & ? & ? & Htr & Hgrow);
            destruct (DataStorage.add_drug_to_ledgers d m h w) as [r' w'];
            cbn [fst snd] in *; subst r'
        end;
    (split;
     [ reflexivity
     | simpl in *; try congruence
     | simpl in *; try lia
     | simpl in *; try congruence
     | simpl in *; try congruence
     | simpl in *; eauto
     | simpl in *; try (intros [?|?]; congruence); try (intros _; split; congruence)
     | first [ exact Hgrow | by (intros Hnamed; split; [exact Hnamed|apply ledgers_grow_same]) ]
     | simpl in *; split; congruence
     | simpl in *; split; congruence
     | simpl in *; try rewrite Htr;
       first
         [ by (eexists [_]; split; [reflexivity|]; repeat constructor; simpl; eauto 10)
         | by (eexists [_; _]; split; [reflexivity|]; repeat constructor; simpl; eauto 10)
         | by (eexists [_; _; _]; split; [reflexivity|]; repeat constructor; simpl;
               eauto 10) ] ]).
Qed.

End Added.

(** ** Chain integrity *)

Section Chain.
Context {Store : Type} `{!Backend Store}.









Arguments DataStorage.checkConsistency : simpl never.


End Chain.


(** ** Verification of a drug *)

#[global] Arguments decode_drug : simpl never.
#[global] Arguments decode_shipment : simpl never.
#[global] Arguments Blockchain.ValidateTransaction : simpl never.

Section Verify.
Context {Store : Type} `{!Backend Store}.



End Verify.


(** ** The ledger manager *)

(** An append inside a call: the world after it is taken apart, and what the
    summary says of it replaces its fields. *)
Ltac add_block :=
  match goal with
  | |- context [DataStorage.AddTransactionToBlockchain ?d ?h ?w] =>
      let Hadd := fresh "Hadd" in
      let r := fresh "r" in
      let w1 := fresh "w" in
      pose proof (AddTransactionToBlockchain_added d h w) as Hadd;
      destruct (DataStorage.AddTransactionToBlockchain d h w) as [r w1];
      cbn [fst snd] in Hadd;
      let H1 := fresh "Hclock" in
      let H2 := fresh "Hticks" in
      let H3 := fresh "Huuids" in
      let H4 := fresh "Hdrawn" in
      let H5 := fresh "Hchain" in
      let H6 := fresh "Hledgers" in
      let H7 := fresh "Hgrow" in
      let H8 := fresh "Htracker" in
      let H9 := fresh "Hsync" in
      let H10 := fresh "Htrace" in
      let ts := fresh "ts" in
      let ts' := fresh "ts" in
      let new := fresh "new" in
      let Hnew := fresh "Hnew" in
      destruct Hadd as [-> H1 H2 H3 H4 (ts & ts' & H5) H6 H7 [H8 H8'] [H9 H9']
                          (new & H10 & Hnew)];
      let clk1 := fresh "clk" in
      let tk1 := fresh "tk" in
      let uu1 := fresh "uu" in
      let dr1 := fresh "dr" in
      let bc1 := fresh "bc" in
      let mf1 := fresh "mf" in
      let cf1 := fresh "cf" in
      let fl1 := fresh "fl" in
      let th1 := fresh "th" in
      let pt1 := fresh "pt" in
      let sm1 := fresh "sm" in
      let ls1 := fresh "ls" in
      let st1 := fresh "st" in
      let tr1 := fresh "tr" in
      destruct w1 as [clk1 tk1 uu1 dr1 bc1 mf1 cf1 fl1 th1 pt1 sm1 ls1 st1 tr1];
      cbn in H1, H3, H4, H8, H8', H9, H9', H10;
      cbn [ManufacturerLedgerFiles CommonLedgerFile BlockchainFile] in H6;
      unfold chain, chain_height in H5;
      cbn -[int_add last_hash String.append] in H5;
      subst clk1 uu1 dr1 th1 pt1 sm1 ls1 tr1 bc1;
      try (destruct (H6 (or_introl eq_refl)) as [-> ->]; clear H6);
      try (destruct (H6 (or_intror eq_refl)) as [-> ->]; clear H6);
      clear H2;
      run_cbn
  end.



Section WriteBack.

Lemma requests_since_app {Store} (w w' : World Store) new :
  trace w' = new ++ trace w → requests_since w w' = new.
Proof.
  intros Htr. unfold requests_since. rewrite Htr, length_app.
  replace (length new + length (trace w) - length (trace w)) with (length new) by lia.
  apply take_app_length.
Qed.





End WriteBack.









Section Manager.
Context {Store : Type} `{!Backend Store}.



End Manager.

(** ** Histories only grow: the rules of the calls *)

Create HintDb quiet discriminated.

Section Quiet.
Context {Store : Type} `{!Backend Store}.
Implicit Types w : World Store.

Lemma quiet_ret {A} (a : A) : quiet (mret a : M Store A).
Proof. by intros w. Qed.

Lemma quiet_fail {A} (msg : string) : quiet (fail msg : M Store A).
Proof. by intros w. Qed.

Lemma quiet_panic {A} (msg : string) : quiet (panic msg : M Store A).
Proof. by intros w. Qed.

Lemma quiet_lift {A} (r : Res A) : quiet (lift r : M Store A).
Proof. by intros w. Qed.

Lemma quiet_gets {A} (f : World Store → A) : quiet (gets f).
Proof. by intros w. Qed.

Lemma quiet_Now : quiet (Now : M Store Time).
Proof. by intros w. Qed.

Lemma quiet_NewUUID : quiet (NewUUID : M Store string).
Proof. by intros w. Qed.

Lemma quiet_modify (f : World Store → World Store) :
  (∀ w, ManufacturerLedgerFiles (f w) = ManufacturerLedgerFiles w ∧
        CommonLedgerFile (f w) = CommonLedgerFile w) →
  quiet (modify f).
Proof. intros Hf w. apply Hf. Qed.

Lemma quiet_bind {A B} (m : M Store A) (k : A → M Store B) :
  quiet m → (∀ a, quiet (k a)) → quiet (m ≫= k).
Proof.
  intros Hm Hk w. unfold mbind, M_bind. specialize (Hm w).
  destruct (m w) as [[a|e|p] w1]; cbn in *; [|done..].
  destruct Hm as [Hm1 Hm2]. destruct (Hk a w1) as [Hk1 Hk2].
  rewrite Hk1, Hk2. by split.
Qed.

Lemma quiet_wrap {A} (prefix : string) (m : M Store A) : quiet m → quiet (wrap prefix m).
Proof. intros Hm w. unfold wrap. specialize (Hm w). by destruct (m w) as [[a|e|p] w1]. Qed.

Lemma quiet_attempt {A} (m : M Store A) : quiet m → quiet (attempt m).
Proof. intros Hm w. unfold attempt. specialize (Hm w). by destruct (m w) as [[a|e|p] w1]. Qed.

Lemma quiet_execute (rq : Request) : quiet (Client.execute rq).
Proof. intros w. unfold Client.execute. by destruct (Execute rq (store w)). Qed.

Lemma quiet_for_each {A} (f : A → M Store unit) (l : list A) :
  (∀ x, quiet (f x)) → quiet (for_each f l).
Proof.
  intros Hf. induction l as [|x l IH]; cbn; [apply quiet_ret|].
  apply quiet_bind; [apply Hf|by intros _].
Qed.

End Quiet.

#[global] Hint Resolve quiet_ret quiet_fail quiet_panic quiet_lift quiet_gets quiet_Now
  quiet_NewUUID quiet_execute : quiet.

(** The structure of a call is followed down to its steps. *)
Ltac quiet :=
  repeat match goal with
    | |- quiet (mbind _ _) => apply quiet_bind; [|intros ?]
    | |- quiet (wrap _ _) => apply quiet_wrap
    | |- quiet (attempt _) => apply quiet_attempt
    | |- quiet (for_each _ _) => apply quiet_for_each; intros ?
    | |- quiet (modify _) => apply quiet_modify; intros ?; by split
    | |- quiet (if ?b then _ else _) => destruct b
    | |- quiet (match ?x with _ => _ end) => destruct x
    | |- quiet _ => solve [auto with quiet]
    end.

Section QuietCalls.
Context {Store : Type} `{!Backend Store}.

Lemma quiet_Select table query where_ : quiet (Client.Select (Store:=Store) table query where_).
Proof. unfold Client.Select. quiet. Qed.

Lemma quiet_Insert table data : quiet (Client.Insert (Store:=Store) table data).
Proof. unfold Client.Insert. quiet. Qed.

Lemma quiet_Update table id data : quiet (Client.Update (Store:=Store) table id data).
Proof. unfold Client.Update. quiet. Qed.

Lemma quiet_Delete table match_ : quiet (Client.Delete (Store:=Store) table match_).
Proof. unfold Client.Delete. quiet. Qed.

Hint Resolve quiet_Select quiet_Insert quiet_Update quiet_Delete : quiet.

Lemma quiet_InsertDrug drug : quiet (LedgerStorage.InsertDrug (Store:=Store) drug).
Proof. unfold LedgerStorage.InsertDrug. quiet. Qed.

Lemma quiet_UpdateDrug drug : quiet (LedgerStorage.UpdateDrug (Store:=Store) drug).
Proof. unfold LedgerStorage.UpdateDrug. quiet. Qed.

Lemma quiet_GetDrug drugID : quiet (LedgerStorage.GetDrug (Store:=Store) drugID).
Proof. unfold LedgerStorage.GetDrug. quiet. Qed.

Lemma quiet_InsertDrugStatusUpdate update :
  quiet (LedgerStorage.InsertDrugStatusUpdate (Store:=Store) update).
Proof. unfold LedgerStorage.InsertDrugStatusUpdate. quiet. Qed.

Lemma quiet_InsertShipment shipment : quiet (LedgerStorage.InsertShipment (Store:=Store) shipment).
Proof. unfold LedgerStorage.InsertShipment. quiet. Qed.

Lemma quiet_UpdateShipment shipment : quiet (LedgerStorage.UpdateShipment (Store:=Store) shipment).
Proof. unfold LedgerStorage.UpdateShipment. quiet. Qed.

Lemma quiet_GetShipment shipmentID : quiet (LedgerStorage.GetShipment (Store:=Store) shipmentID).
Proof. unfold LedgerStorage.GetShipment. quiet. Qed.

Lemma quiet_InsertShipmentStatusUpdate update :
  quiet (LedgerStorage.InsertShipmentStatusUpdate (Store:=Store) update).
Proof. unfold LedgerStorage.InsertShipmentStatusUpdate. quiet. Qed.

Lemma quiet_GetCommonLedger : quiet (LedgerStorage.GetCommonLedger (Store:=Store)).
Proof. unfold LedgerStorage.GetCommonLedger. quiet. Qed.

Lemma quiet_WriteFile filePath data : quiet (DataStorage.WriteFile (Store:=Store) filePath data).
Proof. unfold DataStorage.WriteFile. quiet. Qed.

Lemma quiet_GetBlockchainLedger : quiet (DataStorage.GetBlockchainLedger (Store:=Store)).
Proof.
  unfold DataStorage.GetBlockchainLedger, DataStorage.EnsureBlockchainLedgerExists. quiet.
Qed.

Hint Resolve quiet_GetBlockchainLedger quiet_WriteFile : quiet.

Lemma quiet_RunConsistencyCheck : quiet (DataStorage.RunConsistencyCheck (Store:=Store)).
Proof. unfold DataStorage.RunConsistencyCheck, DataStorage.checkConsistency. quiet. Qed.

Lemma quiet_VerifyTransaction txID : quiet (BlockchainService.VerifyTransaction (Store:=Store) txID).
Proof. unfold BlockchainService.VerifyTransaction. quiet. Qed.

Lemma quiet_IsTransactionProcessed txHash :
  quiet (TransactionTracker.IsTransactionProcessed (Store:=Store) txHash).
Proof. unfold TransactionTracker.IsTransactionProcessed. quiet. Qed.

Lemma quiet_MarkTransactionProcessed txHash :
  quiet (TransactionTracker.MarkTransactionProcessed (Store:=Store) txHash).
Proof.
  unfold TransactionTracker.MarkTransactionProcessed, TransactionTracker.saveProcessedTxs.
  quiet.
Qed.

End QuietCalls.

#[global] Hint Resolve quiet_Select quiet_Insert quiet_Update quiet_Delete quiet_InsertDrug
  quiet_UpdateDrug quiet_GetDrug quiet_InsertDrugStatusUpdate quiet_InsertShipment
  quiet_UpdateShipment quiet_GetShipment quiet_InsertShipmentStatusUpdate
  quiet_GetCommonLedger quiet_WriteFile quiet_GetBlockchainLedger quiet_RunConsistencyCheck
  quiet_VerifyTransaction quiet_IsTransactionProcessed quiet_MarkTransactionProcessed : quiet.

(** ** Histories only grow: the operations *)

Create HintDb grows discriminated.

Section Grows.
Context {Store : Type} `{!Backend Store}.
Implicit Types w : World Store.

Lemma grows_quiet {A} (c : M Store A) : quiet c → grows c.
Proof.
  intros Hq w Hnamed. destruct (Hq w) as [Hm Hc].
  split; [by eapply named_same|by apply ledgers_grow_same].
Qed.

Lemma grows_bind {A B} (m : M Store A) (k : A → M Store B) :
  grows m → (∀ a, grows (k a)) → grows (m ≫= k).
Proof.
  intros Hm Hk w Hnamed. unfold mbind, M_bind. destruct (Hm w Hnamed) as [Hn1 Hg1].
  destruct (m w) as [[a|e|p] w1]; cbn in *; [|done..].
  destruct (Hk a w1 Hn1) as [Hn2 Hg2]. split; [done|by etrans].
Qed.

Lemma grows_wrap {A} (prefix : string) (m : M Store A) : grows m → grows (wrap prefix m).
Proof.
  intros Hm w Hnamed. unfold wrap. specialize (Hm w Hnamed).
  by destruct (m w) as [[a|e|p] w1].
Qed.

Lemma grows_attempt {A} (m : M Store A) : grows m → grows (attempt m).
Proof.
  intros Hm w Hnamed. unfold attempt. specialize (Hm w Hnamed).
  by destruct (m w) as [[a|e|p] w1].
Qed.

Lemma grows_for_each {A} (f : A → M Store unit) (l : list A) :
  (∀ x, grows (f x)) → grows (for_each f l).
Proof.
  intros Hf. induction l as [|x l IH]; cbn; [apply grows_quiet, quiet_ret|].
  apply grows_bind; [apply Hf|by intros _].
Qed.

Lemma grows_AddTransactionToBlockchain txData txHash :
  grows (DataStorage.AddTransactionToBlockchain (Store:=Store) txData txHash).
Proof. intros w. apply (AddTransactionToBlockchain_added txData txHash w). Qed.

(** [GetManufacturerLedger]: the ledger on file, or a new one that is
    saved. *)
Lemma grows_get_manufacturer {A} (prefix m : string) (k : ManufacturerLedger → M Store A) :
  (∀ ml, ml_ManufacturerID ml = m → grows_from_manufacturer m ml (k ml)) →
  grows (wrap prefix (LedgerStorage.GetManufacturerLedger m) ≫= k).
Proof.
  intros Hk w Hnamed.
  unfold LedgerStorage.GetManufacturerLedger, LedgerStorage.SaveManufacturerLedger.
  destruct w as [clk tk uu dr bc mf cf fl th pt sm ls st tr]. run.
  destruct (mf !! m) as [ml|] eqn:Hml; run.
  - apply (Hk ml (Hnamed _ _ Hml)); [exact Hnamed|exact Hml].
  - match goal with
    | |- context [k ?ml ?w1] =>
        assert (Hn1 : named w1)
          by (eapply named_insert; [exact Hnamed|reflexivity|reflexivity]);
        destruct (Hk ml eq_refl w1 Hn1) as [Hn2 Hg2]; [apply lookup_insert_eq|]
    end.
    split; [exact Hn2|]. etrans; [|exact Hg2].
    apply ledgers_grow_files; cbn.
    + apply saved_manufacturer_extends. intros ml0 Hml0. congruence.
    + intros cl0 ->. exists cl0. split; [done|apply cl_extends_refl].
Qed.

Lemma grows_from_manufacturer_bind {A B} m ml (c : M Store A) (k : A → M Store B) :
  quiet c → (∀ a, grows_from_manufacturer m ml (k a)) →
  grows_from_manufacturer m ml (c ≫= k).
Proof.
  intros Hc Hk w Hnamed Hml. unfold mbind, M_bind.
  destruct (Hc w) as [Hm1 Hc1].
  destruct (c w) as [[a|e|p] w1]; cbn in *;
    try (split; [by eapply named_same|by apply ledgers_grow_same]).
  destruct (Hk a w1) as [Hn2 Hg2]; [by eapply named_same|by rewrite Hm1|].
  split; [done|]. etrans; [|exact Hg2]. by apply ledgers_grow_same.
Qed.

(** [SaveManufacturerLedger] of the ledger that was read, with records
    appended or histories extended. *)
Lemma grows_save_manufacturer {A} (prefix m : string) ml ml' (k : M Store A) :
  ml_extends ml ml' → ml_ManufacturerID ml' = m → grows k →
  grows_from_manufacturer m ml (wrap prefix (LedgerStorage.SaveManufacturerLedger ml');; k).
Proof.
  intros Hext Hid Hk w Hnamed Hml. unfold LedgerStorage.SaveManufacturerLedger. run.
  match goal with
  | |- context [k ?w1] =>
      assert (Hn1 : named w1)
        by (eapply named_insert; [exact Hnamed|reflexivity|reflexivity]);
      destruct (Hk w1 Hn1) as [Hn2 Hg2]
  end.
  split; [exact Hn2|]. etrans; [|exact Hg2].
  apply ledgers_grow_files; cbn.
  - rewrite Hid. apply saved_manufacturer_extends. intros ml0 Hml0. congruence.
  - intros cl0 ->. exists cl0. split; [done|apply cl_extends_refl].
Qed.

Lemma grows_get_common {A} (prefix : string) (k : CommonLedger → M Store A) :
  (∀ cl, grows_from_common cl (k cl)) →
  grows (wrap prefix LedgerStorage.GetCommonLedger ≫= k).
Proof.
  intros Hk w Hnamed. unfold LedgerStorage.GetCommonLedger. run.
  destruct (CommonLedgerFile w) as [cl|] eqn:Hcl; run.
  - by apply Hk.
  - split; [done|reflexivity].
Qed.

Lemma grows_from_common_bind {A B} cl (c : M Store A) (k : A → M Store B) :
  quiet c → (∀ a, grows_from_common cl (k a)) → grows_from_common cl (c ≫= k).
Proof.
  intros Hc Hk w Hnamed Hcl. unfold mbind, M_bind.
  destruct (Hc w) as [Hm1 Hc1].
  destruct (c w) as [[a|e|p] w1]; cbn in *;
    try (split; [by eapply named_same|by apply ledgers_grow_same]).
  destruct (Hk a w1) as [Hn2 Hg2]; [by eapply named_same|by rewrite Hc1|].
  split; [done|]. etrans; [|exact Hg2]. by apply ledgers_grow_same.
Qed.

Lemma grows_save_common_last (prefix : string) cl cl' :
  cl_extends cl cl' →
  grows_from_common cl (wrap prefix (LedgerStorage.SaveCommonLedger (Store:=Store) cl')).
Proof.
  intros Hext w Hnamed Hcl. unfold LedgerStorage.SaveCommonLedger. run.
  split; [by eapply named_same|].
  apply ledgers_grow_files; cbn.
  - intros m ml Hm. exists ml. split; [done|apply ml_extends_refl].
  - intros cl0 Hcl0. exists cl'. split; [done|congruence].
Qed.

Lemma grows_save_common {A} (prefix : string) cl cl' (k : M Store A) :
  cl_extends cl cl' → grows k →
  grows_from_common cl (wrap prefix (LedgerStorage.SaveCommonLedger cl');; k).
Proof.
  intros Hext Hk w Hnamed Hcl.
  destruct (grows_save_common_last prefix cl cl' Hext w Hnamed Hcl) as [Hn1 Hg1].
  revert Hn1 Hg1. unfold LedgerStorage.SaveCommonLedger. run. intros Hn1 Hg1.
  match goal with
  | |- context [k ?w1] => destruct (Hk w1 Hn1) as [Hn2 Hg2]
  end.
  split; [exact Hn2|by etrans].
Qed.

End Grows.

(** A ledger with a record appended, or with the first record of an id
    rewritten by a function that appends to its history. *)
Ltac extends :=
  repeat match goal with
    | |- context [if ?b then _ else _] => destruct b
    end;
  split; cbn;
  first
    [ apply history_extends_refl
    | apply history_extends_app
    | apply history_extends_update_first; intros ?;
      split; [reflexivity|cbn; first [apply prefix_snoc|reflexivity]] ].

Ltac same_manufacturer :=
  repeat match goal with
    | |- context [if ?b then _ else _] => destruct b
    end;
  cbn; congruence.

Ltac grows :=
  repeat
    (cbv beta zeta;
     match goal with
     | |- grows (mbind _ (wrap _ (LedgerStorage.GetManufacturerLedger _))) =>
         apply grows_get_manufacturer; intros ? ?
     | |- grows (mbind _ (wrap _ LedgerStorage.GetCommonLedger)) =>
         apply grows_get_common; intros ?
     | |- grows (mbind _ _) => apply grows_bind; [|intros ?]
     | |- grows (wrap _ _) => apply grows_wrap
     | |- grows (attempt _) => apply grows_attempt
     | |- grows (for_each _ _) => apply grows_for_each; intros ?
     | |- grows (DataStorage.AddTransactionToBlockchain _ _) =>
         apply grows_AddTransactionToBlockchain
     | |- grows (if ?b then _ else _) => destruct b
     | |- grows (match ?x with _ => _ end) => destruct x
     | |- grows _ => solve [auto with grows]
     | |- grows _ => solve [apply grows_quiet; quiet]
     | |- grows_from_manufacturer _ _
            (mbind _ (wrap _ (LedgerStorage.SaveManufacturerLedger _))) =>
         apply grows_save_manufacturer; [solve [extends]|solve [same_manufacturer]|]
     | |- grows_from_manufacturer _ _ (mbind _ _) =>
         apply grows_from_manufacturer_bind; [solve [quiet]|intros ?]
     | |- grows_from_common _ (mbind _ (wrap _ (LedgerStorage.SaveCommonLedger _))) =>
         apply grows_save_common; [solve [extends]|]
     | |- grows_from_common _ (wrap _ (LedgerStorage.SaveCommonLedger _)) =>
         apply grows_save_common_last; solve [extends]
     | |- grows_from_common _ (mbind _ _) =>
         apply grows_from_common_bind; [solve [quiet]|intros ?]
     end).

Section GrowingCalls.
Context {Store : Type} `{!Backend Store}.

Lemma grows_CreateTransaction txType data :
  grows (BlockchainService.CreateTransaction (Store:=Store) txType data).
Proof. unfold BlockchainService.CreateTransaction. grows. Qed.

Hint Resolve grows_CreateTransaction : grows.

Lemma grows_ManagerCreateDrug params : grows (LedgerManager.CreateDrug (Store:=Store) params).
Proof. unfold LedgerManager.CreateDrug. grows. Qed.

Lemma grows_ManagerCreateShipment params :
  grows (LedgerManager.CreateShipment (Store:=Store) params).
Proof.
  unfold LedgerManager.CreateShipment, BlockchainService.RecordDrugStatusUpdate. grows.
Qed.

Lemma grows_ManagerUpdateShipmentStatus params :
  grows (LedgerManager.UpdateShipmentStatus (Store:=Store) params).
Proof.
  unfold LedgerManager.UpdateShipmentStatus, LedgerManager.deliver_drug_in_store,
    BlockchainService.RecordDrugStatusUpdate.
  grows.
Qed.

Lemma grows_ManagerRevertDrug params : grows (LedgerManager.RevertDrug (Store:=Store) params).
Proof. unfold LedgerManager.RevertDrug. grows. Qed.

Lemma grows_ManagerVerifyDrug drugID : grows (LedgerManager.VerifyDrug (Store:=Store) drugID).
Proof. apply grows_quiet. unfold LedgerManager.VerifyDrug. quiet. Qed.

Lemma grows_LedgerCreateDrug params :
  grows (BlockchainLedgerManager.CreateDrug (Store:=Store) params).
Proof. unfold BlockchainLedgerManager.CreateDrug. grows. Qed.

Lemma grows_LedgerCreateShipment params :
  grows (BlockchainLedgerManager.CreateShipment (Store:=Store) params).
Proof. unfold BlockchainLedgerManager.CreateShipment. grows. Qed.

Lemma grows_LedgerUpdateDrugStatus m d s details :
  grows (BlockchainLedgerManager.UpdateDrugStatus (Store:=Store) m d s details).
Proof. unfold BlockchainLedgerManager.UpdateDrugStatus. grows. Qed.

Lemma grows_LedgerUpdateShipmentStatus m s st details :
  grows (BlockchainLedgerManager.UpdateShipmentStatus (Store:=Store) m s st details).
Proof. unfold BlockchainLedgerManager.UpdateShipmentStatus. grows. Qed.

Lemma grows_LedgerRevertDrug params :
  grows (BlockchainLedgerManager.RevertDrug (Store:=Store) params).
Proof. unfold BlockchainLedgerManager.RevertDrug. grows. Qed.

Lemma grows_LedgerVerifyDrug drugID :
  grows (BlockchainLedgerManager.VerifyDrug (Store:=Store) drugID).
Proof. apply grows_quiet. unfold BlockchainLedgerManager.VerifyDrug. quiet. Qed.

Lemma grows_pull_record table record :
  grows (SyncService.pull_record (Store:=Store) table record).
Proof. unfold SyncService.pull_record. grows. Qed.

Lemma grows_pull_records table records processedCount :
  grows (SyncService.pull_records (Store:=Store) table records processedCount).
Proof.
  revert processedCount. induction records as [|record records IH]; intros n; cbn.
  - apply grows_quiet, quiet_ret.
  - destruct (SyncService.skipped record); [apply IH|].
    apply grows_bind; [apply grows_pull_record|intros _; apply IH].
Qed.

Hint Resolve grows_pull_records : grows.

Lemma grows_createDrugTransaction drugData :
  grows (SyncService.createDrugTransaction (Store:=Store) drugData).
Proof. unfold SyncService.createDrugTransaction. grows. Qed.

Lemma grows_createShipmentTransaction shipmentData :
  grows (SyncService.createShipmentTransaction (Store:=Store) shipmentData).
Proof. unfold SyncService.createShipmentTransaction. grows. Qed.

Hint Resolve grows_createDrugTransaction grows_createShipmentTransaction : grows.

Lemma grows_performSync : grows (SyncService.performSync (Store:=Store)).
Proof.
  unfold SyncService.performSync, SyncService.syncTable, SyncService.logSyncStatus,
    SyncService.pullChangesFromSupabase, SyncService.pushChangesToSupabase.
  grows.
Qed.

Section Webhook.
Context (BodyParser : string → Res WebhookHandler.WebhookPayload).

Lemma grows_processRecord tableName record :
  grows (WebhookHandler.processRecord (Store:=Store) tableName record).
Proof. unfold WebhookHandler.processRecord, WebhookHandler.resolve. grows. Qed.

Lemma grows_processDelete tableName record :
  grows (WebhookHandler.processDelete (Store:=Store) tableName record).
Proof. apply grows_quiet. unfold WebhookHandler.processDelete. quiet. Qed.

Lemma grows_record_attempts n tableName record :
  grows (WebhookHandler.record_attempts (Store:=Store) n tableName record).
Proof.
  revert record. induction n as [|n IH]; intros record; cbn.
  - apply grows_quiet, quiet_ret.
  - apply grows_bind; [apply grows_processRecord|].
    intros [record' [err|]]; [apply IH|apply grows_quiet, quiet_ret].
Qed.

Lemma grows_delete_attempts n tableName record :
  grows (WebhookHandler.delete_attempts (Store:=Store) n tableName record).
Proof.
  induction n as [|n IH]; cbn.
  - apply grows_quiet, quiet_ret.
  - apply grows_bind; [apply grows_processDelete|].
    intros [err|]; [apply IH|apply grows_quiet, quiet_ret].
Qed.

Lemma grows_submit wh c : grows (WebhookHandler.submit (Store:=Store) BodyParser wh c).
Proof.
  unfold WebhookHandler.submit.
  destruct (WebhookHandler.HandleWebhook BodyParser wh c) as [response started].
  apply grows_bind; [|intros _; apply grows_quiet, quiet_ret].
  apply grows_for_each. intros [table record | table record]; cbn.
  - apply grows_record_attempts.
  - apply grows_delete_attempts.
Qed.

End Webhook.

End GrowingCalls.

(** *** The reconciliation: the manufacturer ledgers are read, the common
    ledger is overwritten *)

Section Reconciliation.
Context {Store : Type} `{!Backend Store}.
Implicit Types w : World Store.

Lemma manufacturers_grow_preorder : PreOrder (@manufacturers_grow Store).
Proof.
  split.
  - intros w m ml Hm. exists ml. split; [done|apply ml_extends_refl].
  - intros w1 w2 w3 H12 H23 m ml Hm.
    destruct (H12 m ml Hm) as (ml2 & Hm2 & He2).
    destruct (H23 m ml2 Hm2) as (ml3 & Hm3 & He3).
    exists ml3. split; [done|by eapply ml_extends_trans].
Qed.

Lemma grows_manufacturers_bind {A B} (m : M Store A) (k : A → M Store B) :
  grows_manufacturers m → (∀ a, grows_manufacturers (k a)) → grows_manufacturers (m ≫= k).
Proof.
  intros Hm Hk w Hnamed. unfold mbind, M_bind. destruct (Hm w Hnamed) as [Hn1 Hg1].
  destruct (m w) as [[a|e|p] w1]; cbn in *; [|done..].
  destruct (Hk a w1 Hn1) as [Hn2 Hg2]. split; [done|].
  by eapply manufacturers_grow_preorder.
Qed.

Lemma grows_manufacturers_grows {A} (c : M Store A) : grows c → grows_manufacturers c.
Proof. intros Hc w Hnamed. destruct (Hc w Hnamed) as [Hn [Hg _]]. by split. Qed.

Lemma grows_manufacturers_wrap {A} (prefix : string) (m : M Store A) :
  grows_manufacturers m → grows_manufacturers (wrap prefix m).
Proof.
  intros Hm w Hnamed. unfold wrap. specialize (Hm w Hnamed).
  by destruct (m w) as [[a|e|p] w1].
Qed.

Lemma grows_manufacturers_SyncManufacturerLedger manufacturerID :
  grows_manufacturers (BlockchainLedgerManager.SyncManufacturerLedger (Store:=Store)
                         manufacturerID).
Proof.
  intros w Hnamed.
  unfold BlockchainLedgerManager.SyncManufacturerLedger, LedgerStorage.GetManufacturerLedger,
    LedgerStorage.SaveManufacturerLedger, LedgerStorage.GetCommonLedger,
    LedgerStorage.SaveCommonLedger.
  destruct w as [clk tk uu dr bc mf cf fl th pt sm ls st tr]. run.
  destruct (mf !! manufacturerID) as [ml|] eqn:Hml; run; destruct cf as [cl|]; run.
  all: split;
    [ first [ exact Hnamed
            | by eapply named_same
            | eapply named_insert; [exact Hnamed|reflexivity|reflexivity] ]
    | unfold manufacturers_grow; cbn;
      first [ apply saved_manufacturer_extends; intros ml0 Hml0; congruence
            | intros m0 ml0 Hm0; exists ml0; split; [done|apply ml_extends_refl] ] ].
Qed.

Lemma grows_manufacturers_SyncAllLedgers :
  grows_manufacturers (BlockchainLedgerManager.SyncAllLedgers (Store:=Store)).
Proof.
  unfold BlockchainLedgerManager.SyncAllLedgers.
  apply grows_manufacturers_bind.
  { apply grows_manufacturers_grows, grows_quiet.
    unfold LedgerStorage.ListManufacturerLedgers. quiet. }
  intros ids. induction ids as [|id ids IH]; cbn.
  - apply grows_manufacturers_grows, grows_quiet, quiet_ret.
  - apply grows_manufacturers_bind; [|by intros _].
    apply grows_manufacturers_wrap, grows_manufacturers_SyncManufacturerLedger.
Qed.

End Reconciliation.

(** ** The cascade of a delivery, and updates of records that are absent *)

Section ManagerClaims.
Context {Store : Type} `{!Backend Store}.






End ManagerClaims.


(** ** Histories across sequences of operations *)

(** What [prefix_of] says of two histories: the later one is at least as
    long, and holds every entry of the earlier one at its place. *)
Lemma prefix_entries (h h' : list Status) :
  h `prefix_of` h' →
  (length h ≤ length h')%nat ∧ ∀ j s, h !! j = Some s → h' !! j = Some s.
Proof.
  intros [k ->]. split; [rewrite length_app; lia|].
  intros j s Hj. by apply lookup_app_l_Some.
Qed.

Section Histories.
Context {Store : Type} `{!Backend Store}.
Context (BodyParser : string → Res WebhookHandler.WebhookPayload).
Implicit Types w : World Store.

Lemma run_op_grows (op : Op) w :
  named w → reconciles op = false →
  named (run_op BodyParser op w) ∧ ledgers_grow w (run_op BodyParser op w).
Proof.
  intros Hnamed Hop. destruct op; try discriminate Hop; cbn [run_op]; unfold after.
  - by apply grows_ManagerCreateDrug.
  - by apply grows_ManagerCreateShipment.
  - by apply grows_ManagerUpdateShipmentStatus.
  - by apply grows_ManagerRevertDrug.
  - by apply grows_ManagerVerifyDrug.
  - by apply grows_LedgerCreateDrug.
  - by apply grows_LedgerCreateShipment.
  - by apply grows_LedgerUpdateDrugStatus.
  - by apply grows_LedgerUpdateShipmentStatus.
  - by apply grows_LedgerRevertDrug.
  - by apply grows_LedgerVerifyDrug.
  - by apply grows_AddTransactionToBlockchain.
  - by apply grows_quiet; [apply quiet_RunConsistencyCheck|].
  - by apply grows_performSync.
  - by apply grows_submit.
Qed.

Lemma run_op_manufacturers (op : Op) w :
  named w →
  named (run_op BodyParser op w) ∧ manufacturers_grow w (run_op BodyParser op w).
Proof.
  intros Hnamed. destruct (reconciles op) eqn:Hop.
  - destruct op; try discriminate Hop; cbn [run_op]; unfold after.
    + by apply grows_manufacturers_SyncManufacturerLedger.
    + by apply grows_manufacturers_SyncAllLedgers.
  - destruct (run_op_grows op w Hnamed Hop) as [Hn [Hg _]]. by split.
Qed.

(** C8, amended: along every sequence of operations, each record of a
    manufacturer ledger keeps its place and its id, and its history only
    grows: the history it had is a prefix of the history it has.  The same
    holds of the records of the common ledger along every sequence of
    operations that does not reconcile ([SyncManufacturerLedger],
    [SyncAllLedgers]). *)
Theorem C8_histories_only_grow (ops : list Op) w :
  named w →
  manufacturers_grow w (run_ops BodyParser ops w) ∧
  (Forall (λ op, reconciles op = false) ops → ledgers_grow w (run_ops BodyParser ops w)).
Proof.
  revert w. induction ops as [|op ops IH]; intros w Hnamed; cbn.
  - split; [apply manufacturers_grow_preorder|reflexivity].
  - destruct (run_op_manufacturers op w Hnamed) as [Hn1 Hg1].
    destruct (IH _ Hn1) as [Hm Hall]. split.
    + by eapply manufacturers_grow_preorder.
    + intros Hops. apply Forall_cons in Hops as [Hop Hops].
      destruct (run_op_grows op w Hnamed Hop) as [_ Hg]. etrans; [exact Hg|by apply Hall].
Qed.

End Histories.

(** The claim C8 fails.  [UpdateDrugStatus] appends an entry to the history of
    drug D1 in the ledger of M1 and, with a later clock reading, in the common
    ledger; [SyncManufacturerLedger] then replaces the common record by the
    manufacturer's, and the timestamp of the entry in the common ledger
    changes.  And after an [UpdateDrugStatus] under manufacturer M2, whose
    ledger does not hold D1, the reconciliation of M1 shortens the common
    history of D1 from two entries to one. *)
Lemma C8_counterexample :
  let history (w : World MemStore.Tables) :=
    cd_History <$> (CommonLedgerFile w ≫= λ cl, cl_Drugs cl !! 0%nat) in
  let w1 :=
    run_op Example.insert_parser (LedgerUpdateDrugStatus "M1" "D1" "shipped" "")
           Example.stale_world in
  let w2 := run_op Example.insert_parser (LedgerSync "M1") w1 in
  let v1 :=
    run_op Example.insert_parser (LedgerUpdateDrugStatus "M2" "D1" "recalled" "")
           Example.stale_world in
  let v2 := run_op Example.insert_parser (LedgerSync "M1") v1 in
  history w1 = Some [ mkStatus "created" "2023-12-31T10:00:00Z" "Drug created";
                      mkStatus "shipped" "2024-01-01T00:00:01Z" "" ] ∧
  history w2 = Some [ mkStatus "created" "2023-12-31T10:00:00Z" "Drug created";
                      mkStatus "shipped" "2024-01-01T00:00:00Z" "" ] ∧
  length <$> history v1 = Some 2%nat ∧
  length <$> history v2 = Some 1%nat ∧
  ¬ common_grows w1 w2 ∧ ¬ common_grows v1 v2.
Proof.
  cbv zeta. split_and!; try (vm_compute; reflexivity).
  - intros Hgrow. destruct (Hgrow _ eq_refl) as (cl' & Hcl' & Hdrugs & _).
    vm_compute in Hcl'. injection Hcl' as <-.
    destruct (Hdrugs 0%nat _ eq_refl) as (r' & Hr' & _ & k & Hk).
    vm_compute in Hr'. injection Hr' as <-. vm_compute in Hk. discriminate Hk.
  - intros Hgrow. destruct (Hgrow _ eq_refl) as (cl' & Hcl' & Hdrugs & _).
    vm_compute in Hcl'. injection Hcl' as <-.
    destruct (Hdrugs 0%nat _ eq_refl) as (r' & Hr' & _ & k & Hk).
    vm_compute in Hr'. injection Hr' as <-. vm_compute in Hk. discriminate Hk.
Qed.

(** ** A cycle of the sync service *)

#[global] Arguments requests_since : simpl never.

Section Copy.

Lemma get_absent k (m : Data) : k ∉ map fst m → Json.get k m = None.
Proof.
  induction m as [|[k0 v0] m IH]; simpl; [done|].
  intros Hk. apply not_elem_of_cons in Hk as [Hne Hk].
  apply String.eqb_neq in Hne. rewrite Hne. by apply IH.
Qed.

Lemma get_fold_set k (m acc : Data) :
  NoDup (map fst m) →
  Json.get k (fold_left (λ dst kv, Json.set kv.1 kv.2 dst) m acc)
  = match Json.get k m with Some v => Some v | None => Json.get k acc end.
Proof.
  revert acc. induction m as [|[k0 v0] m IH]; intros acc Hm; simpl; [done|].
  apply NoDup_cons in Hm as [Hk0 Hm]. rewrite IH by done.
  destruct (String.eqb k k0) eqn:E.
  - apply String.eqb_eq in E as ->. rewrite get_absent by done. apply get_set_eq.
  - apply String.eqb_neq in E. by rewrite get_set_ne.
Qed.

(** The copy of a row has the columns of the row. *)
Lemma get_copy k (m : Data) : is_row m → Json.get k (Json.copy m) = Json.get k m.
Proof.
  intros Hm. unfold Json.copy. rewrite get_fold_set by done. by destruct (Json.get k m).
Qed.

Lemma get_string_copy k (m : Data) :
  is_row m → Json.get_string k (Json.copy m) = Json.get_string k m.
Proof. intros Hm. unfold Json.get_string. by rewrite get_copy. Qed.

(** Without the empty string as an id, the rows a cycle takes up are the rows
    without a recorded id. *)
Lemma skipped_unrecorded (record : Data) :
  Json.get_string "blockchain_tx_id" record ≠ Some "" →
  SyncService.skipped record = negb (unrecorded record).
Proof.
  unfold SyncService.skipped, unrecorded.
  destruct (Json.get_string "blockchain_tx_id" record) as [txID|]; [|done].
  intros Hne. destruct (String.eqb txID "") eqn:E; [|done].
  apply String.eqb_eq in E as ->. done.
Qed.

End Copy.

Section Pull.
Context {Store : Type} `{!Backend Store}.
Implicit Types w : World Store.

(** The body of the loop, for a row of the table of the drugs. *)
Lemma pull_record_drugs (record : Data) (drugID : string) w :
  Json.get_string "drug_id" (Json.copy record) = Some drugID →
  let r := SyncService.pull_record "drugs" record w in
  r.1 = Ok tt ∧
  ∃ b new ts,
    chain r.2 = chain w ++ [b] ∧ trace r.2 = new ++ trace w ∧
    b_TxData b =
      JObj (Json.set "tx_hash" (JStr (b_TxHash b))
              (Json.set "timestamp" (JStr ts)
                 (Json.set "tx_type" (JStr "drug") (Json.copy record)))) ∧
    Exists (hash_written drugID (b_TxHash b)) new ∧
    Forall (λ e, rq_table e.1 = "blockchain_ledger" ∨ hash_written drugID (b_TxHash b) e) new.
Proof.
  intros Hid r. subst r.
  unfold SyncService.pull_record, BlockchainService.CreateTransaction.
  destruct w as [clk tk uu dr bc mf cf fl th pt sm ls st tr].
  run. add_block. rewrite Hid. run. answer.
  all: split; [reflexivity|].
  all: eexists _, (_ :: _), _;
    split; [reflexivity|]; split; [reflexivity|]; split; [reflexivity|].
  all: split; [by apply Exists_cons_hd|].
  all: apply Forall_cons; split; [by right|].
  all: eapply Forall_impl; [eassumption|].
  all: intros rq [Ht | [(d' & Hd & Hrq) | (s' & Hd & _)]]; [by left| |].
  all: rewrite !get_string_set_ne in Hd by discriminate.
  all: try congruence.
  all: right; unfold hash_written; cbn [b_TxHash]; congruence.
Qed.

Lemma cycle_request_more pending record e :
  cycle_request pending e → cycle_request (record :: pending) e.
Proof.
  intros [Hs | [Ht | (r & d & h & Hr & Hd & Hw)]]; [by left|by right; left|].
  right; right. exists r, d, h. split_and!; [by right|done|done].
Qed.

(** The loop over the rows of the table of the drugs. *)
Lemma pull_records_drugs (records : list Data) (n : Z) w :
  Forall is_row records →
  Forall (λ record, Json.get_string "blockchain_tx_id" record ≠ Some "") records →
  Forall (λ record, is_Some (Json.get_string "drug_id" record))
         (List.filter unrecorded records) →
  let r := SyncService.pull_records "drugs" records n w in
  ∃ count blocks new,
    r.1 = Ok count ∧ chain r.2 = chain w ++ blocks ∧ trace r.2 = new ++ trace w ∧
    Forall2 (pulled new) (List.filter unrecorded records) blocks ∧
    Forall (cycle_request (List.filter unrecorded records)) new.
Proof.
  revert n w. induction records as [|record records IH]; intros n w Hrows Hids Hdrugs;
    cbv zeta; cbn [SyncService.pull_records List.filter].
  - exists n, [], []. rewrite app_nil_r. by split_and!.
  - apply Forall_cons in Hrows as [Hrow Hrows]. apply Forall_cons in Hids as [Hid Hids].
    rewrite (skipped_unrecorded _ Hid). cbn in Hdrugs.
    destruct (unrecorded record) eqn:Hun; cbn [negb].
    + apply Forall_cons in Hdrugs as [[drugID Hdrug] Hdrugs].
      rewrite run_bind.
      destruct (pull_record_drugs record drugID w) as (Hr & b & new & ts & Hchain & Htrace
                                                       & Hdata & Hwritten & Hnew).
      { by rewrite get_string_copy. }
      destruct (SyncService.pull_record "drugs" record w) as [r1 w1].
      cbn [fst snd] in *. subst r1. cbv beta iota.
      destruct (IH (int_add n 1) w1 Hrows Hids Hdrugs)
        as (count & blocks & new' & Hr' & Hchain' & Htrace' & Hpulled & Hnew').
      exists count, (b :: blocks), (new' ++ new). split_and!.
      * exact Hr'.
      * rewrite Hchain', Hchain, <- app_assoc. reflexivity.
      * rewrite Htrace', Htrace, app_assoc. reflexivity.
      * constructor.
        -- exists ts, drugID. split_and!; [done|done|]. apply Exists_app. by right.
        -- eapply Forall2_impl; [exact Hpulled|]. intros r0 b0 (ts0 & d0 & ? & ? & Hex).
           exists ts0, d0. split_and!; [done|done|]. apply Exists_app. by left.
      * apply Forall_app. split.
        -- eapply Forall_impl; [exact Hnew'|]. intros e. apply cycle_request_more.
        -- eapply Forall_impl; [exact Hnew|]. intros e [Ht | Hw]; [by right; left|].
           right; right. exists record, drugID, (b_TxHash b). split_and!; [by left|done|done].
    + apply (IH n w Hrows Hids Hdrugs).
Qed.

(** The loop over the rows of another table counts them and does nothing
    else. *)
Lemma pull_records_other (table : string) (records : list Data) (n : Z) w :
  table ≠ "drugs" →
  ∃ count, SyncService.pull_records table records n w = (Ok count, w).
Proof.
  intros Hne. apply String.eqb_neq in Hne. revert n.
  induction records as [|record records IH]; intros n; cbn; [by exists n|].
  destruct (SyncService.skipped record); [apply IH|].
  unfold SyncService.pull_record. rewrite Hne. run. apply IH.
Qed.

(** C5, amended: in a cycle of the sync service, let the store return the
    rows [records] of the table of the drugs, none with the empty string as
    its chain-transaction id.  The cycle appends to the chain one block for
    each row without a recorded id (none, or "pending"), in the order of the
    rows: the block carries the columns of the row as a transaction of type
    [drug], and a request of the cycle writes the hash of the block back to
    the row.  Nothing else is appended: the rows with a recorded id, and all
    the rows of the table of the shipments, get no transaction, and every
    request of the cycle is the request for the rows of a table, a request on
    the table of the chain, or the write-back for a row without a recorded
    id. *)
Theorem C5_sync_cycle (records : list Data) (s : Store) w :
  Execute (select_all "drugs") (store w) = (Rows records, s) →
  Forall is_row records →
  Forall (λ record, Json.get_string "blockchain_tx_id" record ≠ Some "") records →
  Forall (λ record, is_Some (Json.get_string "drug_id" record))
         (List.filter unrecorded records) →
  let r := SyncService.performSync w in
  let pending := List.filter unrecorded records in
  r.1 = Ok tt ∧
  ∃ blocks,
    chain r.2 = chain w ++ blocks ∧
    Forall2 (pulled (requests_since w r.2)) pending blocks ∧
    Forall (cycle_request pending) (requests_since w r.2).
Proof.
  intros Hsel Hrows Hids Hdrugs r pending. subst r pending.
  unfold SyncService.performSync, SyncService.syncTable, SyncService.logSyncStatus,
    SyncService.pullChangesFromSupabase, SyncService.pushChangesToSupabase,
    DataStorage.WriteFile, SyncService.tables, select_all in *.
  destruct w as [clk tk uu dr bc mf cf fl th pt sm ls st tr]. cbn [store] in Hsel.
  cbn [for_each]. run. rewrite Hsel. run.
  match goal with
  | |- context [SyncService.pull_records "drugs" records ?n ?w1] =>
      pose proof (pull_records_drugs records n w1 Hrows Hids Hdrugs) as Hpull;
      cbv zeta in Hpull;
      destruct Hpull as (count & blocks & new & Hr & Hchain & Htrace & Hpulled & Hnew);
      destruct (SyncService.pull_records "drugs" records n w1) as [r1 w2]
  end.
  cbn [fst snd] in Hr, Hchain, Htrace. subst r1.
  destruct w2 as [clk2 tk2 uu2 dr2 bc2 mf2 cf2 fl2 th2 pt2 sm2 ls2 st2 tr2].
  unfold chain in *. cbn [BlockchainFile trace] in Hchain, Htrace. subst tr2. run. answer.
  1: match goal with
     | |- context [SyncService.pull_records "shipments" ?rs ?n ?w3] =>
         destruct (pull_records_other "shipments" rs n w3) as [count' ->]; [done|]
     end; run.
  all: split; [reflexivity|].
  all: exists blocks; split; [exact Hchain|].
  all: match goal with
       | |- context [requests_since ?w ?w'] =>
           rewrite (requests_since_app w w' (_ :: new ++ [_]))
             by (cbn [trace app]; rewrite <- app_assoc; reflexivity)
       end.
  all: split.
  all: try (eapply Forall2_impl; [exact Hpulled|];
            intros r0 b0 (ts0 & d0 & ? & ? & Hex); exists ts0, d0;
            split_and!; [done|done|]; apply Exists_cons_tl, Exists_app; by left).
  all: apply Forall_cons; split; [left; by eexists|].
  all: apply Forall_app; split; [exact Hnew|].
  all: apply Forall_cons; split; [left; by eexists|constructor].
Qed.

End Pull.

(** The claim C5 fails: the row of shipment S1 waits with the id "pending";
    the cycle appends the one block of drug D1 and leaves the row of the
    shipment as it was. *)
Lemma C5_counterexample :
  let w := Example.sync_world in
  let r := SyncService.performSync w in
  store w !! "shipments" = Some [Example.waiting_shipment] ∧
  Json.get_string "blockchain_tx_id" Example.waiting_shipment = Some "pending" ∧
  r.1 = Ok tt ∧
  map (tx_field "drug_id") (chain r.2) = [Some "D1"] ∧
  map (tx_field "shipment_id") (chain r.2) = [None] ∧
  store r.2 !! "shipments" = Some [Example.waiting_shipment].
Proof. cbv zeta. split_and!; vm_compute; reflexivity. Qed.


(** ** Webhook requests submitted twice *)

Section Replay.
Context {Store : Type} `{!Backend Store}.
Context (BodyParser : string → Res WebhookHandler.WebhookPayload).
Implicit Types w : World Store.

Lemma accepted_dispatch wh c :
  accepted wh c →
  WebhookHandler.HandleWebhook BodyParser wh c = WebhookHandler.dispatch BodyParser c.
Proof.
  unfold accepted, WebhookHandler.HandleWebhook, WebhookHandler.verifySignature.
  intros [-> | [Hne Heq]]; [done|].
  apply String.eqb_neq in Hne. rewrite Hne. apply String.eqb_eq in Heq. rewrite Heq.
  by rewrite andb_false_r.
Qed.

(** A record that carries a chain-transaction id, at a tracker that does not
    know the id: a snapshot is written and the id is marked. *)
Lemma processRecord_first table key record recordID txID w :
  webhook_key table = Some key →
  Json.get_string key record = Some recordID → recordID ≠ "" →
  Json.get_string "blockchain_tx_id" record = Some txID → txID ≠ "" → txID ≠ "pending" →
  txID ∉ ProcessedTxs w →
  let r := WebhookHandler.processRecord table record w in
  let record' := Json.set "blockchain_tx_id" (JStr txID) record in
  r.1 = Ok (record', None) ∧
  Files r.2 = <[snapshot_path table recordID (clock w (ticks w)) := JObj record']> (Files w) ∧
  ProcessedTxs r.2 = {[txID]} ∪ ProcessedTxs w ∧
  chain r.2 = chain w ∧ trace r.2 = trace w ∧
  ManufacturerLedgerFiles r.2 = ManufacturerLedgerFiles w ∧
  CommonLedgerFile r.2 = CommonLedgerFile w.
Proof.
  intros Hkey Hid Hne Htx Hne1 Hne2 Hnew r record'. subst r record'.
  unfold WebhookHandler.processRecord, WebhookHandler.resolve, SyncService.existing_tx,
    SyncService.finalized, TransactionTracker.IsTransactionProcessed,
    TransactionTracker.MarkTransactionProcessed, TransactionTracker.saveProcessedTxs,
    DataStorage.WriteFile, webhook_key in *.
  apply String.eqb_neq in Hne, Hne1, Hne2.
  destruct w as [clk tk uu dr bc mf cf fl th pt sm ls st tr]. cbn [ProcessedTxs] in Hnew.
  destruct (String.eqb table "drugs") eqn:Ht;
    [|destruct (String.eqb table "shipments") eqn:Ht'; [|done]].
  all: injection Hkey as <-; rewrite Hid, Htx, Hne1, Hne2; run.
  all: rewrite ?Hne, ?Hne1; run.
  all: rewrite bool_decide_eq_false_2 by done; run.
  all: rewrite ?Hne1; run.
  all: done.
Qed.

(** The same record at a tracker that knows the id: nothing is done. *)
Lemma processRecord_again table key record recordID txID w :
  webhook_key table = Some key →
  Json.get_string key record = Some recordID → recordID ≠ "" →
  Json.get_string "blockchain_tx_id" record = Some txID → txID ≠ "" → txID ≠ "pending" →
  txID ∈ ProcessedTxs w →
  WebhookHandler.processRecord table record w = (Ok (record, None), w).
Proof.
  intros Hkey Hid Hne Htx Hne1 Hne2 Hold.
  unfold WebhookHandler.processRecord, WebhookHandler.resolve, SyncService.existing_tx,
    SyncService.finalized, TransactionTracker.IsTransactionProcessed, webhook_key in *.
  apply String.eqb_neq in Hne, Hne1, Hne2.
  destruct (String.eqb table "drugs") eqn:Ht;
    [|destruct (String.eqb table "shipments") eqn:Ht'; [|done]].
  all: injection Hkey as <-; rewrite Hid, Htx, Hne1, Hne2; run.
  all: rewrite ?Hne, ?Hne1; run.
  all: by rewrite bool_decide_eq_true_2 by done.
Qed.

(** An INSERT whose first attempt succeeds. *)
Lemma submit_insert wh c payload record' w :
  accepted wh c → (0 < WebhookHandler.MaxRetries wh)%Z →
  BodyParser (WebhookHandler.Body c) = Ok payload →
  WebhookHandler.wp_Type payload = "INSERT" →
  (WebhookHandler.processRecord (WebhookHandler.wp_Table payload)
     (WebhookHandler.wp_Record payload) w).1 = Ok (record', None) →
  (WebhookHandler.submit BodyParser wh c w).2
  = (WebhookHandler.processRecord (WebhookHandler.wp_Table payload)
       (WebhookHandler.wp_Record payload) w).2.
Proof.
  intros Hacc Hretries Hparse Htype Hfirst.
  unfold WebhookHandler.submit. rewrite (accepted_dispatch _ _ Hacc).
  unfold WebhookHandler.dispatch. rewrite Hparse, Htype, String.eqb_refl.
  cbn [orb for_each WebhookHandler.run_task].
  unfold WebhookHandler.processRecordWithRetry.
  destruct (Z.to_nat (WebhookHandler.MaxRetries wh)) as [|n] eqn:Hn; [lia|].
  cbn [WebhookHandler.record_attempts]. rewrite !run_bind.
  destruct (WebhookHandler.processRecord _ _ w) as [[[record0 err]|e|p] w1];
    cbn [fst snd] in *; simplify_eq. reflexivity.
Qed.

(** C3, amended: an INSERT payload for a record that carries its primary key
    and a chain-transaction id, neither empty nor "pending", which the
    tracker does not hold yet, is submitted twice.  The first submission
    persists one snapshot of the record and marks the id; the second is
    skipped and leaves everything as it was.  Neither creates a chain
    transaction: the one the record names stands for the change. *)
Theorem C3_replay_is_skipped wh c payload key recordID txID w :
  accepted wh c → (0 < WebhookHandler.MaxRetries wh)%Z →
  BodyParser (WebhookHandler.Body c) = Ok payload →
  WebhookHandler.wp_Type payload = "INSERT" →
  let table := WebhookHandler.wp_Table payload in
  let record := WebhookHandler.wp_Record payload in
  webhook_key table = Some key →
  Json.get_string key record = Some recordID → recordID ≠ "" →
  Json.get_string "blockchain_tx_id" record = Some txID → txID ≠ "" → txID ≠ "pending" →
  txID ∉ ProcessedTxs w →
  let w1 := (WebhookHandler.submit BodyParser wh c w).2 in
  let w2 := (WebhookHandler.submit BodyParser wh c w1).2 in
  Files w1 = <[snapshot_path table recordID (clock w (ticks w)) :=
                 JObj (Json.set "blockchain_tx_id" (JStr txID) record)]> (Files w) ∧
  ProcessedTxs w1 = {[txID]} ∪ ProcessedTxs w ∧
  chain w1 = chain w ∧ trace w1 = trace w ∧
  w2 = w1.
Proof.
  intros Hacc Hretries Hparse Htype table record Hkey Hid Hne Htx Hne1 Hne2 Hnew w1 w2.
  subst table record.
  destruct (processRecord_first _ key _ recordID txID w Hkey Hid Hne Htx Hne1 Hne2 Hnew)
    as (Hr & Hfiles & Hmarked & Hchain & Htrace & _).
  assert (H1 : w1 = (WebhookHandler.processRecord (WebhookHandler.wp_Table payload)
                       (WebhookHandler.wp_Record payload) w).2)
    by (eapply submit_insert; eassumption).
  assert (Hold : txID ∈ ProcessedTxs w1).
  { rewrite H1, Hmarked. apply elem_of_union_l. by apply elem_of_singleton. }
  pose proof (processRecord_again _ key _ recordID txID w1 Hkey Hid Hne Htx Hne1 Hne2 Hold)
    as Hagain.
  split_and!; try (rewrite H1; assumption).
  subst w2.
  rewrite (submit_insert wh c payload (WebhookHandler.wp_Record payload) w1
             Hacc Hretries Hparse Htype)
    by (by rewrite Hagain).
  by rewrite Hagain.
Qed.

End Replay.

(** The claim C3 fails: the INSERT of a drug that carries no chain-transaction
    id is submitted twice; each submission appends a block to the chain and
    writes a snapshot of the record, and the tracker ends with two hashes. *)
Lemma C3_counterexample :
  let submit :=
    WebhookHandler.submit (Example.insert_of Example.new_drug) Example.open Example.request in
  let w1 := (submit Example.world0).2 in
  let w2 := (submit w1).2 in
  length (chain w1) = 1%nat ∧ length (chain w2) = 2%nat ∧
  is_Some (Files w2 !! "data_records/drugs_D1_20240101-000009.json") ∧
  is_Some (Files w2 !! "data_records/drugs_D1_20240101-000018.json") ∧
  size (ProcessedTxs w2) = 2%nat.
Proof.
  cbv zeta. split_and!.
  - vm_compute. reflexivity.
  - vm_compute. reflexivity.
  - vm_compute. by eexists.
  - vm_compute. by eexists.
  - vm_compute. reflexivity.
Qed.


(** * Further properties of the code *)

(** ** The consistency check *)

Section Check.
Context {Store : Type} `{!Backend Store}.
Implicit Types w : World Store.

Lemma linked_cons p b rest :
  linked (p :: b :: rest) ↔
  (b_BlockHeight b = int_add (b_BlockHeight p) 1 ∧ b_PreviousBlockHash b = b_TxHash p) ∧
  linked (b :: rest).
Proof.
  split.
  - intros H. split; [by apply (H 0%nat)|].
    intros i x y Hx Hy. by apply (H (S i)).
  - intros [H0 H] [|i] x y Hx Hy; simplify_eq/=; [done|]. by apply (H i).
Qed.

Lemma linked_one p : linked [p].
Proof. intros [|i] x y Hx Hy; simplify_eq/=. Qed.

(** The loop answers [true] exactly on the linked chains. *)
Lemma check_sequence_ok_linked i previousBlock rest :
  DataStorage.check_sequence i previousBlock rest = Ok true ↔ linked (previousBlock :: rest).
Proof.
  revert i previousBlock. induction rest as [|b rest IH]; intros i p; simpl.
  - split; [intros _; apply linked_one|done].
  - rewrite linked_cons.
    destruct (b_BlockHeight b =? int_add (b_BlockHeight p) 1)%Z eqn:Hh; simpl.
    + apply Z.eqb_eq in Hh.
      destruct (String.eqb (b_PreviousBlockHash b) (b_TxHash p)) eqn:Hp; simpl.
      * apply String.eqb_eq in Hp. rewrite IH. split; [by intros Hl|by intros [_ Hl]].
      * apply String.eqb_neq in Hp. split; [done|]. by intros [[_ Hp'] _].
    + apply Z.eqb_neq in Hh. split; [done|]. by intros [[Hh' _] _].
Qed.

Lemma check_sequence_never_false i previousBlock rest :
  DataStorage.check_sequence i previousBlock rest ≠ Ok false ∧
  ∀ p, DataStorage.check_sequence i previousBlock rest ≠ Panic p.
Proof.
  revert i previousBlock. induction rest as [|b rest IH]; intros i p; simpl; [done|].
  destruct (negb _); [done|]. destruct (negb _); [done|]. apply IH.
Qed.

Lemma checkConsistency_run w :
  (DataStorage.checkConsistency w).1
  = match chain w with
    | [] => Ok true
    | first :: rest => DataStorage.check_sequence 1 first rest
    end.
Proof.
  unfold DataStorage.checkConsistency, DataStorage.GetBlockchainLedger,
    DataStorage.EnsureBlockchainLedgerExists, chain.
  destruct w as [clk tk uu dr bc mf cf fl th pt sm ls st tr].
  destruct bc as [ledger|]; run; [|done].
  by destruct (bl_Blocks ledger) as [|first rest].
Qed.

Lemma checkConsistency_links w :
  let r := (DataStorage.checkConsistency w).1 in
  (r = Ok true ↔ linked (chain w)) ∧
  (¬ linked (chain w) → ∃ e, r = Err e) ∧
  r ≠ Ok false.
Proof.
  cbv zeta. rewrite checkConsistency_run.
  destruct (chain w) as [|first rest].
  - split_and!; [|intros Hn|done].
    + split; [|done]. intros _ i p b Hp. by rewrite lookup_nil in Hp.
    + destruct Hn. intros i p b Hp. by rewrite lookup_nil in Hp.
  - pose proof (check_sequence_ok_linked 1 first rest) as Hiff.
    destruct (check_sequence_never_false 1 first rest) as [Hf Hp].
    split_and!; [done| |done].
    intros Hn. destruct (DataStorage.check_sequence 1 first rest) as [[|]|e|p] eqn:E.
    + destruct Hn. by apply Hiff.
    + done.
    + by exists e.
    + by destruct (Hp p).
Qed.

(** X1: [checkConsistency] returns [true] exactly on the chains in which every
    block but the first is one higher than its predecessor and refers to its
    hash; on every other chain it returns an error, never [false].  It reads
    neither the data nor the timestamps of the blocks, nor the height and the
    previous hash of the first block. *)
Theorem X1_checkConsistency_decides_links w :
  let r := (DataStorage.checkConsistency w).1 in
  (r = Ok true ↔ linked (chain w)) ∧
  (¬ linked (chain w) → ∃ e, r = Err e) ∧
  r ≠ Ok false.
Proof. apply checkConsistency_links. Qed.

Lemma checkConsistency_no_panic w p : (DataStorage.checkConsistency w).1 ≠ Panic p.
Proof.
  rewrite checkConsistency_run. destruct (chain w) as [|first rest]; [done|].
  apply check_sequence_never_false.
Qed.

(** X2: [RunConsistencyCheck] always returns a report.  Its status is
    "failed" when the store does not answer the probe, whatever the chain;
    otherwise "consistent" on a linked chain and "error" on any other.  The
    status "inconsistent" is never reported. *)
Theorem X2_RunConsistencyCheck_statuses w :
  ∃ result,
    (DataStorage.RunConsistencyCheck w).1 = Ok result ∧
    (answered (Execute probe (store w)).1 = false →
       cc_Status result = "failed" ∧ cc_Error result = "Database connection failed") ∧
    (answered (Execute probe (store w)).1 = true →
       (linked (chain w) → cc_Status result = "consistent") ∧
       (¬ linked (chain w) → cc_Status result = "error")) ∧
    cc_Status result ≠ "inconsistent".
Proof.
  unfold DataStorage.RunConsistencyCheck, probe. run.
  destruct (Execute _ (store w)) as [[rows|e] s] eqn:Hprobe; run.
  - match goal with
    | |- context [DataStorage.checkConsistency ?w'] =>
        destruct (checkConsistency_links w') as (Hiff & Herr & Hfalse);
        pose proof (checkConsistency_no_panic w') as Hpanic;
        change (chain w') with (chain w) in Hiff, Herr;
        destruct (DataStorage.checkConsistency w') as [r w'']
    end.
    cbn [fst] in *. destruct r as [[|]|e|p]; run.
    + eexists. split; [reflexivity|]. split_and!; [done| |done].
      intros _. split; [done|]. intros Hn. destruct Hn. by apply Hiff.
    + done.
    + eexists. split; [reflexivity|]. split_and!; [done| |done].
      intros _. split; [|done]. intros Hl. apply Hiff in Hl. done.
    + by destruct (Hpanic p).
  - eexists. split; [reflexivity|]. split_and!; [done|done|done].
Qed.

End Check.

(** ** Transactions written and read back *)

Section ReadBack.
Context {Store : Type} `{!Backend Store}.
Implicit Types w : World Store.

Lemma find_first_app {A} (p : A → bool) (l l' : list A) :
  find_first p (l ++ l') = match find_first p l with
                           | Some x => Some x
                           | None => find_first p l'
                           end.
Proof. induction l as [|x l IH]; simpl; [done|]. by destruct (p x). Qed.

(** What [CreateTransaction] appends: a block under the returned hash, whose
    data is the caller's map with the type, the timestamp and the hash. *)
Lemma CreateTransaction_run txType (data : Data) w :
  ∃ txHash ts blockTs b,
    (BlockchainService.CreateTransaction txType data w).1 = Ok txHash ∧
    chain (BlockchainService.CreateTransaction txType data w).2 = chain w ++ [b] ∧
    is_Some (BlockchainFile (BlockchainService.CreateTransaction txType data w).2) ∧
    b_TxHash b = txHash ∧ b_Timestamp b = blockTs ∧
    b_TxData b = JObj (Json.set "tx_hash" (JStr txHash)
                         (Json.set "timestamp" (JStr ts)
                            (Json.set "tx_type" (JStr txType) data))).
Proof.
  unfold BlockchainService.CreateTransaction.
  destruct w as [clk tk uu dr bc mf cf fl th pt sm ls st tr].
  run. add_block.
  eexists _, _, _, _. split_and!; try reflexivity. by eexists.
Qed.

Lemma GetTransaction_run txID w :
  (BlockchainService.GetTransaction txID w).1
  = match on_chain txID w with
    | Some block =>
        match b_TxData block with
        | JObj txData =>
            Ok (mkBlockchainTransaction (b_TxHash block)
                  (default "" (Json.get_string "tx_type" txData)) txData (b_Timestamp block))
        | _ => Err "invalid transaction data format"
        end
    | None => Err ("transaction not found: " +:+ txID)
    end.
Proof.
  unfold BlockchainService.GetTransaction, DataStorage.GetBlockchainLedger,
    DataStorage.EnsureBlockchainLedgerExists, on_chain, chain.
  destruct w as [clk tk uu dr bc mf cf fl th pt sm ls st tr].
  destruct bc as [ledger|]; run; [|done].
  destruct (find_first _ (bl_Blocks ledger)) as [block|]; run; [|done].
  by destruct (b_TxData block).
Qed.

(** X3: [CreateTransaction] never fails, whatever the store answers, and
    returns the hash of the block it appended.  Unless an earlier block
    already carries that hash, [GetTransaction] of the returned hash then
    returns the transaction: its id is the hash, its type the type given, and
    its data the caller's map with [tx_type], [timestamp] and [tx_hash] set.
    An id that no block carries is reported as not found. *)
Theorem X3_transaction_read_back txType (data : Data) w :
  let r := BlockchainService.CreateTransaction txType data w in
  (∃ txHash,
     r.1 = Ok txHash ∧
     (on_chain txHash w = None →
      ∃ tx, (BlockchainService.GetTransaction txHash r.2).1 = Ok tx ∧
            bt_TransactionID tx = txHash ∧ bt_Type tx = txType ∧
            Json.get_string "tx_hash" (bt_Data tx) = Some txHash ∧
            ∀ k, k ≠ "tx_type" → k ≠ "timestamp" → k ≠ "tx_hash" →
                 Json.get k (bt_Data tx) = Json.get k data)) ∧
  (∀ txID, on_chain txID r.2 = None →
     (BlockchainService.GetTransaction txID r.2).1 = Err ("transaction not found: " +:+ txID)).
Proof.
  cbv zeta. split.
  - destruct (CreateTransaction_run txType data w)
      as (txHash & ts & blockTs & b & Hr & Hchain & _ & Hhash & _ & Hdata).
    exists txHash. split; [exact Hr|]. intros Hnew.
    rewrite GetTransaction_run. unfold on_chain in *.
    rewrite Hchain, find_first_app, Hnew. cbn [find_first].
    rewrite Hhash, String.eqb_refl, Hdata.
    eexists. split; [reflexivity|]. cbn [bt_TransactionID bt_Type bt_Data].
    split_and!.
    + exact Hhash.
    + rewrite get_string_set_ne, get_string_set_ne by discriminate.
      unfold Json.get_string. by rewrite get_set_eq.
    + unfold Json.get_string. by rewrite get_set_eq.
    + intros k H1 H2 H3. by rewrite !get_set_ne.
  - intros txID Hnone. by rewrite GetTransaction_run, Hnone.
Qed.

End ReadBack.

(** ** The tracker of processed transactions *)

Section Tracker.
Context {Store : Type} `{!Backend Store}.
Implicit Types w : World Store.

Lemma NewTransactionTracker_run w :
  TransactionTracker.NewTransactionTracker w
  = (Ok tt, set_ProcessedTxs (∅ ∪ TxHashFile w) (set_ProcessedTxs ∅ w)).
Proof. reflexivity. Qed.

Lemma MarkTransactionProcessed_run txHash w :
  (TransactionTracker.MarkTransactionProcessed txHash w).1 = Ok tt ∧
  ProcessedTxs (TransactionTracker.MarkTransactionProcessed txHash w).2
    = {[txHash]} ∪ ProcessedTxs w ∧
  TxHashFile (TransactionTracker.MarkTransactionProcessed txHash w).2
    = {[txHash]} ∪ ProcessedTxs w.
Proof. done. Qed.

(** After any marks, the file holds the hashes of the map. *)
Lemma marks_run (hashes : list string) w :
  let r := for_each TransactionTracker.MarkTransactionProcessed hashes w in
  r.1 = Ok tt ∧
  ProcessedTxs r.2 = list_to_set hashes ∪ ProcessedTxs w ∧
  (ProcessedTxs w = TxHashFile w → TxHashFile r.2 = ProcessedTxs r.2).
Proof.
  revert w. induction hashes as [|h hashes IH]; intros w; cbn [for_each list_to_set].
  - cbn. split_and!; [done| |by intros ->]. by rewrite (left_id_L ∅ (∪)).
  - cbv zeta. rewrite run_bind.
    destruct (MarkTransactionProcessed_run h w) as (Hr & Hp & Hf).
    destruct (TransactionTracker.MarkTransactionProcessed h w) as [r1 w1].
    cbn [fst snd] in *. subst r1.
    destruct (IH w1) as (Hr' & Hp' & Hf'). split_and!; [done| |].
    + rewrite Hp', Hp. rewrite (assoc_L (∪)). f_equal. apply (comm_L (∪)).
    + intros _. apply Hf'. by rewrite Hp, Hf.
Qed.

(** X4: the tracker is durable.  A tracker started on a file, with any hashes
    marked afterwards, holds the hashes of the file and the marked ones; a
    tracker started again on the file it left holds exactly the same
    hashes. *)
Theorem X4_tracker_survives_restart (hashes : list string) w :
  let started := (TransactionTracker.NewTransactionTracker w).2 in
  let marked := (for_each TransactionTracker.MarkTransactionProcessed hashes started).2 in
  let restarted := (TransactionTracker.NewTransactionTracker marked).2 in
  ProcessedTxs marked = list_to_set hashes ∪ TxHashFile w ∧
  ProcessedTxs restarted = ProcessedTxs marked ∧
  ∀ h, (TransactionTracker.IsTransactionProcessed h restarted).1
       = Ok (bool_decide (h ∈ hashes ∨ h ∈ TxHashFile w)).
Proof.
  cbv zeta. rewrite (NewTransactionTracker_run w).
  match goal with
  | |- context [for_each _ hashes ?w0] =>
      pose proof (marks_run hashes w0) as Hmarks; cbv zeta in Hmarks;
      destruct Hmarks as (_ & Hp & Hf);
      destruct (for_each TransactionTracker.MarkTransactionProcessed hashes w0) as [r1 w1]
  end.
  cbn [snd ProcessedTxs set_ProcessedTxs TxHashFile] in Hp, Hf.
  rewrite (left_id_L ∅ (∪)) in Hp. specialize (Hf (left_id_L ∅ (∪) _)).
  cbn [snd]. rewrite (NewTransactionTracker_run w1). cbn [snd ProcessedTxs set_ProcessedTxs TxHashFile].
  rewrite (left_id_L ∅ (∪)), Hf. split_and!; [exact Hp|reflexivity|].
  intros h. unfold TransactionTracker.IsTransactionProcessed, gets.
  cbn [fst ProcessedTxs set_ProcessedTxs TxHashFile]. rewrite Hp. f_equal.
  apply bool_decide_ext. rewrite elem_of_union, elem_of_list_to_set. done.
Qed.

End Tracker.

(** ** The transactions of a drug *)

Section FirstMatch.
Context {A : Type} (p : A → bool).
Implicit Types l : list A.

Lemma find_first_split l x :
  find_first p l = Some x →
  ∃ pre post, l = pre ++ x :: post ∧ p x = true ∧ Forall (λ y, p y = false) pre.
Proof.
  induction l as [|y l IH]; simpl; [done|].
  destruct (p y) eqn:Hy.
  - intros [= ->]. by exists [], l.
  - intros H. destruct (IH H) as (pre & post & -> & Hx & Hpre).
    exists (y :: pre), post. split_and!; [done..|]. by constructor.
Qed.

Lemma find_first_None l : find_first p l = None ↔ Forall (λ y, p y = false) l.
Proof.
  induction l as [|y l IH]; simpl.
  - split; [constructor|done].
  - destruct (p y) eqn:Hy.
    + split; [done|]. intros H. apply Forall_cons in H as [H _]. congruence.
    + rewrite IH. split; [by constructor|]. intros H. by apply Forall_cons in H as [_ H].
Qed.

End FirstMatch.

Section DrugTransaction.
Import Blockchain.

Lemma absent_field (drugData : Data) field :
  negb (bool_decide (is_Some (Json.get field drugData))) = true ↔
  Json.get field drugData = None.
Proof.
  rewrite negb_true_iff, bool_decide_eq_false, <- eq_None_not_Some. done.
Qed.

Lemma present_field (drugData : Data) field :
  negb (bool_decide (is_Some (Json.get field drugData))) = false ↔
  present drugData field.
Proof. rewrite negb_false_iff, bool_decide_eq_true. done. Qed.

(** X5: [NewDrugTransaction] returns an error exactly when one of the six
    required fields is missing, and the error names the first missing one in
    the order of the list; with all of them present and a [drug_id] that is
    not a string it panics; otherwise the transaction carries the [drug_id]
    and a data map of exactly eight keys: the six fields (the manufacturer
    under [manufacturer_id]), the status [created] whatever status the caller
    gave, and [created_at]; every other key of the caller's map is dropped. *)
Theorem X5_NewDrugTransaction_fields (now1 now2 : Time) (drugData : Data) :
  match NewDrugTransaction now1 now2 drugData with
  | Err msg =>
      ∃ pre field post,
        requiredFields = pre ++ field :: post ∧
        Forall (present drugData) pre ∧
        Json.get field drugData = None ∧
        msg = "missing required field: " +:+ field
  | Panic _ =>
      Forall (present drugData) requiredFields ∧
      Json.get_string "drug_id" drugData = None
  | Ok tx =>
      let data := TxData (dt_Transaction tx) in
      Forall (present drugData) requiredFields ∧
      Json.get_string "drug_id" drugData = Some (dt_DrugID tx) ∧
      map fst data = ["drug_id"; "manufacturer_id"; "name"; "batch_number";
                      "manufacture_date"; "expiry_date"; "status"; "created_at"] ∧
      Json.get "manufacturer_id" data = Json.get "manufacturer" drugData ∧
      (∀ field, field ∈ requiredFields → field ≠ "manufacturer" →
                Json.get field data = Json.get field drugData) ∧
      Json.get "status" data = Some (JStr "created") ∧
      Json.get "created_at" data = Some (JStr (rfc3339 now1)) ∧
      PreviousHash (dt_Transaction tx) = "" ∧
      Timestamp (dt_Transaction tx) = rfc3339 now2
  end.
Proof.
  unfold NewDrugTransaction.
  destruct (find_first _ requiredFields) as [field|] eqn:Hfind.
  - apply find_first_split in Hfind as (pre & post & Hl & Hfield & Hpre).
    exists pre, field, post. split_and!; [done| | |done].
    + eapply Forall_impl; [exact Hpre|]. intros f Hf. by apply present_field.
    + by apply absent_field.
  - apply find_first_None in Hfind.
    assert (Forall (present drugData) requiredFields) as Hall.
    { eapply Forall_impl; [exact Hfind|]. intros f Hf. by apply present_field. }
    destruct (Json.get_string "drug_id" drugData) as [id|] eqn:Hid; [|done].
    cbv zeta. unfold NewTransaction, CalculateHash, index.
    cbn [dt_Transaction dt_DrugID TxData PreviousHash Timestamp].
    split; [exact Hall|].
    unfold requiredFields in Hall.
    repeat (let H := fresh "Hget" in
            apply Forall_cons in Hall as [[? H] Hall]; rewrite H).
    split_and!; try reflexivity.
    intros field Hin Hne. unfold requiredFields in Hin.
    repeat (apply elem_of_cons in Hin as [->|Hin]); try done;
      try (cbn; congruence).
    by apply elem_of_nil in Hin.
Qed.

End DrugTransaction.

(** ** Reading a ledger back *)

Section Keyed.
Context {A : Type} (key : A → string).
Implicit Types l : list A.

Lemma find_first_added l x id :
  existsb (λ y, String.eqb (key y) id) l = false → key x = id →
  find_first (λ y, String.eqb (key y) id) (l ++ [x]) = Some x.
Proof.
  intros H Hx. rewrite find_first_app.
  destruct (find_first _ l) eqn:Hf.
  - assert (is_Some (find_first (λ y, String.eqb (key y) id) l)) as Hs by (by rewrite Hf).
    apply find_first_existsb in Hs. congruence.
  - cbn. by rewrite Hx, String.eqb_refl.
Qed.

Lemma find_first_added_other l x id :
  key x ≠ id →
  find_first (λ y, String.eqb (key y) id) (l ++ [x])
  = find_first (λ y, String.eqb (key y) id) l.
Proof.
  intros H. rewrite find_first_app. destruct (find_first _ l); [done|].
  cbn. by apply String.eqb_neq in H as ->.
Qed.

Lemma find_first_updated l f id :
  (∀ x, key x = id → key (f x) = id) →
  find_first (λ y, String.eqb (key y) id) (update_first (λ y, String.eqb (key y) id) f l)
  = f <$> find_first (λ y, String.eqb (key y) id) l.
Proof.
  intros Hkey. induction l as [|x l IH]; [done|]. cbn.
  destruct (String.eqb (key x) id) eqn:Hx; cbn.
  - apply String.eqb_eq, Hkey in Hx. by rewrite Hx, String.eqb_refl.
  - by rewrite Hx.
Qed.

Lemma find_first_updated_other l f id id' :
  (∀ x, key x = id → key (f x) = id) → id' ≠ id →
  find_first (λ y, String.eqb (key y) id') (update_first (λ y, String.eqb (key y) id) f l)
  = find_first (λ y, String.eqb (key y) id') l.
Proof.
  intros Hkey Hne. induction l as [|x l IH]; [done|]. cbn.
  destruct (String.eqb (key x) id) eqn:Hx; cbn.
  - apply String.eqb_eq in Hx. pose proof (Hkey x Hx) as Hfx.
    assert (String.eqb (key (f x)) id' = false) as -> by (apply String.eqb_neq; congruence).
    assert (String.eqb (key x) id' = false) as -> by (apply String.eqb_neq; congruence).
    done.
  - by rewrite IH.
Qed.

End Keyed.

Section ReadLedgers.

Implicit Types ml : Models.ManufacturerLedger.
Implicit Types cl : Models.CommonLedger.

(** X6: the histories of a manufacturer ledger read back what was written.
    [GetDrugHistory] fails exactly for an id that no record has.  After an
    [AddDrugRecord] that succeeds the history of the new id is the one entry
    of its status; after an [UpdateDrugStatus] that succeeds the history of
    the id is the one before with one entry more; the history of every other
    id reads as before, and so do the shipments. *)
Theorem X6_manufacturer_history_read_back ml (now1 now2 now3 : Time)
    (id status details other : string) :
  (if bool_decide (id ∈ map d_DrugID (ml_Drugs ml))
   then ∃ history, ManufacturerLedger.GetDrugHistory id ml = Ok history
   else ManufacturerLedger.GetDrugHistory id ml
        = Err ("drug " +:+ id +:+ " not found in ledger")) ∧
  (let r := ManufacturerLedger.AddDrugRecord now1 now2 now3 id status ml in
   r.2 = None →
   ManufacturerLedger.GetDrugHistory id r.1 = Ok [mkStatus status (rfc3339 now2) ""] ∧
   (other ≠ id →
    ManufacturerLedger.GetDrugHistory other r.1 = ManufacturerLedger.GetDrugHistory other ml) ∧
   ManufacturerLedger.GetShipmentHistory other r.1
   = ManufacturerLedger.GetShipmentHistory other ml) ∧
  (let r := ManufacturerLedger.UpdateDrugStatus now1 now2 id status details ml in
   r.2 = None →
   (∃ history,
      ManufacturerLedger.GetDrugHistory id ml = Ok history ∧
      ManufacturerLedger.GetDrugHistory id r.1
      = Ok (history ++ [mkStatus status (rfc3339 now1) details])) ∧
   (other ≠ id →
    ManufacturerLedger.GetDrugHistory other r.1 = ManufacturerLedger.GetDrugHistory other ml) ∧
   ManufacturerLedger.GetShipmentHistory other r.1
   = ManufacturerLedger.GetShipmentHistory other ml).
Proof.
  split_and!.
  - unfold ManufacturerLedger.GetDrugHistory. case_bool_decide as Hin.
    + apply existsb_key, find_first_existsb in Hin as [d ->]. by eexists.
    + apply existsb_key_false in Hin.
      destruct (find_first _ (ml_Drugs ml)) eqn:Hf; [|done].
      assert (is_Some (find_first (λ drug, String.eqb (d_DrugID drug) id) (ml_Drugs ml)))
        as Hs by (by rewrite Hf).
      apply find_first_existsb in Hs. congruence.
  - cbv zeta. unfold ManufacturerLedger.AddDrugRecord.
    destruct (existsb _ (ml_Drugs ml)) eqn:Hex; [done|]. intros _.
    cbn [fst]. unfold ManufacturerLedger.GetDrugHistory, ManufacturerLedger.GetShipmentHistory.
    cbn [ml_Drugs ml_Shipments ml_set_drugs ml_set_last_updated].
    split_and!; [|intros Hne|done].
    + by rewrite (find_first_added d_DrugID _ _ id Hex).
    + by rewrite (find_first_added_other d_DrugID) by (cbn; congruence).
  - cbv zeta. unfold ManufacturerLedger.UpdateDrugStatus.
    destruct (existsb _ (ml_Drugs ml)) eqn:Hex; [|done]. intros _.
    cbn [fst]. unfold ManufacturerLedger.GetDrugHistory, ManufacturerLedger.GetShipmentHistory.
    cbn [ml_Drugs ml_Shipments ml_set_drugs ml_set_last_updated].
    split_and!; [|intros Hne|done].
    + rewrite (find_first_updated d_DrugID) by done.
      apply find_first_existsb in Hex as [d Hd]. rewrite Hd. cbn. by eexists.
    + by rewrite (find_first_updated_other d_DrugID) by done.
Qed.

(** X7: the verification hash of the common ledger is the one given when the
    drug was added, and no status update changes it.  [VerifyDrug] fails
    exactly for an id that no record has; after an [AddDrugRecord] that
    succeeds it answers whether the given hash is the recorded one, byte for
    byte; after an [UpdateDrugStatus], successful or not, it answers for
    every id and hash as before. *)
Theorem X7_verification_hash_is_kept cl (now1 now2 now3 : Time)
    (id manufacturerID status details hash : string) :
  (if bool_decide (id ∈ map cd_DrugID (cl_Drugs cl))
   then ∃ b, CommonLedger.VerifyDrug id hash cl = Ok b
   else CommonLedger.VerifyDrug id hash cl
        = Err ("drug " +:+ id +:+ " not found in common ledger")) ∧
  (let r := CommonLedger.AddDrugRecord now1 now2 now3 id manufacturerID status hash cl in
   r.2 = None →
   ∀ given, CommonLedger.VerifyDrug id given r.1 = Ok (bool_decide (hash = given))) ∧
  (let r := CommonLedger.UpdateDrugStatus now1 now2 id status details cl in
   ∀ other given,
     CommonLedger.VerifyDrug other given r.1 = CommonLedger.VerifyDrug other given cl).
Proof.
  split_and!.
  - unfold CommonLedger.VerifyDrug. case_bool_decide as Hin.
    + apply existsb_key, find_first_existsb in Hin as [d ->]. by eexists.
    + apply existsb_key_false in Hin.
      destruct (find_first _ (cl_Drugs cl)) eqn:Hf; [|done].
      assert (is_Some (find_first (λ drug, String.eqb (cd_DrugID drug) id) (cl_Drugs cl)))
        as Hs by (by rewrite Hf).
      apply find_first_existsb in Hs. congruence.
  - cbv zeta. unfold CommonLedger.AddDrugRecord.
    destruct (existsb _ (cl_Drugs cl)) eqn:Hex; [done|]. intros _ given.
    cbn [fst]. unfold CommonLedger.VerifyDrug.
    cbn [cl_Drugs cl_set_drugs cl_set_last_updated].
    rewrite (find_first_added cd_DrugID _ _ id Hex) by done. cbn.
    f_equal. apply eq_true_iff_eq. by rewrite String.eqb_eq, bool_decide_eq_true.
  - cbv zeta. intros other given. unfold CommonLedger.UpdateDrugStatus.
    destruct (existsb _ (cl_Drugs cl)) eqn:Hex; [|done].
    cbn [fst]. unfold CommonLedger.VerifyDrug.
    cbn [cl_Drugs cl_set_drugs cl_set_last_updated].
    destruct (decide (other = id)) as [->|Hne].
    + rewrite (find_first_updated cd_DrugID) by done.
      by destruct (find_first _ (cl_Drugs cl)).
    + by rewrite (find_first_updated_other cd_DrugID) by done.
Qed.

(** X8: the shipments of a distributor.  [GetDistributorShipments] gives the
    records of the distributor in the order of the ledger (none for a
    distributor without shipments).  An [AddShipmentRecord] that succeeds
    puts the new record last among the shipments of its distributor and
    leaves the answer for every other distributor as it was; an
    [UpdateShipmentStatus] moves no shipment between distributors: the
    shipment ids of every distributor are as before. *)
Theorem X8_distributor_shipments cl (now1 now2 now3 : Time)
    (id drugID manufacturerID distributorID status details asked : string) :
  (∀ s, s ∈ CommonLedger.GetDistributorShipments asked cl
        ↔ s ∈ cl_Shipments cl ∧ cs_DistributorID s = asked) ∧
  (let r := CommonLedger.AddShipmentRecord now1 now2 now3 id drugID manufacturerID
              distributorID status cl in
   r.2 = None →
   CommonLedger.GetDistributorShipments asked r.1
   = CommonLedger.GetDistributorShipments asked cl
     ++ (if decide (distributorID = asked)
         then [mkCommonShipmentRecord id drugID manufacturerID distributorID status
                 (rfc3339 now1) status [mkStatus status (rfc3339 now2) ""]]
         else [])) ∧
  (let r := CommonLedger.UpdateShipmentStatus now1 now2 id status details cl in
   map cs_ShipmentID (CommonLedger.GetDistributorShipments asked r.1)
   = map cs_ShipmentID (CommonLedger.GetDistributorShipments asked cl)).
Proof.
  split_and!.
  - intros s. unfold CommonLedger.GetDistributorShipments.
    rewrite list_elem_of_filter. tauto.
  - cbv zeta. unfold CommonLedger.AddShipmentRecord.
    destruct (existsb _ (cl_Shipments cl)) eqn:Hex; [done|]. intros _.
    cbn [fst]. unfold CommonLedger.GetDistributorShipments.
    unfold cl_set_last_updated, cl_set_shipments. cbn [cl_Shipments].
    rewrite filter_app. f_equal.
  - cbv zeta. unfold CommonLedger.UpdateShipmentStatus.
    destruct (existsb _ (cl_Shipments cl)) eqn:Hex; [|done].
    cbn [fst]. unfold CommonLedger.GetDistributorShipments.
    unfold cl_set_last_updated, cl_set_shipments. cbn [cl_Shipments]. clear Hex.
    induction (cl_Shipments cl) as [|x l IH]; [done|]. cbn [update_first].
    destruct (String.eqb (cs_ShipmentID x) id).
    + rewrite !filter_cons. cbn [cs_DistributorID cs_append cs_set_current].
      by destruct (decide (cs_DistributorID x = asked)).
    + rewrite !filter_cons. destruct (decide (cs_DistributorID x = asked)); [|done].
      cbn [map]. by rewrite IH.
Qed.

End ReadLedgers.

(** ** The reconciliation, record by record *)

Section Reconcile.
Context {A B : Type} (key : A → string) (key' : B → string) (copy : A → B).
Hypothesis copy_key : ∀ x, key' (copy x) = key x.

(** The loop body of [SyncManufacturerLedger], for any kind of record. *)
Context (sync : list B → A → list B).
Hypothesis sync_body : ∀ l x,
  sync l x = if existsb (λ y, String.eqb (key' y) (key x)) l
             then update_first (λ y, String.eqb (key' y) (key x)) (λ _, copy x) l
             else l ++ [copy x].

Lemma sync_lookup l x id :
  find_first (λ y, String.eqb (key' y) id) (sync l x)
  = if String.eqb (key x) id then Some (copy x)
    else find_first (λ y, String.eqb (key' y) id) l.
Proof.
  rewrite sync_body. destruct (existsb _ l) eqn:Hex.
  - destruct (String.eqb (key x) id) eqn:Hid.
    + apply String.eqb_eq in Hid as <-.
      rewrite (find_first_updated key') by (intros; apply copy_key).
      apply find_first_existsb in Hex as [y ->]. done.
    + apply String.eqb_neq in Hid.
      by rewrite (find_first_updated_other key') by (intros; first [apply copy_key|congruence]).
  - destruct (String.eqb (key x) id) eqn:Hid.
    + apply String.eqb_eq in Hid as <-.
      by rewrite (find_first_added key' _ _ (key x) Hex).
    + apply String.eqb_neq in Hid.
      by rewrite (find_first_added_other key') by (by rewrite copy_key).
Qed.

Lemma sync_all_lookup l xs id :
  find_first (λ y, String.eqb (key' y) id) (fold_left sync xs l)
  = match last_of key id xs with
    | Some x => Some (copy x)
    | None => find_first (λ y, String.eqb (key' y) id) l
    end.
Proof.
  revert l. induction xs as [|x xs IH]; intros l; [done|].
  cbn [fold_left]. rewrite IH, sync_lookup. unfold last_of. cbn [rev].
  rewrite find_first_app. destruct (find_first _ (rev xs)); [done|].
  cbn [find_first]. by destruct (String.eqb (key x) id).
Qed.

End Reconcile.

Section Reconciliation.
Context {Store : Type} `{!Backend Store}.
Implicit Types w : World Store.

Lemma last_of_Some {A} (key : A → string) id (l : list A) :
  id ∈ map key l → ∃ x, last_of key id l = Some x ∧ key x = id.
Proof.
  intros Hin. unfold last_of.
  assert (existsb (λ x, String.eqb (key x) id) (rev l) = true) as Hex.
  { apply existsb_key. rewrite map_rev, rev_alt. by apply elem_of_reverse. }
  apply find_first_existsb in Hex as [x Hx]. exists x. split; [done|].
  apply find_first_Some in Hx as [_ Hx]. by apply String.eqb_eq in Hx.
Qed.

(** X9: what [SyncManufacturerLedger] leaves in the common ledger, read by
    id.  With both ledger files in place the call succeeds; the record that
    the common ledger then holds for an id is the copy of the manufacturer's
    last record of that id, under the manufacturer asked for, with the
    manufacturer's history, an empty verification hash (a drug) and an empty
    distributor (a shipment); the record of an id that the manufacturer does
    not have is the one from before.  So [VerifyDrug] on the common ledger
    accepts only the empty hash for every drug of the manufacturer.  The
    manufacturer ledgers, the chain and [last_updated] are left alone. *)
Theorem X9_reconciliation_by_id (m : string) (ml : ManufacturerLedger) (cl : CommonLedger) w :
  ManufacturerLedgerFiles w !! m = Some ml →
  CommonLedgerFile w = Some cl →
  let r := BlockchainLedgerManager.SyncManufacturerLedger m w in
  r.1 = Ok tt ∧
  ManufacturerLedgerFiles r.2 = ManufacturerLedgerFiles w ∧
  chain r.2 = chain w ∧ trace r.2 = trace w ∧
  ∃ cl',
    CommonLedgerFile r.2 = Some cl' ∧
    cl_LastUpdated cl' = cl_LastUpdated cl ∧
    (∀ id, find_first (LedgerManager.is_common_drug id) (cl_Drugs cl')
           = match last_of d_DrugID id (ml_Drugs ml) with
             | Some d => Some (reconciled_drug m d)
             | None => find_first (LedgerManager.is_common_drug id) (cl_Drugs cl)
             end) ∧
    (∀ id, find_first (LedgerManager.is_common_shipment id) (cl_Shipments cl')
           = match last_of sh_ShipmentID id (ml_Shipments ml) with
             | Some s => Some (reconciled_shipment m s)
             | None => find_first (LedgerManager.is_common_shipment id) (cl_Shipments cl)
             end) ∧
    (∀ id hash, id ∈ map d_DrugID (ml_Drugs ml) →
                CommonLedger.VerifyDrug id hash cl' = Ok (String.eqb "" hash)).
Proof.
  intros Hml Hcl r. subst r.
  unfold BlockchainLedgerManager.SyncManufacturerLedger, LedgerStorage.GetManufacturerLedger,
    LedgerStorage.GetCommonLedger, LedgerStorage.SaveCommonLedger.
  destruct w as [clk tk uu dr bc mf cf fl th pt sm ls st tr].
  cbn [ManufacturerLedgerFiles CommonLedgerFile] in Hml, Hcl. subst cf.
  run. rewrite Hml. run.
  split_and!; try reflexivity.
  eexists. split; [reflexivity|]. split; [reflexivity|].
  assert (Hdrugs : ∀ id,
    find_first (LedgerManager.is_common_drug id)
      (fold_left (BlockchainLedgerManager.sync_drug m) (ml_Drugs ml) (cl_Drugs cl))
    = match last_of d_DrugID id (ml_Drugs ml) with
      | Some d => Some (reconciled_drug m d)
      | None => find_first (LedgerManager.is_common_drug id) (cl_Drugs cl)
      end).
  { intros id.
    exact (sync_all_lookup d_DrugID cd_DrugID (reconciled_drug m) (λ _, eq_refl)
             (BlockchainLedgerManager.sync_drug m) (λ _ _, eq_refl)
             (cl_Drugs cl) (ml_Drugs ml) id). }
  split_and!.
  - exact Hdrugs.
  - intros id.
    exact (sync_all_lookup sh_ShipmentID cs_ShipmentID (reconciled_shipment m) (λ _, eq_refl)
             (BlockchainLedgerManager.sync_shipment m) (λ _ _, eq_refl)
             (cl_Shipments cl) (ml_Shipments ml) id).
  - intros id hash Hin. unfold CommonLedger.VerifyDrug.
    cbn [cl_Drugs cl_set_drugs cl_set_shipments].
    apply last_of_Some in Hin as (d & Hd & _).
    specialize (Hdrugs id). rewrite Hd in Hdrugs.
    unfold LedgerManager.is_common_drug in Hdrugs. by rewrite Hdrugs.
Qed.

End Reconciliation.

(** ** Creating a drug in the two ledger files *)

Section Create.
Context {Store : Type} `{!Backend Store}.
Implicit Types w : World Store.

(** X10: [CreateDrug] of the package-blockchain ledger manager appends
    without looking for the id, and writes the manufacturer ledger before it
    reads the common one.  On ledger files named after their manufacturer,
    the manufacturer ledger ends with one more record of the drug, whether
    the id was there or not and whether the call succeeds or not.  With a
    common ledger file the call returns the drug id, the common ledger ends
    with one more record of the drug, with an empty verification hash, and
    [VerifyDrug] of this manager then answers true; without the file the
    call fails after the manufacturer ledger was written. *)
Theorem X10_CreateDrug_appends_unchecked (params : CreateDrugParams) w :
  named w →
  let m := cdp_ManufacturerID params in
  let id := cdp_DrugID params in
  let r := BlockchainLedgerManager.CreateDrug params w in
  (∃ t1 t2 t3,
     ManufacturerLedgerFiles r.2 !! m
     = Some (mkManufacturerLedger m
               (drugs_of m w
                ++ [mkDrugRecord id "created" t1 "" "created"
                      [mkStatus "created" t2 "Drug created"]])
               (shipments_of m w) t3)) ∧
  (∀ m', m' ≠ m → ManufacturerLedgerFiles r.2 !! m' = ManufacturerLedgerFiles w !! m') ∧
  match CommonLedgerFile w with
  | Some cl =>
      r.1 = Ok id ∧
      (∃ t4 t5 t6,
         CommonLedgerFile r.2
         = Some (mkCommonLedger
                   (cl_Drugs cl
                    ++ [mkCommonDrugRecord id m "created" t4 "created"
                          [mkStatus "created" t5 "Drug created"] ""])
                   (cl_Shipments cl) t6)) ∧
      (BlockchainLedgerManager.VerifyDrug id r.2).1 = Ok true
  | None =>
      (∃ e, r.1 = Err ("failed to get common ledger: " +:+ e)) ∧
      CommonLedgerFile r.2 = None
  end.
Proof.
  intros Hnamed m id r. subst m id r.
  unfold BlockchainLedgerManager.CreateDrug, BlockchainLedgerManager.VerifyDrug,
    LedgerStorage.GetManufacturerLedger, LedgerStorage.SaveManufacturerLedger,
    LedgerStorage.GetCommonLedger, LedgerStorage.SaveCommonLedger, drugs_of, shipments_of.
  destruct w as [clk tk uu dr bc mf cf fl th pt sm ls st tr].
  run. destruct (mf !! cdp_ManufacturerID params) as [ml|] eqn:Hml; run.
  - pose proof (Hnamed _ _ Hml) as Hkey. cbn in Hkey.
    destruct cf as [cl|]; run; rewrite ?Hkey.
    + split_and!.
      * rewrite lookup_insert_eq. destruct ml; cbn in *; subst. by eexists _, _, _.
      * intros m' Hne. by rewrite lookup_insert_ne.
      * done.
      * by eexists _, _, _.
      * rewrite existsb_app. cbn. unfold LedgerManager.is_common_drug. cbn.
        by rewrite String.eqb_refl, orb_true_r.
    + split_and!.
      * rewrite lookup_insert_eq. destruct ml; cbn in *; subst. by eexists _, _, _.
      * intros m' Hne. by rewrite lookup_insert_ne.
      * by eexists.
      * done.
  - destruct cf as [cl|]; run.
    + split_and!.
      * rewrite insert_insert_eq, lookup_insert_eq. by eexists _, _, _.
      * intros m' Hne. by rewrite insert_insert_eq, lookup_insert_ne.
      * done.
      * by eexists _, _, _.
      * rewrite existsb_app. cbn. unfold LedgerManager.is_common_drug. cbn.
        by rewrite String.eqb_refl, orb_true_r.
    + split_and!.
      * rewrite insert_insert_eq, lookup_insert_eq. by eexists _, _, _.
      * intros m' Hne. by rewrite insert_insert_eq, lookup_insert_ne.
      * by eexists.
      * done.
Qed.

End Create.

(** ** Deletions that reach the webhook handler *)

Section Deletions.
Context {Store : Type} `{!Backend Store}.
Implicit Types w : World Store.

(** A record without a usable id: the attempt fails and does nothing. *)
Lemma processDelete_refused table record w :
  record_id table record = None ∨ record_id table record = Some "" →
  ∃ msg, WebhookHandler.processDelete table record w = (Ok (Some msg), w).
Proof.
  unfold record_id, webhook_key, WebhookHandler.processDelete.
  destruct (String.eqb table "drugs") eqn:Ht; cbn [orb negb].
  - intros [-> | ->]; cbn; by eexists.
  - destruct (String.eqb table "shipments") eqn:Ht'; cbn [negb]; [|by eexists].
    intros [-> | ->]; cbn; by eexists.
Qed.

(** A record with an id: one file is written and the table is stamped. *)
Lemma processDelete_filed table record recordID w :
  record_id table record = Some recordID → recordID ≠ "" →
  let r := WebhookHandler.processDelete table record w in
  r.1 = Ok None ∧
  Files r.2
  = <[deletion_path table recordID (clock w (S (ticks w))) :=
        JObj [ ("deleted_at", JStr (rfc3339 (clock w (ticks w))));
               ("original_record", JObj record) ]]> (Files w) ∧
  SyncStatusMap r.2 = <[table := clock w (S (S (ticks w)))]> (SyncStatusMap w) ∧
  chain r.2 = chain w ∧
  ManufacturerLedgerFiles r.2 = ManufacturerLedgerFiles w ∧
  CommonLedgerFile r.2 = CommonLedgerFile w ∧
  ProcessedTxs r.2 = ProcessedTxs w ∧ TxHashFile r.2 = TxHashFile w ∧
  store r.2 = store w ∧ trace r.2 = trace w.
Proof.
  unfold record_id, webhook_key, WebhookHandler.processDelete, DataStorage.WriteFile,
    deletion_path.
  intros Hid Hne. apply String.eqb_neq in Hne.
  destruct w as [clk tk uu dr bc mf cf fl th pt sm ls st tr].
  destruct (String.eqb table "drugs") eqn:Ht; cbn [orb negb].
  - rewrite Hid. cbn [default from_option id]. rewrite Hne. run. by split_and!.
  - destruct (String.eqb table "shipments") eqn:Ht'; [|done].
    cbn [negb]. rewrite Hid. cbn [default from_option id]. rewrite Hne. run. by split_and!.
Qed.

(** X11: a DELETE event deletes nothing.  [processDeleteWithRetry] never
    touches the chain, the ledgers, the tracker or the external store.  For a
    record of the table [drugs] or [shipments] with a non-empty string id,
    at a handler with at least one attempt, the first attempt succeeds and is
    the only one: it writes one file, named after the table, the id and the
    clock, that holds the time of the deletion and the old record, and stamps
    the table in the sync status.  For any other table or a record without
    such an id every attempt fails and the world is left exactly as it was,
    however many attempts are made. *)
Theorem X11_delete_event_files_the_record (wh : WebhookHandler.WebhookHandler)
    (table : string) (record : Data) w :
  let r := WebhookHandler.processDeleteWithRetry wh table record w in
  r.1 = Ok tt ∧
  chain r.2 = chain w ∧
  ManufacturerLedgerFiles r.2 = ManufacturerLedgerFiles w ∧
  CommonLedgerFile r.2 = CommonLedgerFile w ∧
  ProcessedTxs r.2 = ProcessedTxs w ∧ TxHashFile r.2 = TxHashFile w ∧
  store r.2 = store w ∧ trace r.2 = trace w ∧
  match record_id table record with
  | Some recordID =>
      if bool_decide (recordID ≠ "" ∧ (0 < WebhookHandler.MaxRetries wh)%Z)
      then
        Files r.2
        = <[deletion_path table recordID (clock w (S (ticks w))) :=
              JObj [ ("deleted_at", JStr (rfc3339 (clock w (ticks w))));
                     ("original_record", JObj record) ]]> (Files w) ∧
        SyncStatusMap r.2 = <[table := clock w (S (S (ticks w)))]> (SyncStatusMap w)
      else r.2 = w
  | None => r.2 = w
  end.
Proof.
  cbv zeta. unfold WebhookHandler.processDeleteWithRetry.
  assert (Hrefused : record_id table record = None ∨ record_id table record = Some "" →
            ∀ n, WebhookHandler.delete_attempts n table record w = (Ok tt, w)).
  { intros Hno n. induction n as [|n IH]; [done|].
    cbn [WebhookHandler.delete_attempts]. rewrite run_bind.
    destruct (processDelete_refused table record w Hno) as [msg ->]. exact IH. }
  destruct (record_id table record) as [recordID|] eqn:Hid.
  - case_bool_decide as Hok.
    + destruct Hok as [Hne Hretries].
      destruct (Z.to_nat (WebhookHandler.MaxRetries wh)) as [|n] eqn:Hn; [lia|].
      cbn [WebhookHandler.delete_attempts]. rewrite run_bind.
      pose proof (processDelete_filed table record recordID w Hid Hne) as Hfiled.
      cbv zeta in Hfiled.
      destruct (WebhookHandler.processDelete table record w) as [r1 w1].
      cbn [fst snd] in Hfiled. destruct Hfiled as (-> & Hfiled). cbn [fst snd].
      by destruct_and!.
    + destruct (decide (recordID = "")) as [->|Hne].
      * rewrite Hrefused by (by right). by split_and!.
      * assert (Z.to_nat (WebhookHandler.MaxRetries wh) = 0%nat) as ->.
        { destruct (decide (0 < WebhookHandler.MaxRetries wh)%Z); [by destruct Hok|lia]. }
        by split_and!.
  - rewrite Hrefused by (by left). by split_and!.
Qed.

End Deletions.

(** ** The transactions that the sync service creates *)

Section Validation.
Import Blockchain.

Lemma present_copy (record : Data) field :
  is_row record → present (Json.copy record) field ↔ present record field.
Proof. intros Hrow. unfold present. by rewrite get_copy. Qed.

(** The three outcomes of [NewDrugTransaction], by the fields of the data. *)
Lemma NewDrugTransaction_refuses now1 now2 (drugData : Data) :
  ¬ Forall (present drugData) requiredFields →
  ∃ e, NewDrugTransaction now1 now2 drugData = Err e.
Proof.
  intros Hnot. unfold NewDrugTransaction.
  destruct (find_first _ requiredFields) as [field|] eqn:Hfind; [by eexists|].
  destruct Hnot. apply find_first_None in Hfind.
  eapply Forall_impl; [exact Hfind|]. intros f Hf. by apply present_field.
Qed.

Lemma NewDrugTransaction_accepts now1 now2 (drugData : Data) :
  Forall (present drugData) requiredFields →
  match Json.get_string "drug_id" drugData with
  | Some _ => ∃ tx, NewDrugTransaction now1 now2 drugData = Ok tx
  | None => ∃ p, NewDrugTransaction now1 now2 drugData = Panic p
  end.
Proof.
  intros Hall. unfold NewDrugTransaction.
  destruct (find_first _ requiredFields) as [field|] eqn:Hfind.
  - apply find_first_split in Hfind as (pre & post & Hl & Hfield & _).
    apply absent_field in Hfield. rewrite Hl in Hall.
    apply Forall_app in Hall as [_ Hall]. apply Forall_cons in Hall as [[v Hv] _].
    congruence.
  - destruct (Json.get_string "drug_id" drugData); by eexists.
Qed.

End Validation.

Section Created.
Context {Store : Type} `{!Backend Store}.
Implicit Types w : World Store.

Lemma createDrugTransaction_run (drugData : Data) w :
  is_row drugData →
  let r := SyncService.createDrugTransaction drugData w in
  match SyncService.existing_tx drugData with
  | Some txID => r = (Ok (txID, drugData), w)
  | None =>
      TxHashFile r.2 = TxHashFile w ∧ ProcessedTxs r.2 = ProcessedTxs w ∧
      SyncStatusMap r.2 = SyncStatusMap w ∧
      if decide (Forall (present drugData) Blockchain.requiredFields)
      then
        match Json.get_string "drug_id" drugData with
        | Some _ =>
            ∃ b, r.1 = Ok (b_TxHash b,
                           Json.set "blockchain_tx_id" (JStr (b_TxHash b)) drugData) ∧
                 chain r.2 = chain w ++ [b] ∧
                 b_TxData b = JObj (Json.copy drugData) ∧
                 b_PreviousBlockHash b = last_hash (chain w) ∧
                 b_TxHash b
                 = Blockchain.GenerateTransactionHash (uuids w (drawn w))
                     (clock w (S (S (ticks w)))) (Json.copy drugData)
        | None => ∃ p, r.1 = Panic p
        end
      else
        r.1 = Ok ("", drugData) ∧ chain r.2 = chain w ∧ Files r.2 = Files w ∧
        trace r.2 = trace w ∧ store r.2 = store w ∧
        ManufacturerLedgerFiles r.2 = ManufacturerLedgerFiles w ∧
        CommonLedgerFile r.2 = CommonLedgerFile w
  end.
Proof.
  intros Hrow r. subst r. unfold SyncService.createDrugTransaction.
  destruct (SyncService.existing_tx drugData) as [txID|]; [done|].
  destruct w as [clk tk uu dr bc mf cf fl th pt sm ls st tr].
  destruct (decide (Forall (present drugData) Blockchain.requiredFields)) as [Hall|Hnot].
  - assert (Hall' : Forall (present (Json.copy drugData)) Blockchain.requiredFields).
    { eapply Forall_impl; [exact Hall|]. intros f Hf. by apply present_copy. }
    pose proof (NewDrugTransaction_accepts (clk tk) (clk (S tk)) _ Hall') as Hnew.
    rewrite (get_string_copy _ _ Hrow) in Hnew.
    run. destruct (Json.get_string "drug_id" drugData) as [drugID|].
    + destruct Hnew as [tx Htx]. rewrite Htx. run. add_block.
      split_and!; try done.
      eexists (mkBlock _ _ _ _ _). unfold chain.
      cbn [b_TxHash b_TxData b_PreviousBlockHash BlockchainFile].
      split_and!; reflexivity.
    + destruct Hnew as [p Hp]. rewrite Hp. run. split_and!; try done. by eexists.
  - assert (Hnot' : ¬ Forall (present (Json.copy drugData)) Blockchain.requiredFields).
    { intros Hall. apply Hnot. eapply Forall_impl; [exact Hall|].
      intros f Hf. by apply (present_copy _ _ Hrow). }
    destruct (NewDrugTransaction_refuses (clk tk) (clk (S tk)) _ Hnot') as [e He].
    run. rewrite He. run. by split_and!.
Qed.

Lemma createShipmentTransaction_run (shipmentData : Data) w :
  is_row shipmentData →
  let r := SyncService.createShipmentTransaction shipmentData w in
  match SyncService.existing_tx shipmentData with
  | Some txID => r = (Ok (txID, shipmentData), w)
  | None =>
      TxHashFile r.2 = TxHashFile w ∧ ProcessedTxs r.2 = ProcessedTxs w ∧
      SyncStatusMap r.2 = SyncStatusMap w ∧
      match Json.get "shipment_id" shipmentData with
      | Some (JStr _) =>
          ∃ b, r.1 = Ok (b_TxHash b,
                         Json.set "blockchain_tx_id" (JStr (b_TxHash b)) shipmentData) ∧
               chain r.2 = chain w ++ [b] ∧
               b_TxData b = JObj (Json.copy shipmentData) ∧
               b_PreviousBlockHash b = last_hash (chain w) ∧
               b_TxHash b
               = Blockchain.GenerateTransactionHash (uuids w (drawn w))
                   (clock w (S (ticks w))) (Json.copy shipmentData)
      | Some _ => ∃ p, r.1 = Panic p
      | None =>
          r.1 = Ok ("", shipmentData) ∧ chain r.2 = chain w ∧ Files r.2 = Files w ∧
          trace r.2 = trace w ∧ store r.2 = store w ∧
          ManufacturerLedgerFiles r.2 = ManufacturerLedgerFiles w ∧
          CommonLedgerFile r.2 = CommonLedgerFile w
      end
  end.
Proof.
  intros Hrow r. subst r.
  unfold SyncService.createShipmentTransaction, Blockchain.NewShipmentTransaction.
  destruct (SyncService.existing_tx shipmentData) as [txID|]; [done|].
  destruct w as [clk tk uu dr bc mf cf fl th pt sm ls st tr].
  unfold Json.get_string. rewrite (get_copy _ _ Hrow). run.
  destruct (Json.get "shipment_id" shipmentData) as [[| | |id| |]|]; run;
    try (split_and!; try done; by eexists).
  add_block. split_and!; try done.
  eexists (mkBlock _ _ _ _ _). unfold chain.
  cbn [b_TxHash b_TxData b_PreviousBlockHash BlockchainFile].
  split_and!; reflexivity.
Qed.

(** X12: the sync service creates a transaction only for a record without
    one, and reports a failure as the empty hash.  For a record (a JSON
    object) that names a transaction id, neither empty nor "pending",
    [createDrugTransaction] and [createShipmentTransaction] return that id
    and do nothing.  Otherwise a drug record that lacks one of the six
    required fields, or a shipment record without [shipment_id], gives the
    empty hash, and the chain, the files, the ledgers and the external store
    are left alone.  A record that passes gets exactly one block, linked to
    the last one, whose data is the copy of the record as it came (not the
    map that the validation built) and whose hash is returned and written to
    the record under [blockchain_tx_id].  The tracker is never touched. *)
Theorem X12_created_transactions (record : Data) w :
  is_row record →
  let rd := SyncService.createDrugTransaction record w in
  let rs := SyncService.createShipmentTransaction record w in
  match SyncService.existing_tx record with
  | Some txID => rd = (Ok (txID, record), w) ∧ rs = (Ok (txID, record), w)
  | None =>
      (TxHashFile rd.2 = TxHashFile w ∧ ProcessedTxs rd.2 = ProcessedTxs w ∧
       SyncStatusMap rd.2 = SyncStatusMap w ∧
       if decide (Forall (present record) Blockchain.requiredFields)
       then
         match Json.get_string "drug_id" record with
         | Some _ =>
             ∃ b, rd.1 = Ok (b_TxHash b,
                             Json.set "blockchain_tx_id" (JStr (b_TxHash b)) record) ∧
                  chain rd.2 = chain w ++ [b] ∧
                  b_TxData b = JObj (Json.copy record) ∧
                  b_PreviousBlockHash b = last_hash (chain w) ∧
                  b_TxHash b
                  = Blockchain.GenerateTransactionHash (uuids w (drawn w))
                      (clock w (S (S (ticks w)))) (Json.copy record)
         | None => ∃ p, rd.1 = Panic p
         end
       else
         rd.1 = Ok ("", record) ∧ chain rd.2 = chain w ∧ Files rd.2 = Files w ∧
         trace rd.2 = trace w ∧ store rd.2 = store w ∧
         ManufacturerLedgerFiles rd.2 = ManufacturerLedgerFiles w ∧
         CommonLedgerFile rd.2 = CommonLedgerFile w) ∧
      (TxHashFile rs.2 = TxHashFile w ∧ ProcessedTxs rs.2 = ProcessedTxs w ∧
       SyncStatusMap rs.2 = SyncStatusMap w ∧
       match Json.get "shipment_id" record with
       | Some (JStr _) =>
           ∃ b, rs.1 = Ok (b_TxHash b,
                           Json.set "blockchain_tx_id" (JStr (b_TxHash b)) record) ∧
                chain rs.2 = chain w ++ [b] ∧
                b_TxData b = JObj (Json.copy record) ∧
                b_PreviousBlockHash b = last_hash (chain w) ∧
                b_TxHash b
                = Blockchain.GenerateTransactionHash (uuids w (drawn w))
                    (clock w (S (ticks w))) (Json.copy record)
       | Some _ => ∃ p, rs.1 = Panic p
       | None =>
           rs.1 = Ok ("", record) ∧ chain rs.2 = chain w ∧ Files rs.2 = Files w ∧
           trace rs.2 = trace w ∧ store rs.2 = store w ∧
           ManufacturerLedgerFiles rs.2 = ManufacturerLedgerFiles w ∧
           CommonLedgerFile rs.2 = CommonLedgerFile w
       end)
  end.
Proof.
  intros Hrow rd rs. subst rd rs.
  pose proof (createDrugTransaction_run record w Hrow) as Hd.
  pose proof (createShipmentTransaction_run record w Hrow) as Hs.
  cbv zeta in Hd, Hs.
  destruct (SyncService.existing_tx record); by split.
Qed.

End Created.

(** ** Records that reach the webhook handler *)

Section Records.
Context {Store : Type} `{!Backend Store}.
Implicit Types w : World Store.

#[local] Arguments SyncService.createDrugTransaction : simpl never.
#[local] Arguments SyncService.createShipmentTransaction : simpl never.

(** A record of a table that is not handled, or without a string in the key
    column: the attempt fails and does nothing. *)
Lemma processRecord_refused table record w :
  record_id table record = None →
  ∃ msg, WebhookHandler.processRecord table record w = (Ok (record, Some msg), w).
Proof.
  unfold record_id, webhook_key, WebhookHandler.processRecord, WebhookHandler.resolve.
  destruct (String.eqb table "drugs") eqn:Ht.
  - intros ->. run. by eexists.
  - destruct (String.eqb table "shipments") eqn:Ht'.
    + intros ->. run. by eexists.
    + intros _. run. by eexists.
Qed.

Lemma existing_tx_finalized (record : Data) txID :
  SyncService.existing_tx record = Some txID → String.eqb txID "" = false.
Proof.
  unfold SyncService.existing_tx, SyncService.finalized.
  destruct (Json.get_string "blockchain_tx_id" record) as [t|]; [|done].
  destruct (String.eqb t "") eqn:E; cbn; [done|]. destruct (String.eqb t "pending"); cbn; [done|].
  by intros [= <-].
Qed.

(** The end of [processRecord], once the id and the hash are known: no
    error, and the chain is left alone. *)
Lemma processRecord_files table recordID txHash (record : Data) w :
  String.eqb recordID "" = false →
  let rest :=
    (processed ← (if String.eqb txHash "" then mret false
                  else TransactionTracker.IsTransactionProcessed txHash);
     if processed : bool then mret (record, None)
     else
       now ← Now;
       let filename := table +:+ "_" +:+ recordID +:+ "_" +:+ stamp now +:+ ".json" in
       let filePath := DataStorage.DataDir +:+ "/" +:+ filename in
       let record :=
         if String.eqb txHash "" then record
         else Json.set "blockchain_tx_id" (JStr txHash) record in
       DataStorage.WriteFile filePath (JObj record);;
       (if String.eqb txHash "" then mret (Ok tt)
        else attempt (TransactionTracker.MarkTransactionProcessed txHash));;
       now' ← Now;
       modify (λ w, set_SyncStatusMap (<[table := now']> (SyncStatusMap w)) w);;
       mret (record, @None string)) : M Store (Data * option string) in
  (∃ record', (rest w).1 = Ok (record', None)) ∧ chain (rest w).2 = chain w.
Proof.
  intros Hne rest. subst rest.
  unfold TransactionTracker.IsTransactionProcessed,
    TransactionTracker.MarkTransactionProcessed, TransactionTracker.saveProcessedTxs,
    DataStorage.WriteFile.
  destruct w as [clk tk uu dr bc mf cf fl th pt sm ls st tr].
  destruct (String.eqb txHash "") eqn:Hh; run.
  - split; [by eexists|done].
  - case_bool_decide; run; (split; [by eexists|done]).
Qed.

Lemma processRecord_accepts table record recordID w :
  is_row record → record_id table record = Some recordID → recordID ≠ "" →
  let first := WebhookHandler.processRecord table record w in
  (∃ record', first.1 = Ok (record', None)) ∧
  (chain first.2 = chain w ∨ ∃ b, chain first.2 = chain w ++ [b]).
Proof.
  intros Hrow Hid Hne first. subst first. apply String.eqb_neq in Hne.
  unfold record_id, webhook_key in Hid.
  unfold WebhookHandler.processRecord, WebhookHandler.resolve.
  destruct (String.eqb table "drugs") eqn:Ht.
  - rewrite Hid.
    destruct (SyncService.existing_tx record) as [txID|] eqn:Hex.
    + rewrite run_bind. cbv beta iota delta [mret M_ret]. rewrite Hne.
      destruct (processRecord_files table recordID txID record w Hne) as [Hok Hchain].
      split; [exact Hok|left; exact Hchain].
    + pose proof (createDrugTransaction_run record w Hrow) as Hrun. cbv zeta in Hrun.
      rewrite Hex, Hid in Hrun. destruct Hrun as (_ & _ & _ & Hrun).
      rewrite !run_bind.
      destruct (SyncService.createDrugTransaction record w) as [r1 w1]. cbn [fst snd] in Hrun.
      destruct (decide (Forall (present record) Blockchain.requiredFields)).
      * destruct Hrun as (b & -> & Hb & _). cbv beta iota.
        cbv beta iota delta [mret M_ret]. rewrite Hne.
        destruct (processRecord_files table recordID (b_TxHash b)
                    (Json.set "blockchain_tx_id" (JStr (b_TxHash b)) record) w1 Hne)
          as [Hok Hchain].
        split; [exact Hok|right; exists b; by rewrite <- Hb].
      * destruct Hrun as (-> & Hb & _). cbv beta iota.
        cbv beta iota delta [mret M_ret]. rewrite Hne.
        destruct (processRecord_files table recordID "" record w1 Hne) as [Hok Hchain].
        split; [exact Hok|left; by rewrite <- Hb].
  - destruct (String.eqb table "shipments") eqn:Ht'; [|done]. rewrite Hid.
    destruct (SyncService.existing_tx record) as [txID|] eqn:Hex.
    + rewrite run_bind. cbv beta iota delta [mret M_ret]. rewrite Hne.
      destruct (processRecord_files table recordID txID record w Hne) as [Hok Hchain].
      split; [exact Hok|left; exact Hchain].
    + pose proof (createShipmentTransaction_run record w Hrow) as Hrun. cbv zeta in Hrun.
      rewrite Hex in Hrun. destruct Hrun as (_ & _ & _ & Hrun).
      unfold Json.get_string in Hid.
      destruct (Json.get "shipment_id" record) as [[| | |id| |]|]; try done.
      rewrite !run_bind.
      destruct (SyncService.createShipmentTransaction record w) as [r1 w1].
      cbn [fst snd] in Hrun. destruct Hrun as (b & -> & Hb & _). cbv beta iota.
      cbv beta iota delta [mret M_ret]. rewrite Hne.
      destruct (processRecord_files table recordID (b_TxHash b)
                  (Json.set "blockchain_tx_id" (JStr (b_TxHash b)) record) w1 Hne)
        as [Hok Hchain].
      split; [exact Hok|right; exists b; by rewrite <- Hb].
Qed.

(** X13: a record is retried only when nothing was done.  For a record (a
    JSON object) of the table [drugs] or [shipments] with a non-empty string
    id, [processRecord] returns no error, whatever the external store
    answers and even when no transaction could be created; so
    [processRecordWithRetry], at a handler with at least one attempt, makes
    exactly one attempt, and that attempt appends at most one block.  For
    any other table or a record without a string id every attempt fails and
    the world is left exactly as it was, however many attempts are made. *)
Theorem X13_record_is_attempted_once (wh : WebhookHandler.WebhookHandler)
    (table : string) (record : Data) w :
  is_row record →
  let r := WebhookHandler.processRecordWithRetry wh table record w in
  match record_id table record with
  | None => r = (Ok tt, w)
  | Some recordID =>
      recordID ≠ "" → (0 < WebhookHandler.MaxRetries wh)%Z →
      let first := WebhookHandler.processRecord table record w in
      (∃ record', first.1 = Ok (record', None)) ∧
      r = (Ok tt, first.2) ∧
      (chain first.2 = chain w ∨ ∃ b, chain first.2 = chain w ++ [b])
  end.
Proof.
  intros Hrow r. subst r. unfold WebhookHandler.processRecordWithRetry.
  destruct (record_id table record) as [recordID|] eqn:Hid.
  - intros Hne Hretries.
    destruct (processRecord_accepts table record recordID w Hrow Hid Hne) as [[record' Hok] Hchain].
    split; [by exists record'|]. split; [|exact Hchain].
    destruct (Z.to_nat (WebhookHandler.MaxRetries wh)) as [|n] eqn:Hn; [lia|].
    cbn [WebhookHandler.record_attempts]. rewrite run_bind.
    destruct (WebhookHandler.processRecord table record w) as [r1 w1].
    cbn [fst snd] in Hok |- *. by subst r1.
  - induction (Z.to_nat (WebhookHandler.MaxRetries wh)) as [|n IH]; [done|].
    cbn [WebhookHandler.record_attempts]. rewrite run_bind.
    destruct (processRecord_refused table record w Hid) as [msg ->]. exact IH.
Qed.

End Records.

(** ** An append and the external store *)

Section WriteBackFiles.
Context {Store : Type} `{!Backend Store}.
Implicit Types w : World Store.

(** X14: an append to the chain does not depend on the external store.
    [AddTransactionToBlockchain] returns no error whatever the store
    answers, and the chain file has the new block, linked to the last one,
    before any request is sent.  The hash is written back to the row of the
    drug when the data carries a string [drug_id], even if it also carries a
    [shipment_id], and to the row of the shipment only otherwise; that
    request is the last one of the call.  The record file of the drug or the
    shipment is written exactly when the store answered that request; when
    it did not, the files and the two ledgers are as before. *)
Theorem X14_append_and_write_back (txData : Data) (txHash : string) w :
  let r := DataStorage.AddTransactionToBlockchain txData txHash w in
  r.1 = Ok tt ∧
  (∃ ts, chain r.2
         = chain w ++ [mkBlock (int_add (chain_height w) 1) txHash (JObj txData) ts
                               (last_hash (chain w))]) ∧
  match Json.get_string "drug_id" txData with
  | Some drugID =>
      ∃ a, head (trace r.2) = Some (hash_update "drugs" "drug_id" drugID txHash, a) ∧
           if answered a
           then Files r.2
                = <[record_file "drug" drugID :=
                      JObj (Json.set "blockchain_tx_id" (JStr txHash) txData)]> (Files w)
           else Files r.2 = Files w ∧
                ManufacturerLedgerFiles r.2 = ManufacturerLedgerFiles w ∧
                CommonLedgerFile r.2 = CommonLedgerFile w
  | None =>
      ManufacturerLedgerFiles r.2 = ManufacturerLedgerFiles w ∧
      CommonLedgerFile r.2 = CommonLedgerFile w ∧
      match Json.get_string "shipment_id" txData with
      | Some shipmentID =>
          ∃ a, head (trace r.2)
               = Some (hash_update "shipments" "shipment_id" shipmentID txHash, a) ∧
               if answered a
               then Files r.2
                    = <[record_file "shipment" shipmentID :=
                          JObj (Json.set "blockchain_tx_id" (JStr txHash) txData)]> (Files w)
               else Files r.2 = Files w
      | None => Files r.2 = Files w
      end
  end.
Proof.
  cbv zeta.
  unfold DataStorage.AddTransactionToBlockchain, DataStorage.GetBlockchainLedger,
    DataStorage.EnsureBlockchainLedgerExists, DataStorage.WriteFile, hash_update, record_file.
  destruct w as [clk tk uu dr bc mf cf fl th pt sm ls st tr].
  unfold chain, chain_height, last_hash. cbn [BlockchainFile].
  destruct bc as [ledger|]; run; answers;
    destruct (Json.get_string "drug_id" txData) as [drugID|] eqn:Hdrug; run; answers;
    try (rewrite get_string_set_ne by discriminate;
         destruct (Json.get_string "manufacturer" txData) as [manufacturerID|] eqn:Hman;
         run);
    try (destruct (Json.get_string "shipment_id" txData) as [shipmentID|] eqn:Hship;
         run; answers);
    try match goal with
        | |- context [DataStorage.add_drug_to_ledgers ?d ?m ?h ?w] =>
            destruct (add_drug_to_ledgers_frame d m h w)
              as (Hr & _ & _ & _ & _ & Hbc & Hfl & _ & _ & _ & _ & _ & Htr & _);
            destruct (DataStorage.add_drug_to_ledgers d m h w) as [r' w'];
            cbn [fst snd] in *; subst r'
        end;
    cbn in *; rewrite ?Hbc, ?Hfl, ?Htr; cbn.
  all: split; [reflexivity|]; split; [by eexists|].
  all: repeat (split; [reflexivity|]); try reflexivity.
  all: eexists; (split; [reflexivity|]); cbn [answered]; repeat split; reflexivity.
Qed.

End WriteBackFiles.

(** ** Creating a drug through the ledger manager *)

Section ManagerCreate.
Context {Store : Type} `{!Backend Store}.
Implicit Types w : World Store.

(** X15: [CreateDrug] of the ledger manager writes in four places, one after
    the other, and takes nothing back.  On ledger files named after their
    manufacturer, whatever the call returns: the chain has one block more,
    of type [drug_create], that carries the verification hash, which is the
    digest of the drug id, the manufacturer id and the timestamp of the
    call; the ledger of the manufacturer ends with the record of the drug
    (no test for the id is made); and so does the common ledger, with that
    verification hash, when its file exists.  The call returns either that
    hash or an error.  When it returns the hash, the last two requests were
    answered by the store: the insertion of the row of the drug, with the
    verification hash and the hash of the block as its transaction id, and
    the insertion of its first status update. *)
Theorem X15_CreateDrug_writes_in_turn (params : CreateDrugParams) w :
  named w →
  let r := LedgerManager.CreateDrug params w in
  let id := cdp_DrugID params in
  let m := cdp_ManufacturerID params in
  let now := clock w (ticks w) in
  let ts := rfc3339 now in
  let h := LedgerManager.generateVerificationHash id m ts in
  let created := [mkStatus "created" ts "Drug created"] in
  ∃ b,
    chain r.2 = chain w ++ [b] ∧
    tx_type b = "drug_create" ∧
    tx_field "drug_id" b = Some id ∧
    tx_field "verification_hash" b = Some h ∧
    ManufacturerLedgerFiles r.2 !! m
    = Some (mkManufacturerLedger m
              (drugs_of m w ++ [mkDrugRecord id "created" ts "" "created" created])
              (shipments_of m w) ts) ∧
    (∀ cl, CommonLedgerFile w = Some cl →
       CommonLedgerFile r.2
       = Some (mkCommonLedger
                 (cl_Drugs cl ++ [mkCommonDrugRecord id m "created" ts "created" created h])
                 (cl_Shipments cl) ts)) ∧
    (r.1 = Ok h ∨ ∃ e, r.1 = Err e) ∧
    (r.1 = Ok h →
     is_Some (CommonLedgerFile w) ∧
     ∃ a1 a2 rest,
       trace r.2
       = (mkRequest "drug_status_updates"
            (VInsert (JObj (drug_status_update_row
                              (mkDrugStatusUpdate "" id "created" (cdp_Location params)
                                 (cdp_UserID params) (b_TxHash b) (rfc3339nano now))))) [],
          a1)
         :: (mkRequest "drugs"
               (VInsert (JObj (drug_row
                                 (mkDrug id m (cdp_Name params) (cdp_Description params)
                                    "created" h (b_TxHash b) (rfc3339nano now)
                                    (rfc3339nano now))))) [],
             a2)
         :: rest ∧
       answered a1 = true ∧ answered a2 = true).
Proof.
  intros Hnamed r id m now ts h created. subst r id m now ts h created.
  unfold LedgerManager.CreateDrug, BlockchainService.CreateTransaction,
    LedgerStorage.GetManufacturerLedger, LedgerStorage.SaveManufacturerLedger,
    LedgerStorage.GetCommonLedger, LedgerStorage.SaveCommonLedger,
    LedgerStorage.InsertDrug, LedgerStorage.InsertDrugStatusUpdate.
  destruct w as [clk tk uu dr bc mf cf fl th pt sm ls st tr].
  unfold drugs_of, shipments_of.
  cbn [trace clock ticks ManufacturerLedgerFiles CommonLedgerFile].
  run. add_block.
  destruct (mf !! cdp_ManufacturerID params) as [ml|] eqn:Hml; run.
  all: try (pose proof (Hnamed _ _ Hml) as Hkey; cbn in Hkey).
  all: destruct cf as [cl|]; run.
  all: answers.
  all: eexists (mkBlock _ _ _ _ _); unfold chain, tx_type, tx_field;
    cbn [BlockchainFile b_TxData b_TxHash];
    split; [reflexivity|]; split; [reflexivity|]; split; [reflexivity|];
    split; [reflexivity|].
  all: split;
    [ try rewrite Hkey; rewrite ?insert_insert_eq, ?lookup_insert_eq; cbn [from_option];
      try (destruct ml; cbn in *; subst); reflexivity |].
  all: split; [intros cl' Hcl; simplify_eq; reflexivity|].
  all: split; [first [by left|by right; eexists]|].
  all: intros Hok; try discriminate Hok.
  all: split; [by eexists|]. 
  all: eexists _, _, _; split; [reflexivity|]; by split.
Qed.

End ManagerCreate.

(** ** A cycle of the sync service that cannot read the drugs *)

Section FailedCycle.
Context {Store : Type} `{!Backend Store}.
Implicit Types w : World Store.

Lemma sync_logs_differ (now now' : Time) :
  sync_log_path "drugs" now ≠ sync_log_path "shipments" now'.
Proof. unfold sync_log_path, SyncService.SyncLogDir. cbn. intros [=]. Qed.

(** X16: a cycle goes on when a table cannot be read.  When the store fails
    the request for the rows of the drugs, [performSync] still returns: it
    appends nothing to the chain and leaves the ledgers alone, writes a log
    for the drugs with the status [error] and the message of the store, does
    not stamp the drugs in the sync status, and goes on to the shipments,
    which are stamped exactly when the store answers for them; the time of
    the last sync is set in both cases.  The two requests for the rows are
    the only ones of the cycle. *)
Theorem X16_cycle_without_the_drugs (e : string) (s : Store) w :
  Execute (select_all "drugs") (store w) = (Failure e, s) →
  let r := SyncService.performSync w in
  let shipments := (Execute (select_all "shipments") s).1 in
  let t := λ n, clock w (n + ticks w) in
  r.1 = Ok tt ∧
  chain r.2 = chain w ∧
  ManufacturerLedgerFiles r.2 = ManufacturerLedgerFiles w ∧
  CommonLedgerFile r.2 = CommonLedgerFile w ∧
  Files r.2 !! sync_log_path "drugs" (t 1)
  = Some (SyncService.status_json
            (SyncService.mkSyncStatus "drugs" (t 0) 0 0 "error"
               ("Failed to pull changes from Supabase: "
                +:+ "failed to fetch records from Supabase: "
                +:+ "supabase select error on drugs: " +:+ e))) ∧
  SyncStatusMap r.2 !! "drugs" = SyncStatusMap w !! "drugs" ∧
  (if answered shipments
   then SyncStatusMap r.2 !! "shipments" = Some (t 4) ∧ LastSyncTime r.2 = Some (t 5)
   else SyncStatusMap r.2 !! "shipments" = SyncStatusMap w !! "shipments" ∧
        LastSyncTime r.2 = Some (t 4)) ∧
  trace r.2
  = [(select_all "shipments", shipments); (select_all "drugs", Failure e)] ++ trace w.
Proof.
  intros Hsel r shipments t. subst r shipments t.
  unfold SyncService.performSync, SyncService.syncTable, SyncService.logSyncStatus,
    SyncService.pullChangesFromSupabase, SyncService.pushChangesToSupabase,
    DataStorage.WriteFile, SyncService.tables, select_all in *.
  destruct w as [clk tk uu dr bc mf cf fl th pt sm ls st tr]. cbn [store] in Hsel.
  cbn [for_each]. run. rewrite Hsel. run.
  destruct (Execute _ s) as [[rows|e'] s'] eqn:Hship; run.
  - match goal with
    | |- context [SyncService.pull_records "shipments" ?rs ?n ?w3] =>
        destruct (pull_records_other "shipments" rs n w3) as [count' ->]; [done|]
    end.
    run. split_and!; try reflexivity.
    + rewrite lookup_insert_ne by apply not_eq_sym, sync_logs_differ.
      by rewrite lookup_insert_eq.
    + by rewrite lookup_insert_ne.
    + by rewrite lookup_insert_eq.
  - split_and!; try reflexivity.
    rewrite lookup_insert_ne by apply not_eq_sym, sync_logs_differ.
    by rewrite lookup_insert_eq.
Qed.

End FailedCycle.

(** * The theorems at concrete inputs *)

Section Instances.
Import Example.


(** The ledger methods on a ledger that holds D1 and S1. *)
Lemma C7_ledger_methods_witness :
  ("D1" ∈ map d_DrugID (ml_Drugs ml1)) ∧ ("D2" ∉ map d_DrugID (ml_Drugs ml1)) ∧
  ("S1" ∈ map cs_ShipmentID (cl_Shipments cl1)) ∧
  ("S2" ∉ map cs_ShipmentID (cl_Shipments cl1)) ∧
  ManufacturerLedger.AddDrugRecord t0 t0 t1 "D1" "created" ml1
    = (ml1, Some "drug D1 already exists in ledger") ∧
  (ManufacturerLedger.AddDrugRecord t0 t0 t1 "D2" "created" ml1).2 = None ∧
  ManufacturerLedger.UpdateDrugStatus t0 t1 "D2" "delivered" "" ml1
    = (ml1, Some "drug D2 not found in ledger") ∧
  (ManufacturerLedger.UpdateDrugStatus t0 t1 "D1" "delivered" "" ml1).2 = None ∧
  ml_LastUpdated (ManufacturerLedger.UpdateDrugStatus t0 t1 "D1" "delivered" "" ml1).1
    = rfc3339 t1 ∧
  CommonLedger.AddShipmentRecord t0 t0 t1 "S1" "D1" "M1" "Z1" "created" cl1
    = (cl1, Some "shipment S1 already exists in common ledger") ∧
  CommonLedger.UpdateShipmentStatus t0 t1 "S2" "delivered" "" cl1
    = (cl1, Some "shipment S2 not found in common ledger").
Proof.
  assert (H1 : "D1" ∈ map d_DrugID (ml_Drugs ml1)) by (vm_compute; left).
  assert (H2 : "D2" ∉ map d_DrugID (ml_Drugs ml1))
    by (vm_compute; intros H; repeat (inversion H as [|? ? ? H']; clear H; rename H' into H)).
  assert (H3 : "S1" ∈ map cs_ShipmentID (cl_Shipments cl1)) by (vm_compute; left).
  assert (H4 : "S2" ∉ map cs_ShipmentID (cl_Shipments cl1))
    by (vm_compute; intros H; repeat (inversion H as [|? ? ? H']; clear H; rename H' into H)).
  split_and!; try assumption.
  - destruct (C7_ledger_methods ml1 cl1 t0 t0 t1 "D1" "" "" "" "created" "" "")
      as ([Hc _] & _). exact (Hc H1).
  - destruct (C7_ledger_methods ml1 cl1 t0 t0 t1 "D2" "" "" "" "created" "" "")
      as ([_ Ha] & _). exact (proj1 (Ha H2)).
  - destruct (C7_ledger_methods ml1 cl1 t0 t1 t1 "D2" "" "" "" "delivered" "" "")
      as (_ & _ & [Hn _] & _). exact (Hn H2).
  - destruct (C7_ledger_methods ml1 cl1 t0 t1 t1 "D1" "" "" "" "delivered" "" "")
      as (_ & _ & [_ Hu] & _). exact (proj1 (Hu H1)).
  - destruct (C7_ledger_methods ml1 cl1 t0 t1 t1 "D1" "" "" "" "delivered" "" "")
      as (_ & _ & [_ Hu] & _). exact (proj1 (proj2 (Hu H1))).
  - destruct (C7_ledger_methods ml1 cl1 t0 t0 t1 "S1" "D1" "M1" "Z1" "created" "" "")
      as (_ & _ & _ & _ & _ & [Hc _] & _). exact (Hc H3).
  - destruct (C7_ledger_methods ml1 cl1 t0 t1 t1 "S2" "" "" "" "delivered" "" "")
      as (_ & _ & _ & _ & _ & _ & _ & [Hn _]). exact (Hn H4).
Defined.

(** A request without the header, at a handler without a secret and at one
    with a secret. *)
Lemma C9_signature_check_witness :
  WebhookHandler.Secret open = "" ∧ WebhookHandler.Secret guarded ≠ "" ∧
  WebhookHandler.HandleWebhook insert_parser open (WebhookHandler.mkCtx "" "{}")
    = (WebhookHandler.mkResponse WebhookHandler.StatusOK
         [ ("status", JStr "success");
           ("message", JStr "Webhook received and processing started") ],
       [WebhookHandler.ProcessRecordWithRetry "drugs" drug]) ∧
  WebhookHandler.HandleWebhook insert_parser guarded (WebhookHandler.mkCtx "" "{}")
    = (WebhookHandler.mkResponse WebhookHandler.StatusUnauthorized
         [("error", JStr "Invalid signature")], []) ∧
  WebhookHandler.HandleWebhook insert_parser guarded (WebhookHandler.mkCtx "s3cret" "{}")
    = WebhookHandler.dispatch insert_parser (WebhookHandler.mkCtx "s3cret" "{}").
Proof.
  assert (Hg : WebhookHandler.Secret guarded ≠ "") by discriminate.
  split; [reflexivity|]. split; [exact Hg|].
  split_and!.
  - destruct (C9_signature_check insert_parser open (WebhookHandler.mkCtx "" "{}"))
      as [Hopen _].
    destruct (Hopen eq_refl) as (_ & _ & Hp).
    destruct (Hp _ eq_refl) as [Hins _]. destruct (Hins (or_introl eq_refl)) as [Hs Ht].
    destruct (WebhookHandler.HandleWebhook insert_parser open (WebhookHandler.mkCtx "" "{}"))
      as [[code reply] tasks] eqn:E.
    simpl in *. subst. vm_compute in E. by injection E as <-.
  - destruct (C9_signature_check insert_parser guarded (WebhookHandler.mkCtx "" "{}"))
      as [_ Hsec].
    destruct (Hsec Hg) as (_ & He & _). exact (He eq_refl).
  - destruct (C9_signature_check insert_parser guarded (WebhookHandler.mkCtx "s3cret" "{}"))
      as [_ Hsec].
    destruct (Hsec Hg) as (_ & _ & Hs). exact (Hs eq_refl).
Defined.

Lemma named_example (s : MemStore.Tables) bc fl th pt sm ls tr cf :
  named (mkWorld reading 0 uuid 0 bc {["M1" := ml1]} cf fl th pt sm ls s tr).
Proof.
  intros m ml Hm. cbn in Hm. apply lookup_singleton_Some in Hm as [<- <-]. reflexivity.
Defined.




(** An update of drug D1 and its revert, on the two ledgers that hold it. *)
Lemma C8_histories_only_grow_witness :
  named stale_world ∧
  let ops := [ LedgerUpdateDrugStatus "M1" "D1" "shipped" "";
               ManagerRevertDrug (mkRevertDrugParams "D1" "M1" "recall" "U1" "Lyon") ] in
  Forall (λ op, reconciles op = false) ops ∧
  ledgers_grow stale_world (run_ops insert_parser ops stale_world).
Proof.
  assert (Hnamed : named stale_world) by apply named_example.
  split; [exact Hnamed|]. cbv zeta.
  assert (Hops : Forall (λ op, reconciles op = false)
                   [ LedgerUpdateDrugStatus "M1" "D1" "shipped" "";
                     ManagerRevertDrug (mkRevertDrugParams "D1" "M1" "recall" "U1" "Lyon") ])
    by (repeat constructor).
  split; [exact Hops|].
  exact (proj2 (C8_histories_only_grow insert_parser _ stale_world Hnamed) Hops).
Defined.

(** The INSERT of a drug that names the chain transaction ab12, twice. *)
Lemma C3_replay_is_skipped_witness :
  accepted open request ∧ (0 < WebhookHandler.MaxRetries open)%Z ∧
  Json.get_string "blockchain_tx_id" recorded_drug = Some "ab12" ∧
  ("ab12" ∉ ProcessedTxs world0) ∧
  let w1 := (WebhookHandler.submit (insert_of recorded_drug) open request world0).2 in
  (WebhookHandler.submit (insert_of recorded_drug) open request w1).2 = w1.
Proof.
  assert (Hacc : accepted open request) by (by left).
  assert (Hretries : (0 < WebhookHandler.MaxRetries open)%Z) by (vm_compute; reflexivity).
  assert (Htx : Json.get_string "blockchain_tx_id" recorded_drug = Some "ab12")
    by (vm_compute; reflexivity).
  assert (Hnew : "ab12" ∉ ProcessedTxs world0) by apply not_elem_of_empty.
  split; [exact Hacc|]. split; [exact Hretries|]. split; [exact Htx|]. split; [exact Hnew|].
  assert (Hid : Json.get_string "drug_id" recorded_drug = Some "D1")
    by (vm_compute; reflexivity).
  destruct (C3_replay_is_skipped (insert_of recorded_drug) open request _ "drug_id" "D1" "ab12"
              world0 Hacc Hretries eq_refl eq_refl eq_refl Hid ltac:(discriminate)
              Htx ltac:(discriminate) ltac:(discriminate) Hnew)
    as (_ & _ & _ & _ & Hsame).
  exact Hsame.
Defined.

(** A cycle on the store in which D1 waits and D2 is settled. *)
Lemma C5_sync_cycle_witness :
  Execute (select_all "drugs") (store sync_world)
    = (Rows [waiting_drug; settled_drug], store sync_world) ∧
  Forall is_row [waiting_drug; settled_drug] ∧
  List.filter unrecorded [waiting_drug; settled_drug] = [waiting_drug] ∧
  ∃ blocks, chain (SyncService.performSync sync_world).2 = chain sync_world ++ blocks ∧
            Forall2 (pulled (requests_since sync_world (SyncService.performSync sync_world).2))
                    [waiting_drug] blocks.
Proof.
  assert (Hsel : Execute (select_all "drugs") (store sync_world)
                 = (Rows [waiting_drug; settled_drug], store sync_world))
    by (vm_compute; reflexivity).
  assert (Hrows : Forall is_row [waiting_drug; settled_drug]).
  { repeat constructor; by apply (bool_decide_unpack _). }
  assert (Hids : Forall (λ record, Json.get_string "blockchain_tx_id" record ≠ Some "")
                        [waiting_drug; settled_drug])
    by (repeat constructor; vm_compute; discriminate).
  assert (Hdrugs : Forall (λ record, is_Some (Json.get_string "drug_id" record))
                          (List.filter unrecorded [waiting_drug; settled_drug]))
    by (repeat constructor; vm_compute; by eexists).
  split; [exact Hsel|]. split; [exact Hrows|]. split; [vm_compute; reflexivity|].
  destruct (C5_sync_cycle _ _ sync_world Hsel Hrows Hids Hdrugs) as (_ & blocks & Hchain & Hp & _).
  exists blocks. split; [exact Hchain|exact Hp].
Defined.

End Instances.

(** * The further properties at concrete inputs *)

Section MoreInstances.
Import Example.

(** The reconciliation of manufacturer M1, whose drug D1 the common ledger
    holds under the verification hash "cafe". *)
Lemma X9_reconciliation_by_id_witness :
  ManufacturerLedgerFiles stale_world !! "M1" = Some ml1 ∧
  CommonLedgerFile stale_world = Some cl1 ∧
  CommonLedger.VerifyDrug "D1" "cafe" cl1 = Ok true ∧
  let r := BlockchainLedgerManager.SyncManufacturerLedger "M1" stale_world in
  r.1 = Ok tt ∧
  ∃ cl', CommonLedgerFile r.2 = Some cl' ∧
         CommonLedger.VerifyDrug "D1" "cafe" cl' = Ok false ∧
         CommonLedger.VerifyDrug "D1" "" cl' = Ok true.
Proof.
  assert (Hml : ManufacturerLedgerFiles stale_world !! "M1" = Some ml1)
    by (vm_compute; reflexivity).
  split; [exact Hml|]. split; [reflexivity|]. split; [vm_compute; reflexivity|].
  destruct (X9_reconciliation_by_id "M1" ml1 cl1 stale_world Hml eq_refl)
    as (Hr & _ & _ & _ & cl' & Hcl & _ & _ & _ & Hv).
  split; [exact Hr|]. exists cl'. split; [exact Hcl|].
  assert (Hin : "D1" ∈ map d_DrugID (ml_Drugs ml1)) by (vm_compute; left).
  split; [exact (Hv "D1" "cafe" Hin)|exact (Hv "D1" "" Hin)].
Defined.

(** Drug D1 is created again for manufacturer M1, whose ledger holds it. *)
Lemma X10_CreateDrug_appends_unchecked_witness :
  named stale_world ∧
  ("D1" ∈ map d_DrugID (drugs_of "M1" stale_world)) ∧
  let r := BlockchainLedgerManager.CreateDrug
             (mkCreateDrugParams "D1" "M1" "Aspirin" "" "U1" "Lyon") stale_world in
  r.1 = Ok "D1" ∧ (BlockchainLedgerManager.VerifyDrug "D1" r.2).1 = Ok true.
Proof.
  assert (Hnamed : named stale_world) by apply named_example.
  split; [exact Hnamed|]. split; [vm_compute; left|].
  destruct (X10_CreateDrug_appends_unchecked
              (mkCreateDrugParams "D1" "M1" "Aspirin" "" "U1" "Lyon") stale_world Hnamed)
    as (_ & _ & Hcommon).
  destruct Hcommon as (Hr & _ & Hv). split; [exact Hr|exact Hv].
Defined.

Lemma new_drug_is_row : is_row new_drug.
Proof. by apply (bool_decide_unpack _). Defined.

(** The drug of an INSERT without a transaction id, on an empty chain. *)
Lemma X12_created_transactions_witness :
  is_row new_drug ∧ SyncService.existing_tx new_drug = None ∧
  Forall (present new_drug) Blockchain.requiredFields ∧
  let rd := SyncService.createDrugTransaction new_drug world0 in
  ∃ b, rd.1 = Ok (b_TxHash b, Json.set "blockchain_tx_id" (JStr (b_TxHash b)) new_drug) ∧
       chain rd.2 = chain world0 ++ [b] ∧ b_TxData b = JObj (Json.copy new_drug).
Proof.
  split; [exact new_drug_is_row|]. split; [reflexivity|].
  assert (Hall : Forall (present new_drug) Blockchain.requiredFields)
    by (repeat constructor; vm_compute; by eexists).
  split; [exact Hall|].
  pose proof (X12_created_transactions new_drug world0 new_drug_is_row) as H.
  cbv zeta in H. change (SyncService.existing_tx new_drug) with (@None string) in H.
  cbv beta iota in H. destruct H as [(_ & _ & _ & H) _].
  destruct (decide (Forall (present new_drug) Blockchain.requiredFields)) as [_|Hn];
    [|destruct (Hn Hall)].
  change (Json.get_string "drug_id" new_drug) with (Some "D1") in H. cbv beta iota in H.
  destruct H as (b & Hr & Hchain & Hdata & _).
  exists b. split; [exact Hr|]. split; [exact Hchain|exact Hdata].
Defined.

(** The same drug, announced to a handler with three attempts. *)
Lemma X13_record_is_attempted_once_witness :
  is_row new_drug ∧ record_id "drugs" new_drug = Some "D1" ∧
  (0 < WebhookHandler.MaxRetries open)%Z ∧
  WebhookHandler.processRecordWithRetry open "drugs" new_drug world0
  = (Ok tt, (WebhookHandler.processRecord "drugs" new_drug world0).2) ∧
  record_id "batches" new_drug = None ∧
  WebhookHandler.processRecordWithRetry open "batches" new_drug world0 = (Ok tt, world0).
Proof.
  split; [exact new_drug_is_row|]. split; [reflexivity|].
  assert (Hretries : (0 < WebhookHandler.MaxRetries open)%Z) by (vm_compute; reflexivity).
  split; [exact Hretries|].
  pose proof (X13_record_is_attempted_once open "drugs" new_drug world0 new_drug_is_row) as H.
  cbv zeta in H. change (record_id "drugs" new_drug) with (Some "D1") in H.
  cbv beta iota in H.
  destruct (H ltac:(discriminate) Hretries) as (_ & Hr & _).
  split; [exact Hr|]. split; [reflexivity|].
  exact (X13_record_is_attempted_once open "batches" new_drug world0 new_drug_is_row).
Defined.

(** Drug D2 is created for manufacturer M1 on an empty store. *)
Lemma X15_CreateDrug_writes_in_turn_witness :
  named stale_world ∧
  let params := mkCreateDrugParams "D2" "M1" "Ibuprofen" "" "U1" "Lyon" in
  let r := LedgerManager.CreateDrug params stale_world in
  ∃ b, chain r.2 = chain stale_world ++ [b] ∧ tx_type b = "drug_create" ∧
       tx_field "verification_hash" b
       = Some (LedgerManager.generateVerificationHash "D2" "M1" (rfc3339 t0)).
Proof.
  assert (Hnamed : named stale_world) by apply named_example.
  split; [exact Hnamed|]. cbv zeta.
  destruct (X15_CreateDrug_writes_in_turn
              (mkCreateDrugParams "D2" "M1" "Ibuprofen" "" "U1" "Lyon") stale_world Hnamed)
    as (b & Hchain & Htype & _ & Hhash & _).
  exists b. split; [exact Hchain|]. split; [exact Htype|exact Hhash].
Defined.

(** A cycle at a store that fails every request. *)
Lemma X16_cycle_without_the_drugs_witness :
  let w := fresh Unreachable.down in
  Execute (select_all "drugs") (store w) = (Failure "connection refused", Unreachable.down) ∧
  (SyncService.performSync w).1 = Ok tt ∧
  chain (SyncService.performSync w).2 = chain w ∧
  SyncStatusMap (SyncService.performSync w).2 !! "drugs" = None ∧
  LastSyncTime (SyncService.performSync w).2 = Some (reading 4).
Proof.
  cbv zeta.
  assert (Hsel : Execute (select_all "drugs") (store (fresh Unreachable.down))
                 = (Failure "connection refused", Unreachable.down)) by reflexivity.
  split; [exact Hsel|].
  destruct (X16_cycle_without_the_drugs _ _ (fresh Unreachable.down) Hsel)
    as (Hr & Hchain & _ & _ & _ & Hdrugs & Hship & _).
  split; [exact Hr|]. split; [exact Hchain|]. split; [exact Hdrugs|].
  exact (proj2 Hship).
Defined.

End MoreInstances.
